(** * BigQuery CRUD API: the data-access layer, embedded and verified

    Shallow embedding of the repository's JavaScript sources:

    - [src/services/bigquery.js]      : the lazily created client ([getClient]),
                                        [executeQuery], [insertRows],
                                        [getDataset], [getTable] and
                                        [ensureTableExists];
    - the repository module, of which the tree holds two copies:
        [src/unnamed/part_000]                 (module [Repository]),
        [src/repositories/baseRepository.js]   (module [BaseRepository]);
      they differ in the INSERT and UPDATE texts ([PARSE_JSON(@data)]
      against [@data]), in the types handed to [executeQuery] by [update],
      and in how a row's [data] column is decoded;
    - the CRUD controller (second half of [src/services/bigquery.js]):
      [sendResponse] and the five handlers;
    - [src/routes/index.js] and [src/app.js]: the routes, the request
      logger, the probes, the 404 handler and the error handler (module
      [App]);
    - the server entry point [startServer] ([src/unnamed/part_002]);
    - [src/config/index.js]           : the configuration record the
                                        data-access layer reads, and its
                                        loading from the environment
                                        (module [Config]).

    JavaScript values are modelled by the type [json] (plus [undefined]),
    the built-ins [JSON.stringify], [JSON.parse] and [parseInt] by
    executable functions, and the warehouse behind [client.query] by an
    interpreter of the six statements the repository issues.  Awaited
    calls are computations over the process state ([world]) that either
    resolve or throw.

    The definitions come first; lemmas and theorems follow, from
    [Facts about JSON texts] on. *)

From Stdlib Require Import ZArith List String Ascii Bool Lia.
From Stdlib Require Import DecimalFacts DecimalPos DecimalN DecimalZ.
Import ListNotations.

Local Open Scope list_scope.
Local Open Scope string_scope.

Set Warnings "-register-all".

(* ================================================================== *)
(** * JavaScript values *)
(* ================================================================== *)

(** A JSON value, as [express.json()] hands it to the controller and as
    the warehouse client hands rows back.  Numbers are the integers (the
    repository types [value] as INT64); an object is the list of its own
    properties in insertion order. *)
Inductive json : Type :=
| JNull
| JBool (b : bool)
| JNum (n : Z)
| JStr (s : string)
| JArr (xs : list json)
| JObj (kvs : list (string * json)).

(** A JavaScript value that may also be [undefined] (an absent property). *)
Definition jsval : Type := option json.
Definition undefined : jsval := None.

Definition json_size_list (size : json -> nat) (xs : list json) : nat :=
  fold_right (fun x n => S (size x + n)) 0 xs.

Definition json_size_members (size : json -> nat) (kvs : list (string * json)) : nat :=
  fold_right (fun kv n => S (size (snd kv) + n)) 0 kvs.

(** Number of nodes of a value; bounds the fuel the parser needs. *)
Fixpoint json_size (v : json) : nat :=
  match v with
  | JArr xs => S (json_size_list json_size xs)
  | JObj kvs => S (json_size_members json_size kvs)
  | _ => 1
  end.

(** [typeof v === 'string'] *)
Definition is_string (v : json) : bool :=
  match v with JStr _ => true | _ => false end.

(** JavaScript truthiness (ToBoolean) of a defined value: [null], [false],
    [0] and the empty string are falsy, everything else is truthy. *)
Definition truthy (v : json) : bool :=
  match v with
  | JNull => false
  | JBool b => b
  | JNum n => negb (Z.eqb n 0)
  | JStr s => negb (String.eqb s EmptyString)
  | JArr _ => true
  | JObj _ => true
  end.

(** Truthiness of a possibly-undefined value. *)
Definition js_truthy (v : jsval) : bool :=
  match v with
  | None => false
  | Some j => truthy j
  end.

(** [v !== undefined] *)
Definition is_defined (v : jsval) : bool :=
  match v with None => false | Some _ => true end.

(** [v || null] *)
Definition or_null (v : jsval) : json :=
  match v with
  | Some j => if truthy j then j else JNull
  | None => JNull
  end.

(* ================================================================== *)
(** * JSON.stringify and JSON.parse *)
(* ================================================================== *)

Module JSON.

Definition dquote : ascii := "034"%char.
Definition backslash : ascii := "092"%char.

Definition str1 (c : ascii) : string := String c EmptyString.
Definition str2 (c d : ascii) : string := String c (String d EmptyString).

Definition hex_digit (n : N) : ascii :=
  if (n <? 10)%N then ascii_of_N (48 + n) else ascii_of_N (87 + n).

(** How [JSON.stringify] writes one character of a string. *)
Definition escape_char (c : ascii) : string :=
  if (c =? dquote)%char then str2 backslash dquote
  else if (c =? backslash)%char then str2 backslash backslash
  else if (c =? "008")%char then str2 backslash "b"
  else if (c =? "012")%char then str2 backslash "f"
  else if (c =? "010")%char then str2 backslash "n"
  else if (c =? "013")%char then str2 backslash "r"
  else if (c =? "009")%char then str2 backslash "t"
  else if (N_of_ascii c <? 32)%N then
    String backslash
      (String "u" (String "0" (String "0"
         (String (hex_digit (N_of_ascii c / 16))
            (String (hex_digit (N_of_ascii c mod 16)) EmptyString)))))
  else str1 c.

Fixpoint escape (s : string) : string :=
  match s with
  | EmptyString => EmptyString
  | String c r => escape_char c ++ escape r
  end.

Definition quote (s : string) : string :=
  String dquote (escape s ++ str1 dquote).

Fixpoint digits_text (d : Decimal.uint) : string :=
  match d with
  | Decimal.Nil => EmptyString
  | Decimal.D0 r => String "0" (digits_text r)
  | Decimal.D1 r => String "1" (digits_text r)
  | Decimal.D2 r => String "2" (digits_text r)
  | Decimal.D3 r => String "3" (digits_text r)
  | Decimal.D4 r => String "4" (digits_text r)
  | Decimal.D5 r => String "5" (digits_text r)
  | Decimal.D6 r => String "6" (digits_text r)
  | Decimal.D7 r => String "7" (digits_text r)
  | Decimal.D8 r => String "8" (digits_text r)
  | Decimal.D9 r => String "9" (digits_text r)
  end.

Definition number_text (n : Z) : string :=
  match Z.to_int n with
  | Decimal.Pos d => digits_text d
  | Decimal.Neg d => String "-" (digits_text d)
  end.

(** [JSON.stringify(v)] for a defined value: no white space, members in
    property order, numbers in decimal. *)
Fixpoint stringify (v : json) : string :=
  match v with
  | JNull => "null"
  | JBool true => "true"
  | JBool false => "false"
  | JNum n => number_text n
  | JStr s => quote s
  | JArr xs =>
      let fix elements (xs : list json) : string :=
        match xs with
        | [] => EmptyString
        | x :: rest =>
            match rest with
            | [] => stringify x
            | _ :: _ => stringify x ++ String "," (elements rest)
            end
        end in
      String "[" (elements xs ++ "]")
  | JObj kvs =>
      let fix members (kvs : list (string * json)) : string :=
        match kvs with
        | [] => EmptyString
        | (k, x) :: rest =>
            match rest with
            | [] => quote k ++ String ":" (stringify x)
            | _ :: _ => quote k ++ String ":" (stringify x) ++ String "," (members rest)
            end
        end in
      String "{" (members kvs ++ "}")
  end.

(** The two inner loops of [stringify], named. *)
Fixpoint elements_text (xs : list json) : string :=
  match xs with
  | [] => EmptyString
  | x :: rest =>
      match rest with
      | [] => stringify x
      | _ :: _ => stringify x ++ String "," (elements_text rest)
      end
  end.

Fixpoint members_text (kvs : list (string * json)) : string :=
  match kvs with
  | [] => EmptyString
  | (k, x) :: rest =>
      match rest with
      | [] => quote k ++ String ":" (stringify x)
      | _ :: _ => quote k ++ String ":" (stringify x) ++ String "," (members_text rest)
      end
  end.

(** ** The parser *)

Definition is_ws (c : ascii) : bool :=
  (c =? " ")%char || (c =? "009")%char || (c =? "010")%char || (c =? "013")%char.

Fixpoint skip_ws (s : string) : string :=
  match s with
  | String c r => if is_ws c then skip_ws r else s
  | EmptyString => s
  end.

Definition digit_of (c : ascii) : option (Decimal.uint -> Decimal.uint) :=
  if (c =? "0")%char then Some Decimal.D0
  else if (c =? "1")%char then Some Decimal.D1
  else if (c =? "2")%char then Some Decimal.D2
  else if (c =? "3")%char then Some Decimal.D3
  else if (c =? "4")%char then Some Decimal.D4
  else if (c =? "5")%char then Some Decimal.D5
  else if (c =? "6")%char then Some Decimal.D6
  else if (c =? "7")%char then Some Decimal.D7
  else if (c =? "8")%char then Some Decimal.D8
  else if (c =? "9")%char then Some Decimal.D9
  else None.

(** The longest run of decimal digits at the head of [s]. *)
Fixpoint parse_digits (s : string) : Decimal.uint * string :=
  match s with
  | String c r =>
      match digit_of c with
      | Some mk => let (d, rest) := parse_digits r in (mk d, rest)
      | None => (Decimal.Nil, s)
      end
  | EmptyString => (Decimal.Nil, s)
  end.

(** A fraction or an exponent follows: a number outside the integers. *)
Definition continues_number (s : string) : bool :=
  match s with
  | String c _ => (c =? ".")%char || (c =? "e")%char || (c =? "E")%char
  | EmptyString => false
  end.

Definition parse_magnitude (s : string) : option (Decimal.uint * string) :=
  match parse_digits s with
  | (Decimal.Nil, _) => None
  | (Decimal.D0 (Decimal.Nil), rest) =>
      if continues_number rest then None else Some (Decimal.D0 Decimal.Nil, rest)
  | (Decimal.D0 _, _) => None
  | (d, rest) => if continues_number rest then None else Some (d, rest)
  end.

Definition parse_number (s : string) : option (json * string) :=
  match s with
  | String c r =>
      if (c =? "-")%char then
        match parse_magnitude r with
        | Some (d, rest) => Some (JNum (Z.of_int (Decimal.Neg d)), rest)
        | None => None
        end
      else
        match parse_magnitude s with
        | Some (d, rest) => Some (JNum (Z.of_int (Decimal.Pos d)), rest)
        | None => None
        end
  | EmptyString => None
  end.

Definition hex_value (c : ascii) : option N :=
  let n := N_of_ascii c in
  if ((48 <=? n) && (n <=? 57))%N then Some (n - 48)%N
  else if ((97 <=? n) && (n <=? 102))%N then Some (n - 87)%N
  else if ((65 <=? n) && (n <=? 70))%N then Some (n - 55)%N
  else None.

Definition hex4 (a b c d : ascii) : option N :=
  match hex_value a, hex_value b, hex_value c, hex_value d with
  | Some x, Some y, Some z, Some w => Some (((x * 16 + y) * 16 + z) * 16 + w)%N
  | _, _, _, _ => None
  end.

(** The bytes (UTF-8) of a code point of the basic plane. *)
Definition utf8 (cp : N) : string :=
  if (cp <? 128)%N then str1 (ascii_of_N cp)
  else if (cp <? 2048)%N then
    str2 (ascii_of_N (192 + cp / 64)) (ascii_of_N (128 + cp mod 64))
  else
    String (ascii_of_N (224 + cp / 4096))
      (str2 (ascii_of_N (128 + (cp / 64) mod 64)) (ascii_of_N (128 + cp mod 64))).

Definition prepend (p : string) (r : option (string * string)) : option (string * string) :=
  match r with
  | Some (str, rest) => Some (p ++ str, rest)
  | None => None
  end.

(** The characters of a string literal, after its opening quote, up to
    and including the closing quote. *)
Fixpoint parse_chars (s : string) : option (string * string) :=
  match s with
  | EmptyString => None
  | String c r =>
      if (c =? dquote)%char then Some (EmptyString, r)
      else if (c =? backslash)%char then
        match r with
        | EmptyString => None
        | String e r1 =>
            if (e =? dquote)%char then prepend (str1 dquote) (parse_chars r1)
            else if (e =? backslash)%char then prepend (str1 backslash) (parse_chars r1)
            else if (e =? "/")%char then prepend (str1 "/") (parse_chars r1)
            else if (e =? "b")%char then prepend (str1 "008") (parse_chars r1)
            else if (e =? "f")%char then prepend (str1 "012") (parse_chars r1)
            else if (e =? "n")%char then prepend (str1 "010") (parse_chars r1)
            else if (e =? "r")%char then prepend (str1 "013") (parse_chars r1)
            else if (e =? "t")%char then prepend (str1 "009") (parse_chars r1)
            else if (e =? "u")%char then
              match r1 with
              | String h1 (String h2 (String h3 (String h4 r2))) =>
                  match hex4 h1 h2 h3 h4 with
                  | Some cp => prepend (utf8 cp) (parse_chars r2)
                  | None => None
                  end
              | _ => None
              end
            else None
        end
      else if (N_of_ascii c <? 32)%N then None
      else prepend (str1 c) (parse_chars r)
  end.

(** [expect lit s]: [s] with the literal [lit] removed from its head. *)
Fixpoint expect (lit s : string) : option string :=
  match lit with
  | EmptyString => Some s
  | String c lit' =>
      match s with
      | String d s' => if (c =? d)%char then expect lit' s' else None
      | EmptyString => None
      end
  end.

Definition keyword (lit : string) (v : json) (s : string) : option (json * string) :=
  match expect lit s with
  | Some rest => Some (v, rest)
  | None => None
  end.

(** Recursive descent; every call spends one unit of [fuel].  The
    members of an object are kept as written (JavaScript keeps the last
    of two members with one key; [stringify] never writes such a text),
    and a number with a fraction or an exponent, which [json] cannot
    hold, is refused. *)
Fixpoint parse_value (fuel : nat) (s : string) {struct fuel} : option (json * string) :=
  match fuel with
  | O => None
  | S f =>
      match skip_ws s with
      | EmptyString => None
      | String c r =>
          if (c =? "n")%char then keyword "ull" JNull r
          else if (c =? "t")%char then keyword "rue" (JBool true) r
          else if (c =? "f")%char then keyword "alse" (JBool false) r
          else if (c =? dquote)%char then
            match parse_chars r with
            | Some (str, rest) => Some (JStr str, rest)
            | None => None
            end
          else if (c =? "[")%char then
            match expect "]" (skip_ws r) with
            | Some rest => Some (JArr [], rest)
            | None =>
                match parse_elements f r with
                | Some (xs, rest) => Some (JArr xs, rest)
                | None => None
                end
            end
          else if (c =? "{")%char then
            match expect "}" (skip_ws r) with
            | Some rest => Some (JObj [], rest)
            | None =>
                match parse_members f r with
                | Some (kvs, rest) => Some (JObj kvs, rest)
                | None => None
                end
            end
          else parse_number (String c r)
      end
  end

with parse_elements (fuel : nat) (s : string) {struct fuel} : option (list json * string) :=
  match fuel with
  | O => None
  | S f =>
      match parse_value f s with
      | None => None
      | Some (x, r) =>
          match skip_ws r with
          | EmptyString => None
          | String c r' =>
              if (c =? ",")%char then
                match parse_elements f r' with
                | Some (xs, rest) => Some (x :: xs, rest)
                | None => None
                end
              else if (c =? "]")%char then Some ([x], r')
              else None
          end
      end
  end

with parse_members (fuel : nat) (s : string) {struct fuel}
  : option (list (string * json) * string) :=
  match fuel with
  | O => None
  | S f =>
      match expect (str1 dquote) (skip_ws s) with
      | None => None
      | Some r =>
          match parse_chars r with
          | None => None
          | Some (k, r1) =>
              match expect ":" (skip_ws r1) with
              | None => None
              | Some r2 =>
                  match parse_value f r2 with
                  | None => None
                  | Some (x, r3) =>
                      match skip_ws r3 with
                      | EmptyString => None
                      | String c r4 =>
                          if (c =? ",")%char then
                            match parse_members f r4 with
                            | Some (kvs, rest) => Some ((k, x) :: kvs, rest)
                            | None => None
                            end
                          else if (c =? "}")%char then Some ([(k, x)], r4)
                          else None
                      end
                  end
              end
          end
      end
  end.

(** [JSON.parse(s)]: [None] stands for the thrown [SyntaxError]. *)
Definition parse (s : string) : option json :=
  match parse_value (S (String.length s)) s with
  | Some (v, rest) =>
      match skip_ws rest with
      | EmptyString => Some v
      | String _ _ => None
      end
  | None => None
  end.


(** What may follow a value inside a text produced by [stringify]. *)
Definition ends_value (rest : string) : bool :=
  match rest with
  | EmptyString => true
  | String c _ => (c =? ",")%char || (c =? "]")%char || (c =? "}")%char
  end.

(** A text that begins a value: neither white space nor a closing bracket. *)
Definition starts_value (s : string) : bool :=
  match s with
  | String c _ => negb (is_ws c) && negb (c =? "]")%char && negb (c =? "}")%char
  | EmptyString => false
  end.

(** The statement proved by induction on the value. *)
Definition parses_back (v : json) : Prop :=
  forall fuel rest,
    json_size v <= fuel -> ends_value rest = true ->
    parse_value fuel (stringify v ++ rest) = Some (v, rest).

End JSON.

(* ================================================================== *)
(** * Objects, coercions *)
(* ================================================================== *)

Fixpoint assoc {A : Type} (k : string) (l : list (string * A)) : option A :=
  match l with
  | [] => None
  | (k', v) :: rest => if String.eqb k k' then Some v else assoc k rest
  end.

(** [o.k]: the property [k] of the object [o]; [undefined] when [o] has
    no such property (or is no object). *)
Definition get_prop (o : json) (k : string) : jsval :=
  match o with
  | JObj kvs => assoc k kvs
  | _ => None
  end.

Fixpoint set_assoc (k : string) (v : json) (l : list (string * json)) : list (string * json) :=
  match l with
  | [] => [(k, v)]
  | (k', v') :: rest =>
      if String.eqb k k' then (k', v) :: rest else (k', v') :: set_assoc k v rest
  end.

(** [{ ...o, k: v }]: a copy of [o] in which property [k] is [v]. *)
Definition set_prop (k : string) (v : json) (o : json) : json :=
  match o with
  | JObj kvs => JObj (set_assoc k v kvs)
  | _ => JObj [(k, v)]
  end.

(** ToString of a defined value, as [JSON.parse] applies it to an argument
    that is not a string. *)
Fixpoint to_string (v : json) : string :=
  match v with
  | JNull => "null"
  | JBool true => "true"
  | JBool false => "false"
  | JNum n => JSON.number_text n
  | JStr s => s
  | JArr xs =>
      let item (x : json) : string :=
        match x with JNull => EmptyString | _ => to_string x end in
      let fix join (xs : list json) : string :=
        match xs with
        | [] => EmptyString
        | x :: rest =>
            match rest with
            | [] => item x
            | _ :: _ => item x ++ String "," (join rest)
            end
        end in
      join xs
  | JObj _ => "[object Object]"
  end.

(* ================================================================== *)
(** * [parseInt(text, 10)] *)
(* ================================================================== *)

(** The white space [parseInt] skips at the head of its argument
    (StrWhiteSpaceChar): TAB, LF, VT, FF, CR and SP ... *)
Definition is_white_space (c : ascii) : bool :=
  (c =? "009")%char || (c =? "010")%char || (c =? "011")%char
  || (c =? "012")%char || (c =? "013")%char || (c =? " ")%char.

(** ... U+00A0, in the two bytes of its UTF-8 form ... *)
Definition is_white_space2 (c d : ascii) : bool :=
  (c =? "194")%char && (d =? "160")%char.

(** ... and U+1680, U+2000 to U+200A, U+2028, U+2029, U+202F, U+205F,
    U+3000 and U+FEFF, in three bytes. *)
Definition is_white_space3 (c d e : ascii) : bool :=
  let n := N_of_ascii e in
  ((c =? "225")%char && (d =? "154")%char && (e =? "128")%char)
  || ((c =? "226")%char && (d =? "128")%char
      && (((128 <=? n) && (n <=? 138)) || (n =? 168) || (n =? 169) || (n =? 175))%N)
  || ((c =? "226")%char && (d =? "129")%char && (e =? "159")%char)
  || ((c =? "227")%char && (d =? "128")%char && (e =? "128")%char)
  || ((c =? "239")%char && (d =? "187")%char && (e =? "191")%char).

Fixpoint trimStart (s : string) : string :=
  match s with
  | String c r =>
      if is_white_space c then trimStart r
      else
        match r with
        | String d r2 =>
            if is_white_space2 c d then trimStart r2
            else
              match r2 with
              | String e r3 => if is_white_space3 c d e then trimStart r3 else s
              | EmptyString => s
              end
        | EmptyString => s
        end
  | EmptyString => s
  end.

(** [parseInt(text, 10)]; [None] is NaN.  Leading white space is skipped,
    one sign is read, then the longest run of decimal digits; what follows
    the digits is ignored, and without a digit the result is NaN.  With
    the radix given as 10 no [0x] prefix is recognised.  (As everywhere in
    this development a number is an integer: the rounding of an
    integer beyond 2^53 to a double is not modelled.) *)
Definition parseInt (text : string) : option Z :=
  let s := trimStart text in
  let signed : bool * string :=
    match s with
    | String c r =>
        if (c =? "-")%char then (true, r)
        else if (c =? "+")%char then (false, r)
        else (false, s)
    | EmptyString => (false, s)
    end in
  match JSON.parse_digits (snd signed) with
  | (Decimal.Nil, _) => None
  | (d, _) => Some (Z.of_int (if fst signed then Decimal.Neg d else Decimal.Pos d))
  end.

(** The integers a JavaScript number holds exactly
    (up to Number.MAX_SAFE_INTEGER in absolute value). *)
Definition safe_integer (n : Z) : Prop := (Z.abs n <= 9007199254740991)%Z.

(** [parseInt(v, 10)] for an argument that may not be a string: it is
    converted to one first ([undefined] reads as the text of that name). *)
Definition parseInt_of (v : jsval) : option Z :=
  match v with
  | Some j => parseInt (to_string j)
  | None => parseInt "undefined"
  end.

(** [n || d] for a number [n] that may be NaN: NaN and 0 are falsy. *)
Definition number_or (n : option Z) (d : Z) : Z :=
  match n with
  | Some z => if (z =? 0)%Z then d else z
  | None => d
  end.

(* ================================================================== *)
(** * The process state and awaited computations *)
(* ================================================================== *)

(** [src/config/index.js] *)
Record config : Type := {
  projectId : string;
  bigquery_dataset : string;
  bigquery_table : string;
  bigquery_location : string;
  server_port : Z;
  enableMockMode : bool          (* config.features.enableMockMode *)
}.

(** A value held by the warehouse in one column of one row. *)
Inductive cell : Type :=
| CNull
| CString (s : string)
| CInt (n : Z)
| CBool (b : bool)
| CJson (j : json).

(** A row of the six-column items table. *)
Record row : Type := {
  c_id : cell;
  c_name : cell;
  c_value : cell;
  c_data : cell;
  c_created_at : cell;
  c_updated_at : cell
}.

(** SQL expressions and statements the repository writes.  [Param n] is
    the placeholder [@n]; [ParseJson n] is [PARSE_JSON(@n)]. *)
Inductive expr : Type :=
| Param (name : string)
| ParseJson (name : string).

Inductive statement : Type :=
| Insert (table : string) (columns : list string) (values : list expr)
| SelectPage (table : string) (orderBy : string)
| SelectById (table : string)
| Update (table : string) (setClauses : list (string * expr))
| Delete (table : string)
| CountAll (table : string).

(** The [options] object handed to [client.query]. *)
Record query_options : Type := {
  query : statement;
  params : list (string * json);
  location : string;
  types : option (list (string * string))
}.

(** What leaves the process towards the warehouse. *)
Inductive remote_call : Type :=
| CallQuery (options : query_options)
| CallDatasetExists (dataset : string)
| CallDatasetCreate (dataset : string)
| CallTableExists (table : string)
| CallTableCreate (table : string) (schema : list (string * string * string))
| CallTableInsert (dataset table : string) (rows : list json).

Inductive console_line : Type :=
| ConsoleLog (text : string)
| ConsoleWarn (text : string).

Inductive error : Type :=
| SyntaxError                       (* thrown by JSON.parse *)
| QueryError (reason : string).     (* thrown by the client library *)

Inductive result (A : Type) : Type :=
| Ok (a : A)
| Throw (e : error).
Arguments Ok {A} a.
Arguments Throw {A} e.

(** Everything an awaited call can read or change. *)
Record world : Type := {
  cfg : config;
  (* module state of services/bigquery.js: [let bigqueryClient = null] *)
  bigqueryClient : option nat;
  constructed : nat;                 (* how often [new BigQuery] ran *)
  (* the warehouse *)
  dataset_present : bool;
  table_present : bool;
  rows : list row;
  json_as_text : bool;               (* the client returns JSON columns as text *)
  faults : list bool;                (* [true]: the next remote call fails *)
  calls : list remote_call;          (* remote calls made so far, oldest first *)
  (* the environment *)
  console : list console_line;
  tick : nat;
  uuid_at : nat -> string;           (* what uuidv4() returns at a tick *)
  iso_at : nat -> string;            (* what new Date().toISOString() returns *)
  listening : option Z               (* port handed to app.listen *)
}.

Definition with_client (c : option nat) (n : nat) (w : world) : world :=
  {| cfg := cfg w; bigqueryClient := c; constructed := n;
     dataset_present := dataset_present w; table_present := table_present w;
     rows := rows w; json_as_text := json_as_text w; faults := faults w;
     calls := calls w; console := console w; tick := tick w;
     uuid_at := uuid_at w; iso_at := iso_at w; listening := listening w |}.

Definition with_store (d t : bool) (rs : list row) (w : world) : world :=
  {| cfg := cfg w; bigqueryClient := bigqueryClient w; constructed := constructed w;
     dataset_present := d; table_present := t;
     rows := rs; json_as_text := json_as_text w; faults := faults w;
     calls := calls w; console := console w; tick := tick w;
     uuid_at := uuid_at w; iso_at := iso_at w; listening := listening w |}.

Definition with_remote (fs : list bool) (cs : list remote_call) (w : world) : world :=
  {| cfg := cfg w; bigqueryClient := bigqueryClient w; constructed := constructed w;
     dataset_present := dataset_present w; table_present := table_present w;
     rows := rows w; json_as_text := json_as_text w; faults := fs;
     calls := cs; console := console w; tick := tick w;
     uuid_at := uuid_at w; iso_at := iso_at w; listening := listening w |}.

Definition with_console (c : list console_line) (w : world) : world :=
  {| cfg := cfg w; bigqueryClient := bigqueryClient w; constructed := constructed w;
     dataset_present := dataset_present w; table_present := table_present w;
     rows := rows w; json_as_text := json_as_text w; faults := faults w;
     calls := calls w; console := c; tick := tick w;
     uuid_at := uuid_at w; iso_at := iso_at w; listening := listening w |}.

Definition with_tick (n : nat) (w : world) : world :=
  {| cfg := cfg w; bigqueryClient := bigqueryClient w; constructed := constructed w;
     dataset_present := dataset_present w; table_present := table_present w;
     rows := rows w; json_as_text := json_as_text w; faults := faults w;
     calls := calls w; console := console w; tick := n;
     uuid_at := uuid_at w; iso_at := iso_at w; listening := listening w |}.

Definition with_listening (p : option Z) (w : world) : world :=
  {| cfg := cfg w; bigqueryClient := bigqueryClient w; constructed := constructed w;
     dataset_present := dataset_present w; table_present := table_present w;
     rows := rows w; json_as_text := json_as_text w; faults := faults w;
     calls := calls w; console := console w; tick := tick w;
     uuid_at := uuid_at w; iso_at := iso_at w; listening := p |}.

(** An [async] function: it runs in a world, and resolves or rejects. *)
Definition M (A : Type) : Type := world -> result A * world.

Definition ret {A : Type} (a : A) : M A := fun w => (Ok a, w).

Definition throw {A : Type} (e : error) : M A := fun w => (Throw e, w).

Definition bind {A B : Type} (m : M A) (k : A -> M B) : M B :=
  fun w =>
    match m w with
    | (Ok a, w') => k a w'
    | (Throw e, w') => (Throw e, w')
    end.

(** [try { m } catch (err) { h err }] *)
Definition try_catch {A : Type} (m : M A) (h : error -> M A) : M A :=
  fun w =>
    match m w with
    | (Ok a, w') => (Ok a, w')
    | (Throw e, w') => h e w'
    end.

Declare Scope async_scope.
Delimit Scope async_scope with async.
Notation "x <- m ;; k" := (bind m (fun x => k))
  (at level 61, m at next level, right associativity) : async_scope.
Notation "m ;; k" := (bind m (fun _ => k))
  (at level 61, right associativity) : async_scope.
Local Open Scope async_scope.

Fixpoint mapM {A B : Type} (f : A -> M B) (l : list A) : M (list B) :=
  match l with
  | [] => ret []
  | x :: rest => y <- f x ;; ys <- mapM f rest ;; ret (y :: ys)
  end.

Definition console_log (text : string) : M unit :=
  fun w => (Ok tt, with_console (console w ++ [ConsoleLog text])%list w).

Definition console_warn (text : string) : M unit :=
  fun w => (Ok tt, with_console (console w ++ [ConsoleWarn text])%list w).

(** [uuidv4()] *)
Definition uuidv4 : M string :=
  fun w => (Ok (uuid_at w (tick w)), with_tick (S (tick w)) w).

(** [new Date().toISOString()] *)
Definition date_now_iso : M string :=
  fun w => (Ok (iso_at w (tick w)), with_tick (S (tick w)) w).

(* ================================================================== *)
(** * The warehouse behind [client.query]

    The client library and the warehouse are not part of the repository;
    this is the model the proofs run against.  A statement acts on the one
    items table; [ORDER BY] is left to the warehouse (rows come back in
    store order), and column modes (REQUIRED) are not enforced.

    The model is simpler than the service in these respects, which the
    statements proved below stay clear of through their hypotheses: a
    column takes any value (the declared column types are not enforced),
    an INT64 is any integer, a number of a JSON value is an integer, a
    TIMESTAMP comes back as the text that was stored (the client wraps it
    in an object), the text spliced in after [ORDER BY] is not
    interpreted, and a call that fails does so before its statement
    runs. *)
(* ================================================================== *)

Module Warehouse.

Definition backtick : ascii := "096"%char.

(** [`project.dataset.table`] *)
Definition qualified (project dataset table : string) : string :=
  String backtick
    (project ++ String "." (dataset ++ String "." (table ++ String backtick EmptyString))).

Fixpoint join (sep : string) (l : list string) : string :=
  match l with
  | [] => EmptyString
  | x :: rest =>
      match rest with
      | [] => x
      | _ :: _ => x ++ sep ++ join sep rest
      end
  end.

Definition expr_text (e : expr) : string :=
  match e with
  | Param n => String "@" n
  | ParseJson n => "PARSE_JSON(@" ++ n ++ ")"
  end.

Definition clause_text (c : string * expr) : string :=
  fst c ++ " = " ++ expr_text (snd c).

(** The SQL text of a statement, as the repository's template literals
    spell it (up to white space). *)
Definition sql_text (s : statement) : string :=
  match s with
  | Insert t cols vals =>
      "INSERT INTO " ++ t ++ " (" ++ join ", " cols ++ ") VALUES ("
        ++ join ", " (map expr_text vals) ++ ")"
  | SelectPage t orderBy =>
      "SELECT id, name, value, data, created_at, updated_at FROM " ++ t
        ++ " ORDER BY " ++ orderBy ++ " LIMIT @limit OFFSET @offset"
  | SelectById t =>
      "SELECT id, name, value, data, created_at, updated_at FROM " ++ t
        ++ " WHERE id = @id LIMIT 1"
  | Update t sets =>
      "UPDATE " ++ t ++ " SET " ++ join ", " (map clause_text sets) ++ " WHERE id = @id"
  | Delete t => "DELETE FROM " ++ t ++ " WHERE id = @id"
  | CountAll t => "SELECT COUNT(*) as total FROM " ++ t
  end.

Definition statement_table (s : statement) : string :=
  match s with
  | Insert t _ _ | SelectPage t _ | SelectById t | Update t _ | Delete t | CountAll t => t
  end.

(** The declared type of a parameter, if [types] names it. *)
Definition declared (types : option (list (string * string))) (name : string) : option string :=
  match types with
  | Some ts => assoc name ts
  | None => None
  end.

(** The client library turns a JavaScript parameter into a typed SQL
    value.  A [null] carries no type of its own: without a declared type
    the library refuses it. *)
Definition bind_param (types : option (list (string * string))) (name : string) (v : json)
  : option cell :=
  match v, declared types name with
  | JNull, Some _ => Some CNull
  | JNull, None => None
  | JStr s, None => Some (CString s)
  | JStr s, Some ty => if String.eqb ty "STRING" then Some (CString s) else None
  | JNum n, None => Some (CInt n)
  | JNum n, Some ty => if String.eqb ty "INT64" then Some (CInt n) else None
  | JBool b, None => Some (CBool b)
  | JBool b, Some ty => if String.eqb ty "BOOL" then Some (CBool b) else None
  | _, _ => None
  end.

Fixpoint bind_params (types : option (list (string * string))) (ps : list (string * json))
  : option (list (string * cell)) :=
  match ps with
  | [] => Some []
  | (name, v) :: rest =>
      match bind_param types name v, bind_params types rest with
      | Some c, Some cs => Some ((name, c) :: cs)
      | _, _ => None
      end
  end.

Definition eval (env : list (string * cell)) (e : expr) : option cell :=
  match e with
  | Param n => assoc n env
  | ParseJson n =>
      match assoc n env with
      | Some CNull => Some CNull
      | Some (CString text) =>
          match JSON.parse text with
          | Some j => Some (CJson j)
          | None => None
          end
      | _ => None
      end
  end.

Definition empty_row : row :=
  {| c_id := CNull; c_name := CNull; c_value := CNull; c_data := CNull;
     c_created_at := CNull; c_updated_at := CNull |}.

Definition set_column (column : string) (c : cell) (r : row) : option row :=
  if String.eqb column "id" then
    Some {| c_id := c; c_name := c_name r; c_value := c_value r; c_data := c_data r;
            c_created_at := c_created_at r; c_updated_at := c_updated_at r |}
  else if String.eqb column "name" then
    Some {| c_id := c_id r; c_name := c; c_value := c_value r; c_data := c_data r;
            c_created_at := c_created_at r; c_updated_at := c_updated_at r |}
  else if String.eqb column "value" then
    Some {| c_id := c_id r; c_name := c_name r; c_value := c; c_data := c_data r;
            c_created_at := c_created_at r; c_updated_at := c_updated_at r |}
  else if String.eqb column "data" then
    Some {| c_id := c_id r; c_name := c_name r; c_value := c_value r; c_data := c;
            c_created_at := c_created_at r; c_updated_at := c_updated_at r |}
  else if String.eqb column "created_at" then
    Some {| c_id := c_id r; c_name := c_name r; c_value := c_value r; c_data := c_data r;
            c_created_at := c; c_updated_at := c_updated_at r |}
  else if String.eqb column "updated_at" then
    Some {| c_id := c_id r; c_name := c_name r; c_value := c_value r; c_data := c_data r;
            c_created_at := c_created_at r; c_updated_at := c |}
  else None.

(** Evaluate the assignments [column := expression] in turn. *)
Fixpoint assignments (env : list (string * cell)) (sets : list (string * expr))
  : option (list (string * cell)) :=
  match sets with
  | [] => Some []
  | (column, e) :: rest =>
      match eval env e, assignments env rest with
      | Some c, Some cs => Some ((column, c) :: cs)
      | _, _ => None
      end
  end.

Fixpoint assign (cs : list (string * cell)) (r : row) : option row :=
  match cs with
  | [] => Some r
  | (column, c) :: rest =>
      match set_column column c r with
      | Some r' => assign rest r'
      | None => None
      end
  end.

(** SQL equality [a = b] as a filter: never true on NULL. *)
Definition cell_eqb (a b : cell) : bool :=
  match a, b with
  | CString x, CString y => String.eqb x y
  | CInt x, CInt y => Z.eqb x y
  | CBool x, CBool y => Bool.eqb x y
  | _, _ => false
  end.

Definition matches (id : cell) (r : row) : bool := cell_eqb (c_id r) id.

(** [UPDATE ... SET cs WHERE id = @id] over the rows. *)
Fixpoint update_rows (id : cell) (cs : list (string * cell)) (rs : list row)
  : option (list row) :=
  match rs with
  | [] => Some []
  | r :: rest =>
      match (if matches id r then assign cs r else Some r), update_rows id cs rest with
      | Some r', Some rest' => Some (r' :: rest')
      | _, _ => None
      end
  end.

(** How the client hands a stored value to JavaScript. *)
Definition cell_to_js (as_text : bool) (c : cell) : json :=
  match c with
  | CNull => JNull
  | CString s => JStr s
  | CInt n => JNum n
  | CBool b => JBool b
  | CJson j => if as_text then JStr (JSON.stringify j) else j
  end.

Definition row_to_js (as_text : bool) (r : row) : json :=
  JObj [ ("id", cell_to_js as_text (c_id r));
         ("name", cell_to_js as_text (c_name r));
         ("value", cell_to_js as_text (c_value r));
         ("data", cell_to_js as_text (c_data r));
         ("created_at", cell_to_js as_text (c_created_at r));
         ("updated_at", cell_to_js as_text (c_updated_at r)) ].

(** A row handed to the streaming insert, column by column. *)
Definition js_to_cell (v : jsval) : cell :=
  match v with
  | None | Some JNull => CNull
  | Some (JStr s) => CString s
  | Some (JNum n) => CInt n
  | Some (JBool b) => CBool b
  | Some j => CJson j
  end.

Definition row_of_js (o : json) : row :=
  {| c_id := js_to_cell (get_prop o "id");
     c_name := js_to_cell (get_prop o "name");
     c_value := js_to_cell (get_prop o "value");
     c_data := js_to_cell (get_prop o "data");
     c_created_at := js_to_cell (get_prop o "created_at");
     c_updated_at := js_to_cell (get_prop o "updated_at") |}.

Definition zip_assignments (columns : list string) (values : list expr)
  : option (list (string * expr)) :=
  if Nat.eqb (List.length columns) (List.length values)
  then Some (combine columns values) else None.

(** One statement against the rows: the result rows and the new rows, or
    [None] when the warehouse rejects the statement. *)
Definition run (as_text : bool) (s : statement) (env : list (string * cell)) (rs : list row)
  : option (list json * list row) :=
  match s with
  | Insert _ columns values =>
      match zip_assignments columns values with
      | None => None
      | Some sets =>
          match assignments env sets with
          | None => None
          | Some cs =>
              match assign cs empty_row with
              | Some r => Some ([], (rs ++ [r])%list)
              | None => None
              end
          end
      end
  | SelectPage _ _ =>
      match assoc "limit" env, assoc "offset" env with
      | Some (CInt limit), Some (CInt offset) =>
          if ((0 <=? limit) && (0 <=? offset))%Z
          then Some (map (row_to_js as_text)
                       (firstn (Z.to_nat limit) (skipn (Z.to_nat offset) rs)), rs)
          else None
      | _, _ => None
      end
  | SelectById _ =>
      match assoc "id" env with
      | Some id => Some (map (row_to_js as_text) (firstn 1 (filter (matches id) rs)), rs)
      | None => None
      end
  | Update _ sets =>
      match assoc "id" env, assignments env sets with
      | Some id, Some cs =>
          match update_rows id cs rs with
          | Some rs' => Some ([], rs')
          | None => None
          end
      | _, _ => None
      end
  | Delete _ =>
      match assoc "id" env with
      | Some id => Some ([], filter (fun r => negb (matches id r)) rs)
      | None => None
      end
  | CountAll _ =>
      Some ([JObj [("total", JNum (Z.of_nat (List.length rs)))]], rs)
  end.

End Warehouse.

(* ================================================================== *)
(** * [src/services/bigquery.js] *)
(* ================================================================== *)

Module BigqueryService.

(** [getClient]: the module variable [bigqueryClient] starts as [null];
    the first call constructs the client, later calls return it. *)
Definition getClient : M nat :=
  fun w =>
    match bigqueryClient w with
    | None =>
        let c := constructed w in
        (Ok c, with_client (Some c) (S (constructed w)) w)
    | Some c => (Ok c, w)
    end.

(** A call into the client library is recorded. *)
Definition record_call (c : remote_call) : M unit :=
  fun w => (Ok tt, with_remote (faults w) (calls w ++ [c])%list w).

(** The round trip to the warehouse fails when the fault schedule says so. *)
Definition transport : M unit :=
  fun w =>
    let w' := with_remote (tl (faults w)) (calls w) w in
    match faults w with
    | true :: _ => (Throw (QueryError "transport failure"), w')
    | _ => (Ok tt, w')
    end.

Definition remote (c : remote_call) : M unit :=
  record_call c ;; transport.

(** The table the configuration names. *)
Definition configured_table (w : world) : string :=
  Warehouse.qualified (projectId (cfg w)) (bigquery_dataset (cfg w)) (bigquery_table (cfg w)).

Definition table_reachable (t : string) (w : world) : bool :=
  String.eqb t (configured_table w) && dataset_present w && table_present w.

(** [client.query(options)] of the client library: the parameters are
    typed first, then the statement travels to the warehouse. *)
Definition client_query (client : nat) (options : query_options) : M (list json) :=
  record_call (CallQuery options) ;;
  match Warehouse.bind_params (types options) (params options) with
  | None => throw (QueryError "parameter types must be provided for null values")
  | Some env =>
      transport ;;
      fun w =>
        if table_reachable (Warehouse.statement_table (query options)) w then
          match Warehouse.run (json_as_text w) (query options) env (rows w) with
          | Some (result_rows, rs) =>
              (Ok result_rows, with_store (dataset_present w) (table_present w) rs w)
          | None => (Throw (QueryError "statement rejected"), w)
          end
        else (Throw (QueryError "table not found"), w)
  end.

(** [executeQuery(query, params = {}, types = null)] *)
Definition executeQuery (q : statement) (ps : list (string * json))
    (ts : option (list (string * string))) : M (list json) :=
  client <- getClient ;;
  fun w =>
    let options :=
      {| query := q; params := ps; location := bigquery_location (cfg w);
         (* if (types) options.types = types *)
         types := ts |} in
    client_query client options w.

(** [table.insert(rows)] of the client library (the streaming insert). *)
Definition table_insert (datasetId tableId : string) (rs : list json) : M unit :=
  remote (CallTableInsert datasetId tableId rs) ;;
  fun w =>
    if String.eqb datasetId (bigquery_dataset (cfg w))
       && String.eqb tableId (bigquery_table (cfg w))
       && dataset_present w && table_present w
    then (Ok tt, with_store true true (rows w ++ map Warehouse.row_of_js rs)%list w)
    else (Throw (QueryError "table not found"), w).

(** [insertRows(datasetId, tableId, rows)] *)
Definition insertRows (datasetId tableId : string) (rs : list json) : M unit :=
  client <- getClient ;;
  table_insert datasetId tableId rs.

(** [getDataset(datasetId)] and [getTable(tableId, datasetId)]: references
    obtained from the shared client. *)
Definition getDataset (datasetId : string) : M (nat * string) :=
  client <- getClient ;; ret (client, datasetId).

Definition getTable (tableId datasetId : string) : M (nat * string * string) :=
  dataset <- getDataset datasetId ;; ret (dataset, tableId).

Definition schema : list (string * string * string) :=
  [ ("id", "STRING", "REQUIRED");
    ("name", "STRING", "REQUIRED");
    ("value", "INT64", "NULLABLE");
    ("data", "JSON", "NULLABLE");
    ("created_at", "TIMESTAMP", "REQUIRED");
    ("updated_at", "TIMESTAMP", "REQUIRED") ].

(** [dataset.exists()] *)
Definition dataset_exists (name : string) : M bool :=
  remote (CallDatasetExists name) ;;
  fun w => (Ok (dataset_present w), w).

(** [dataset.create()]: the warehouse refuses to create what exists. *)
Definition dataset_create (name : string) : M unit :=
  remote (CallDatasetCreate name) ;;
  fun w =>
    if dataset_present w then (Throw (QueryError "dataset already exists"), w)
    else (Ok tt, with_store true false [] w).

(** [table.exists()] *)
Definition table_exists (name : string) : M bool :=
  remote (CallTableExists name) ;;
  fun w => (Ok (dataset_present w && table_present w), w).

(** [table.create({ schema })] *)
Definition table_create (name : string) (sch : list (string * string * string)) : M unit :=
  remote (CallTableCreate name sch) ;;
  fun w =>
    if negb (dataset_present w) then (Throw (QueryError "dataset not found"), w)
    else if table_present w then (Throw (QueryError "table already exists"), w)
    else (Ok tt, with_store true true [] w).

(** [ensureTableExists] *)
Definition ensureTableExists : M unit :=
  client <- getClient ;;
  dataset <- (fun w => (Ok (bigquery_dataset (cfg w)), w)) ;;
  datasetExists <- dataset_exists dataset ;;
  (if negb datasetExists then
     dataset_create dataset ;;
     console_log ("Dataset " ++ dataset ++ " created.")
   else ret tt) ;;
  table <- (fun w => (Ok (bigquery_table (cfg w)), w)) ;;
  tableExists <- table_exists table ;;
  (if negb tableExists then
     table_create table schema ;;
     console_log ("Table " ++ table ++ " created.")
   else ret tt).

End BigqueryService.

(* ================================================================== *)
(** * The repository *)
(* ================================================================== *)

(** The argument of [create]: [{ name, value, data }]. *)
Record create_input : Type := {
  in_name : json;
  in_value : jsval;
  in_data : jsval
}.

(** The argument of [findAll]: [{ limit, offset, orderBy }]. *)
Record find_options : Type := {
  opt_limit : jsval;
  opt_offset : jsval;
  opt_orderBy : option string
}.

(** The second argument of [update]: [{ name, value, data }]. *)
Record patch : Type := {
  p_name : jsval;
  p_value : jsval;
  p_data : jsval
}.

(** The object [createRepository] returns. *)
Record repository : Type := {
  m_create : create_input -> M json;
  m_findAll : find_options -> M (list json);
  m_findById : json -> M json;
  m_update : json -> patch -> M json;
  m_delete : json -> M bool;
  m_count : M json
}.

Definition is_null (v : json) : bool :=
  match v with JNull => true | _ => false end.

(** [v !== undefined && v !== null ? v : null] *)
Definition defined_or_null (v : jsval) : json :=
  match v with
  | Some j => if negb (is_null j) then j else JNull
  | None => JNull
  end.

(** [v ? JSON.stringify(v) : null] *)
Definition stringify_or_null (v : jsval) : json :=
  match v with
  | Some j => if truthy j then JStr (JSON.stringify j) else JNull
  | None => JNull
  end.

(** A destructuring default: [const { k = d } = options]. *)
Definition default_to (d : json) (v : jsval) : json :=
  match v with
  | Some j => j
  | None => d
  end.

(** [JSON.parse(v)]: the argument is converted to a string first. *)
Definition JSON_parse (v : json) : M json :=
  match JSON.parse (to_string v) with
  | Some j => ret j
  | None => throw SyntaxError
  end.

(** What [update] assembles before it calls [executeQuery]. *)
Record update_parts : Type := {
  u_setClauses : list (string * expr);
  u_params : list (string * json);
  u_types : list (string * string)
}.

(** [setClauses.push(clause); params.k = v; types.k = t] *)
Definition push_part (clause : string * expr) (param : string * json)
    (type : string * string) (u : update_parts) : update_parts :=
  {| u_setClauses := (u_setClauses u ++ [clause])%list;
     u_params := (u_params u ++ [param])%list;
     u_types := (u_types u ++ [type])%list |}.

Definition item_columns : list string :=
  ["id"; "name"; "value"; "data"; "created_at"; "updated_at"].

(** [rows[0]?.total || 0] *)
Definition first_total (rs : list json) : json :=
  match rs with
  | [] => JNum 0
  | r :: _ =>
      match get_prop r "total" with
      | Some t => if truthy t then t else JNum 0
      | None => JNum 0
      end
  end.

(** ** [src/unnamed/part_000] *)

Module Repository.

Section Methods.

(** [fullTableName], fixed when the repository is created. *)
Variable fullTableName : string.

Definition create (data : create_input) : M json :=
  id <- uuidv4 ;;
  now <- date_now_iso ;;
  let value := defined_or_null (in_value data) in
  let text := stringify_or_null (in_data data) in
  let record :=
    JObj [ ("id", JStr id); ("name", in_name data); ("value", value);
           ("data", text); ("created_at", JStr now); ("updated_at", JStr now) ] in
  let query :=
    Insert fullTableName item_columns
      [ Param "id"; Param "name"; Param "value"; ParseJson "data";
        Param "created_at"; Param "updated_at" ] in
  let types :=
    [ ("id", "STRING"); ("name", "STRING"); ("value", "INT64");
      ("data", "STRING"); ("created_at", "STRING"); ("updated_at", "STRING") ] in
  BigqueryService.executeQuery query
    [ ("id", JStr id); ("name", in_name data); ("value", value);
      ("data", text); ("created_at", JStr now); ("updated_at", JStr now) ]
    (Some types) ;;
  ret (set_prop "data" (or_null (in_data data)) record).

(** [{ ...row, data: typeof row.data === 'string' ? JSON.parse(row.data) : row.data }] *)
Definition decode (row : json) : M json :=
  match get_prop row "data" with
  | Some d =>
      if is_string d then
        parsed <- JSON_parse d ;; ret (set_prop "data" parsed row)
      else ret (set_prop "data" d row)
  | None => ret row
  end.

Definition findAll (options : find_options) : M (list json) :=
  let limit := default_to (JNum 100) (opt_limit options) in
  let offset := default_to (JNum 0) (opt_offset options) in
  let orderBy :=
    match opt_orderBy options with Some o => o | None => "created_at DESC" end in
  rows <- BigqueryService.executeQuery (SelectPage fullTableName orderBy)
            [ ("limit", limit); ("offset", offset) ] None ;;
  mapM decode rows.

Definition findById (id : json) : M json :=
  rows <- BigqueryService.executeQuery (SelectById fullTableName) [ ("id", id) ] None ;;
  match rows with
  | [] => ret JNull
  | row :: _ => decode row
  end.

(** [update] grows three things side by side: the SET clauses, the
    parameters and their types. *)
Definition update_start (id : json) (now : string) : update_parts :=
  {| u_setClauses := [ ("updated_at", Param "updated_at") ];
     u_params := [ ("id", id); ("updated_at", JStr now) ];
     u_types := [ ("id", "STRING"); ("updated_at", "STRING") ] |}.

(** [if (data.name !== undefined) { ... }] *)
Definition update_name (data : patch) (u : update_parts) : update_parts :=
  match p_name data with
  | Some name => push_part ("name", Param "name") ("name", name) ("name", "STRING") u
  | None => u
  end.

(** [if (data.value !== undefined) { ... }] *)
Definition update_value (data : patch) (u : update_parts) : update_parts :=
  match p_value data with
  | Some value => push_part ("value", Param "value") ("value", value) ("value", "INT64") u
  | None => u
  end.

(** [if (data.data !== undefined) { ... }] *)
Definition update_data (data : patch) (u : update_parts) : update_parts :=
  match p_data data with
  | Some d =>
      push_part ("data", ParseJson "data") ("data", JStr (JSON.stringify d))
        ("data", "STRING") u
  | None => u
  end.

Definition update_build (id : json) (now : string) (data : patch) : update_parts :=
  update_data data (update_value data (update_name data (update_start id now))).

Definition update (id : json) (data : patch) : M json :=
  now <- date_now_iso ;;
  let u := update_build id now data in
  BigqueryService.executeQuery (Update fullTableName (u_setClauses u))
    (u_params u) (Some (u_types u)) ;;
  findById id.

Definition delete (id : json) : M bool :=
  BigqueryService.executeQuery (Delete fullTableName) [ ("id", id) ] None ;;
  ret true.

Definition count : M json :=
  rows <- BigqueryService.executeQuery (CountAll fullTableName) [] None ;;
  ret (first_total rows).

End Methods.

Definition createRepository (c : config) (tableName datasetName : string) : repository :=
  let fullTableName := Warehouse.qualified (projectId c) datasetName tableName in
  {| m_create := create fullTableName;
     m_findAll := findAll fullTableName;
     m_findById := findById fullTableName;
     m_update := update fullTableName;
     m_delete := delete fullTableName;
     m_count := count fullTableName |}.

(** [createRepository()]: table and dataset default to the configuration. *)
Definition defaults (c : config) : repository :=
  createRepository c (bigquery_table c) (bigquery_dataset c).

End Repository.

(** ** [src/repositories/baseRepository.js] *)

Module BaseRepository.

Section Methods.

Variable fullTableName : string.

Definition create (data : create_input) : M json :=
  id <- uuidv4 ;;
  now <- date_now_iso ;;
  let value := defined_or_null (in_value data) in
  let text := stringify_or_null (in_data data) in
  let record :=
    JObj [ ("id", JStr id); ("name", in_name data); ("value", value);
           ("data", text); ("created_at", JStr now); ("updated_at", JStr now) ] in
  let query :=
    Insert fullTableName item_columns
      [ Param "id"; Param "name"; Param "value"; Param "data";
        Param "created_at"; Param "updated_at" ] in
  let types :=
    [ ("id", "STRING"); ("name", "STRING"); ("value", "INT64");
      ("data", "STRING"); ("created_at", "STRING"); ("updated_at", "STRING") ] in
  BigqueryService.executeQuery query
    [ ("id", JStr id); ("name", in_name data); ("value", value);
      ("data", text); ("created_at", JStr now); ("updated_at", JStr now) ]
    (Some types) ;;
  ret (set_prop "data" (or_null (in_data data)) record).

(** [{ ...row, data: row.data ? JSON.parse(row.data) : null }] *)
Definition decode (row : json) : M json :=
  if js_truthy (get_prop row "data") then
    match get_prop row "data" with
    | Some d => parsed <- JSON_parse d ;; ret (set_prop "data" parsed row)
    | None => ret row
    end
  else ret (set_prop "data" JNull row).

Definition findAll (options : find_options) : M (list json) :=
  let limit := default_to (JNum 100) (opt_limit options) in
  let offset := default_to (JNum 0) (opt_offset options) in
  let orderBy :=
    match opt_orderBy options with Some o => o | None => "created_at DESC" end in
  rows <- BigqueryService.executeQuery (SelectPage fullTableName orderBy)
            [ ("limit", limit); ("offset", offset) ] None ;;
  mapM decode rows.

Definition findById (id : json) : M json :=
  rows <- BigqueryService.executeQuery (SelectById fullTableName) [ ("id", id) ] None ;;
  match rows with
  | [] => ret JNull
  | row :: _ => decode row
  end.

(** [update] grows the SET clauses and the parameters side by side;
    this copy keeps no types ([u_types] stays empty and is not passed on). *)
Definition update_start (id : json) (now : string) : update_parts :=
  {| u_setClauses := [ ("updated_at", Param "updated_at") ];
     u_params := [ ("id", id); ("updated_at", JStr now) ];
     u_types := [] |}.

Definition push_untyped (clause : string * expr) (param : string * json)
    (u : update_parts) : update_parts :=
  {| u_setClauses := (u_setClauses u ++ [clause])%list;
     u_params := (u_params u ++ [param])%list;
     u_types := u_types u |}.

(** [if (data.name !== undefined) { ... }] *)
Definition update_name (data : patch) (u : update_parts) : update_parts :=
  match p_name data with
  | Some name => push_untyped ("name", Param "name") ("name", name) u
  | None => u
  end.

(** [if (data.value !== undefined) { ... }] *)
Definition update_value (data : patch) (u : update_parts) : update_parts :=
  match p_value data with
  | Some value => push_untyped ("value", Param "value") ("value", value) u
  | None => u
  end.

(** [if (data.data !== undefined) { ... }] *)
Definition update_data (data : patch) (u : update_parts) : update_parts :=
  match p_data data with
  | Some d => push_untyped ("data", Param "data") ("data", JStr (JSON.stringify d)) u
  | None => u
  end.

Definition update_build (id : json) (now : string) (data : patch) : update_parts :=
  update_data data (update_value data (update_name data (update_start id now))).

(** [executeQuery(query, params)]: no third argument. *)
Definition update (id : json) (data : patch) : M json :=
  now <- date_now_iso ;;
  let u := update_build id now data in
  BigqueryService.executeQuery (Update fullTableName (u_setClauses u))
    (u_params u) None ;;
  findById id.

Definition delete (id : json) : M bool :=
  BigqueryService.executeQuery (Delete fullTableName) [ ("id", id) ] None ;;
  ret true.

Definition count : M json :=
  rows <- BigqueryService.executeQuery (CountAll fullTableName) [] None ;;
  ret (first_total rows).

End Methods.

Definition createRepository (c : config) (tableName datasetName : string) : repository :=
  let fullTableName := Warehouse.qualified (projectId c) datasetName tableName in
  {| m_create := create fullTableName;
     m_findAll := findAll fullTableName;
     m_findById := findById fullTableName;
     m_update := update fullTableName;
     m_delete := delete fullTableName;
     m_count := count fullTableName |}.

(** [createRepository()]: table and dataset default to the configuration. *)
Definition defaults (c : config) : repository :=
  createRepository c (bigquery_table c) (bigquery_dataset c).

End BaseRepository.

(* ================================================================== *)
(** * The CRUD controller (second half of [src/services/bigquery.js]) *)
(* ================================================================== *)

Module Controller.

(** The JSON envelope [sendResponse] writes. *)
Record response : Type := {
  status : Z;
  success : bool;
  timestamp : string;
  message : option string;
  data : jsval
}.

(** [req.body] of a POST or PUT: [{ name, value, data }]. *)
Record body : Type := {
  b_name : jsval;
  b_value : jsval;
  b_data : jsval
}.

(** [sendResponse(res, status, data, message = null)] *)
Definition sendResponse (st : Z) (d : jsval) (msg : option string) : M response :=
  now <- date_now_iso ;;
  ret {| status := st;
         success := ((200 <=? st) && (st <? 300))%Z;
         timestamp := now;
         (* if (message) response.message = message *)
         message := match msg with
                    | Some m => if String.eqb m EmptyString then None else Some m
                    | None => None
                    end;
         (* if (data !== undefined) response.data = data *)
         data := d |}.

(** [req.query] of the list request: the texts of [limit], [offset] and
    [orderBy] where the query string gives them. *)
Record list_query : Type := {
  q_limit : option string;
  q_offset : option string;
  q_orderBy : option string
}.

(** The numbers the list handler reads from the query:
    [const { limit = 100, offset = 0 } = req.query], each through
    [parseInt(_, 10)].  [None] when one of them is NaN, a number outside
    the values of [json]: the handler below is modelled for the queries
    whose limit and offset are integers. *)
Definition page (q : list_query) : option (Z * Z) :=
  match parseInt_of (Some (default_to (JNum 100) (option_map JStr (q_limit q)))),
        parseInt_of (Some (default_to (JNum 0) (option_map JStr (q_offset q)))) with
  | Some limit, Some offset => Some (limit, offset)
  | _, _ => None
  end.

Section Handlers.

(** [const repository = createRepository()].  The handlers for POST, GET
    by id, PUT and DELETE follow, then the list handler. *)
Variable repository : repository.

Definition create (b : body) : M response :=
  match b_name b with
  | Some name =>
      if truthy name then
        item <- m_create repository
                  {| in_name := name; in_value := b_value b; in_data := b_data b |} ;;
        sendResponse 201 (Some item) (Some "Item created successfully")
      else sendResponse 400 (Some JNull) (Some "Name is required")
  | None => sendResponse 400 (Some JNull) (Some "Name is required")
  end.

Definition findById (id : json) : M response :=
  item <- m_findById repository id ;;
  if negb (truthy item) then sendResponse 404 (Some JNull) (Some "Item not found")
  else sendResponse 200 (Some item) None.

Definition update (id : json) (b : body) : M response :=
  existing <- m_findById repository id ;;
  if negb (truthy existing) then sendResponse 404 (Some JNull) (Some "Item not found")
  else
    item <- m_update repository id
              {| p_name := b_name b; p_value := b_value b; p_data := b_data b |} ;;
    sendResponse 200 (Some item) (Some "Item updated successfully").

Definition delete (id : json) : M response :=
  existing <- m_findById repository id ;;
  if negb (truthy existing) then sendResponse 404 (Some JNull) (Some "Item not found")
  else
    m_delete repository id ;;
    sendResponse 200 (Some JNull) (Some "Item deleted successfully").

(** The list handler, once [limit] and [offset] are read ([page]):
    [repository.findAll({ limit, offset, orderBy })], then
    [repository.count()], then the envelope with [items] and
    [pagination]. *)
Definition findAll (limit offset : Z) (orderBy : option string) : M response :=
  items <- m_findAll repository
             {| opt_limit := Some (JNum limit); opt_offset := Some (JNum offset);
                opt_orderBy := orderBy |} ;;
  total <- m_count repository ;;
  sendResponse 200
    (Some (JObj [ ("items", JArr items);
                  ("pagination",
                   JObj [ ("total", total); ("limit", JNum limit);
                          ("offset", JNum offset) ]) ]))
    None.

End Handlers.

End Controller.

(* ================================================================== *)
(** * The server entry point ([src/unnamed/part_002]) *)
(* ================================================================== *)

Module Server.

Definition error_message (e : error) : string :=
  match e with
  | SyntaxError => "Unexpected token in JSON"
  | QueryError reason => reason
  end.

(** [app.listen(PORT, callback)]: the server listens on the configured
    port and the callback prints the banner (a box of seven lines in the
    source, kept here as its title and status). *)
Definition app_listen : M unit :=
  fun w =>
    let port := server_port (cfg w) in
    console_log "BigQuery CRUD API Server: Running" (with_listening (Some port) w).

Definition startServer : M unit :=
  try_catch
    (console_log "Initializing BigQuery..." ;;
     BigqueryService.ensureTableExists ;;
     console_log "BigQuery ready!")
    (fun err =>
       console_warn ("BigQuery initialization warning: " ++ error_message err) ;;
       console_warn
         "Continuing anyway - tables may need manual creation or mock mode enabled.") ;;
  app_listen.

End Server.

(* ================================================================== *)
(** * Worlds used to describe outcomes, and sample worlds *)
(* ================================================================== *)

(** The handle [getClient] returns in a world, and the world it leaves. *)
Definition client_handle (w : world) : nat :=
  match bigqueryClient w with
  | Some c => c
  | None => constructed w
  end.

Definition client_ready (w : world) : world :=
  match bigqueryClient w with
  | Some c => w
  | None => with_client (Some (constructed w)) (S (constructed w)) w
  end.

(** The options [executeQuery] builds. *)
Definition options_of (q : statement) (ps : list (string * json))
    (ts : option (list (string * string))) (w : world) : query_options :=
  {| query := q; params := ps; location := bigquery_location (cfg w); types := ts |}.

(** The world after a statement went through and left the rows [rs]. *)
Definition queried (q : statement) (ps : list (string * json))
    (ts : option (list (string * string))) (rs : list row) (w : world) : world :=
  with_store (dataset_present w) (table_present w) rs
    (with_remote (tl (faults w)) (calls w ++ [CallQuery (options_of q ps ts w)])%list
       (client_ready w)).

(** The world after a statement was refused or lost: only the call is
    recorded (and, when it travelled, the fault schedule advanced). *)
Definition refused (travelled : bool) (q : statement) (ps : list (string * json))
    (ts : option (list (string * string))) (w : world) : world :=
  with_remote (if travelled then tl (faults w) else faults w)
    (calls w ++ [CallQuery (options_of q ps ts w)])%list (client_ready w).

Definition next_call_fails (w : world) : bool :=
  match faults w with
  | true :: _ => true
  | _ => false
  end.

(** The dataset and the table exist (the provisioner ran, or they were
    created by hand). *)
Definition provisioned (w : world) : Prop :=
  dataset_present w = true /\ table_present w = true.

(** A sample configuration and a freshly started, provisioned process. *)
Definition sample_config : config :=
  {| projectId := "demo-project";
     bigquery_dataset := "test_dataset";
     bigquery_table := "items";
     bigquery_location := "US";
     server_port := 8080;
     enableMockMode := false |}.

Definition sample_world : world :=
  {| cfg := sample_config;
     bigqueryClient := None;
     constructed := 0;
     dataset_present := true;
     table_present := true;
     rows := [];
     json_as_text := true;
     faults := [];
     calls := [];
     console := [];
     tick := 0;
     uuid_at := fun n => "uuid-" ++ JSON.number_text (Z.of_nat n);
     iso_at := fun n => "2024-01-01T00:00:0" ++ JSON.number_text (Z.of_nat n) ++ "Z";
     listening := None |}.

(** A provisioned process that already holds one item. *)
Definition sample_row : row :=
  {| c_id := CString "item-1";
     c_name := CString "Test Item";
     c_value := CInt 42;
     c_data := CJson (JObj [("foo", JStr "bar")]);
     c_created_at := CString "2023-12-31T23:59:59Z";
     c_updated_at := CString "2023-12-31T23:59:59Z" |}.

Definition stocked_world : world := with_store true true [sample_row] sample_world.

(** The same process started with [ENABLE_MOCK_MODE=true]. *)
Definition mock_config : config :=
  {| projectId := "demo-project";
     bigquery_dataset := "test_dataset";
     bigquery_table := "items";
     bigquery_location := "US";
     server_port := 8080;
     enableMockMode := true |}.

Definition mock_world : world :=
  {| cfg := mock_config;
     bigqueryClient := None;
     constructed := 0;
     dataset_present := true;
     table_present := true;
     rows := [sample_row];
     json_as_text := true;
     faults := [];
     calls := [];
     console := [];
     tick := 0;
     uuid_at := uuid_at sample_world;
     iso_at := iso_at sample_world;
     listening := None |}.

(** How many [client.query] calls a computation adds to the record. *)
Definition queries_made {A : Type} (m : M A) (w : world) : nat :=
  List.length (calls (snd (m w))) - List.length (calls w).

Definition sample_input : create_input :=
  {| in_name := JStr "Test Item";
     in_value := Some (JNum 42);
     in_data := Some (JObj [("foo", JStr "bar")]) |}.

Definition no_options : find_options :=
  {| opt_limit := None; opt_offset := None; opt_orderBy := None |}.

Definition empty_patch : patch :=
  {| p_name := None; p_value := None; p_data := None |}.

(** Every [null] among the parameters of a call has a declared type. *)
Definition nulls_typed (o : query_options) : Prop :=
  forall name, In (name, JNull) (params o) ->
               exists ty, Warehouse.declared (types o) name = Some ty.

(** A patch that sets [value] to [null]: the body [{ "value": null }]. *)
Definition null_value_patch : patch :=
  {| p_name := None; p_value := Some JNull; p_data := None |}.

(** A row as a client that deserializes JSON columns hands it over. *)
Definition deserialized_row : json :=
  JObj [ ("id", JStr "item-1"); ("name", JStr "Test Item"); ("value", JNum 42);
         ("data", JObj [("foo", JStr "bar")]);
         ("created_at", JStr "2023-12-31T23:59:59Z");
         ("updated_at", JStr "2023-12-31T23:59:59Z") ].

(** ** Everything the process can do *)

(** Which copy of the repository module is loaded. *)
Inductive copy : Type :=
| Part000
| BaseCopy.

Definition repository_of (c : copy) (w : world) : repository :=
  match c with
  | Part000 => Repository.defaults (cfg w)
  | BaseCopy => BaseRepository.defaults (cfg w)
  end.

(** The entry points of the service, the repository, the controller and
    the server. *)
Inductive operation : Type :=
| OpGetClient
| OpExecuteQuery (q : statement) (ps : list (string * json))
    (ts : option (list (string * string)))
| OpInsertRows (datasetId tableId : string) (rs : list json)
| OpGetDataset (datasetId : string)
| OpGetTable (tableId datasetId : string)
| OpEnsureTableExists
| OpCreate (c : copy) (input : create_input)
| OpFindAll (c : copy) (options : find_options)
| OpFindById (c : copy) (id : json)
| OpUpdate (c : copy) (id : json) (data : patch)
| OpDelete (c : copy) (id : json)
| OpCount (c : copy)
| OpHandleCreate (c : copy) (b : Controller.body)
| OpHandleFindById (c : copy) (id : json)
| OpHandleUpdate (c : copy) (id : json) (b : Controller.body)
| OpHandleDelete (c : copy) (id : json)
| OpStartServer.

(** The world an operation leaves, whether it resolved or rejected. *)
Definition perform (op : operation) (w : world) : world :=
  match op with
  | OpGetClient => snd (BigqueryService.getClient w)
  | OpExecuteQuery q ps ts => snd (BigqueryService.executeQuery q ps ts w)
  | OpInsertRows d t rs => snd (BigqueryService.insertRows d t rs w)
  | OpGetDataset d => snd (BigqueryService.getDataset d w)
  | OpGetTable t d => snd (BigqueryService.getTable t d w)
  | OpEnsureTableExists => snd (BigqueryService.ensureTableExists w)
  | OpCreate c input => snd (m_create (repository_of c w) input w)
  | OpFindAll c options => snd (m_findAll (repository_of c w) options w)
  | OpFindById c id => snd (m_findById (repository_of c w) id w)
  | OpUpdate c id data => snd (m_update (repository_of c w) id data w)
  | OpDelete c id => snd (m_delete (repository_of c w) id w)
  | OpCount c => snd (m_count (repository_of c w) w)
  | OpHandleCreate c b => snd (Controller.create (repository_of c w) b w)
  | OpHandleFindById c id => snd (Controller.findById (repository_of c w) id w)
  | OpHandleUpdate c id b => snd (Controller.update (repository_of c w) id b w)
  | OpHandleDelete c id => snd (Controller.delete (repository_of c w) id w)
  | OpStartServer => snd (Server.startServer w)
  end.

Definition perform_all (ops : list operation) (w : world) : world :=
  fold_left (fun w op => perform op w) ops w.

(** What one step may do to the module state: the configuration stays,
    and the variable [bigqueryClient] changes not at all, or from [null]
    to a newly constructed client. *)
Definition client_step (w w' : world) : Prop :=
  cfg w' = cfg w /\
  ((bigqueryClient w' = bigqueryClient w /\ constructed w' = constructed w) \/
   (bigqueryClient w = None /\
    bigqueryClient w' = Some (constructed w) /\
    constructed w' = S (constructed w))).

Definition keeps_client {A : Type} (m : M A) : Prop :=
  forall w, client_step w (snd (m w)).

(** The module as loaded: no client yet. *)
Definition freshly_loaded (w : world) : Prop :=
  bigqueryClient w = None /\ constructed w = 0.

(** The two states the module variable can be in during a run. *)
Definition client_invariant (w : world) : Prop :=
  freshly_loaded w \/ (bigqueryClient w = Some 0 /\ constructed w = 1).

(** The world after a round trip that did not fail. *)
Definition sent (c : remote_call) (w : world) : world :=
  with_remote (tl (faults w)) (calls w ++ [c])%list w.

(** No failure is scheduled for any coming round trip. *)
Definition healthy (w : world) : Prop :=
  forall b, In b (faults w) -> b = false.

Definition is_creation (c : remote_call) : bool :=
  match c with
  | CallDatasetCreate _ | CallTableCreate _ _ => true
  | CallQuery _ | CallDatasetExists _ | CallTableExists _ | CallTableInsert _ _ _ => false
  end.

(** The world [startServer] hands to [ensureTableExists]. *)
Definition initializing (w : world) : world :=
  with_console (console w ++ [ConsoleLog "Initializing BigQuery..."])%list w.

(** A process whose warehouse holds neither the dataset nor the table. *)
Definition bare_world : world := with_store false false [] sample_world.

(** A process whose credentials cannot reach the warehouse: the first
    round trip fails. *)
Definition unreachable_world : world := with_remote [true] [] bare_world.

(** ** What [create] is expected to leave behind *)

(** A valid argument of [create]: a non-empty name, and a value that is
    absent, [null] or an integer.  The data may be any JSON value. *)
Definition valid_input (i : create_input) : bool :=
  match in_name i with
  | JStr s => negb (String.eqb s EmptyString)
  | _ => false
  end
  && match in_value i with
     | None | Some JNull | Some (JNum _) => true
     | Some _ => false
     end.

Definition name_cell (i : create_input) : cell :=
  match in_name i with
  | JStr s => CString s
  | _ => CNull
  end.

Definition value_cell (i : create_input) : cell :=
  match defined_or_null (in_value i) with
  | JNum n => CInt n
  | _ => CNull
  end.

(** The data column after [PARSE_JSON(@data)] ([part_000]). *)
Definition data_cell (i : create_input) : cell :=
  match in_data i with
  | Some d => if truthy d then CJson d else CNull
  | None => CNull
  end.

(** The data column when the text itself is stored ([baseRepository.js]). *)
Definition data_text_cell (i : create_input) : cell :=
  match in_data i with
  | Some d => if truthy d then CString (JSON.stringify d) else CNull
  | None => CNull
  end.

(** The parameters of the INSERT, typed. *)
Definition create_env (id now : string) (i : create_input) : list (string * cell) :=
  [ ("id", CString id); ("name", name_cell i); ("value", value_cell i);
    ("data", data_text_cell i); ("created_at", CString now);
    ("updated_at", CString now) ].

Definition created_row (id now : string) (i : create_input) (data : cell) : row :=
  {| c_id := CString id;
     c_name := name_cell i;
     c_value := value_cell i;
     c_data := data;
     c_created_at := CString now;
     c_updated_at := CString now |}.

(** The record [create] returns. *)
Definition created_record (id now : string) (i : create_input) : json :=
  JObj [ ("id", JStr id); ("name", in_name i);
         ("value", defined_or_null (in_value i));
         ("data", or_null (in_data i));
         ("created_at", JStr now); ("updated_at", JStr now) ].

(** What stays fixed between two worlds of one process with respect to
    the warehouse and the environment. *)
Definition same_setting (w w' : world) : Prop :=
  cfg w' = cfg w /\ json_as_text w' = json_as_text w /\
  dataset_present w' = dataset_present w /\ table_present w' = table_present w /\
  uuid_at w' = uuid_at w /\ iso_at w' = iso_at w.

(** An argument of [create] whose data is present and falsy. *)
Definition false_data_input : create_input :=
  {| in_name := JStr "flag"; in_value := None; in_data := Some (JBool false) |}.



(** [record.data], with [null] for a missing property. *)
Definition data_of (record : json) : json := default_to JNull (get_prop record "data").

(** ** What [update] is expected to leave behind *)

(** The SET clauses each copy of [update] builds. *)
Definition set_clauses_of (c : copy) (id : json) (now : string) (data : patch)
  : list (string * expr) :=
  match c with
  | Part000 => u_setClauses (Repository.update_build id now data)
  | BaseCopy => u_setClauses (BaseRepository.update_build id now data)
  end.

(** A row after an UPDATE that sets nothing but [updated_at]. *)
Definition refreshed (s now : string) (r : row) : row :=
  if Warehouse.matches (CString s) r then
    {| c_id := c_id r; c_name := c_name r; c_value := c_value r; c_data := c_data r;
       c_created_at := c_created_at r; c_updated_at := CString now |}
  else r.

(** What an UPDATE may do to one row, given the patch behind it. *)
Definition patched (s : string) (data : patch) (r r' : row) : Prop :=
  c_id r' = c_id r /\
  c_created_at r' = c_created_at r /\
  (p_name data = None -> c_name r' = c_name r) /\
  (p_value data = None -> c_value r' = c_value r) /\
  (p_data data = None -> c_data r' = c_data r) /\
  (c_id r <> CString s -> r' = r).

(** The parameters and the types each copy of [update] hands over. *)
Definition update_params_of (c : copy) (id : json) (now : string) (data : patch)
  : list (string * json) :=
  match c with
  | Part000 => u_params (Repository.update_build id now data)
  | BaseCopy => u_params (BaseRepository.update_build id now data)
  end.

Definition update_types_of (c : copy) (id : json) (now : string) (data : patch)
  : option (list (string * string)) :=
  match c with
  | Part000 => Some (u_types (Repository.update_build id now data))
  | BaseCopy => None
  end.

(** What an UPDATE that completed has done to one row: the patch's frame,
    and a new [updated_at] if the row has the id. *)
Definition updated_row (s now : string) (data : patch) (r r' : row) : Prop :=
  patched s data r r' /\ (c_id r = CString s -> c_updated_at r' = CString now).

(** The UPDATE statement of a patch without fields, and the world it
    leaves on a healthy connection. *)
Definition refresh_statement (w : world) : statement :=
  Update (BigqueryService.configured_table w) [("updated_at", Param "updated_at")].

Definition refresh_parameters (w : world) (s : string) : list (string * json) :=
  [("id", JStr s); ("updated_at", JStr (iso_at w (tick w)))].

Definition after_refresh (c : copy) (w : world) (s : string) : world :=
  queried (refresh_statement w) (refresh_parameters w s)
    (update_types_of c (JStr s) (iso_at w (tick w)) empty_patch)
    (map (refreshed s (iso_at w (tick w))) (rows w))
    (with_tick (S (tick w)) w).

(* ================================================================== *)
(** * Loading the configuration ([src/config/index.js]) *)
(* ================================================================== *)

Module Config.

(** What [fs] finds at the path of the credentials file: nothing
    ([existsSync] is false), something [readFileSync] throws on, or a
    text. *)
Inductive file : Type :=
| Missing
| Unreadable (message : string)
| Content (text : string).

(** [process.env], and the files of the machine. *)
Record process_env : Type := {
  GOOGLE_PROJECT_ID : option string;
  GCP_PROJECT : option string;
  GOOGLE_APPLICATION_CREDENTIALS : option string;
  BIGQUERY_DATASET : option string;
  BIGQUERY_TABLE : option string;
  BIGQUERY_LOCATION : option string;
  PORT : option string;
  NODE_ENV : option string;
  ENABLE_MOCK_MODE : option string;
  files : string -> file
}.

(** The object the module exports.  [projectId] is a string unless it
    comes from the credentials file, where [project_id] can hold any
    value. *)
Record settings : Type := {
  projectId : json;
  bigquery_dataset : string;
  bigquery_table : string;
  bigquery_location : string;
  server_port : Z;
  server_env : string;
  enableMockMode : bool
}.

(** An environment variable that is set and not empty. *)
Definition given (v : option string) : option string :=
  match v with
  | Some s => if String.eqb s EmptyString then None else Some s
  | None => None
  end.

(** [process.env.X || d] *)
Definition or_default (v : option string) (d : string) : string :=
  match given v with
  | Some s => s
  | None => d
  end.

(** [creds.k] for an object [JSON.parse] built: of two members with one
    name the object holds the later. *)
Definition parsed_prop (creds : json) (k : string) : jsval :=
  match creds with
  | JObj kvs => assoc k (rev kvs)
  | _ => None
  end.

Definition could_not_read (message : string) : console_line :=
  ConsoleWarn ("Could not read project_id from credentials file: " ++ message).

(** [getProjectIdFromCredentials()]: the value and what it wrote to the
    console.  Whatever is thrown while the file is read or parsed is
    caught and reported as a warning. *)
Definition getProjectIdFromCredentials (e : process_env) : json * list console_line :=
  match given (GOOGLE_APPLICATION_CREDENTIALS e) with
  | None => (JNull, [])
  | Some credPath =>
      match files e credPath with
      | Missing => (JNull, [])
      | Unreadable message => (JNull, [could_not_read message])
      | Content text =>
          match JSON.parse text with
          | None => (JNull, [could_not_read (Server.error_message SyntaxError)])
          | Some JNull =>
              (JNull,
               [could_not_read "Cannot read properties of null (reading 'project_id')"])
          | Some creds => (or_null (parsed_prop creds "project_id"), [])
          end
      end
  end.

(** [GOOGLE_PROJECT_ID || GCP_PROJECT || getProjectIdFromCredentials()
    || 'your-project-id'], evaluated from the left. *)
Definition load_projectId (e : process_env) : json * list console_line :=
  match given (GOOGLE_PROJECT_ID e) with
  | Some s => (JStr s, [])
  | None =>
      match given (GCP_PROJECT e) with
      | Some s => (JStr s, [])
      | None =>
          let found := getProjectIdFromCredentials e in
          (if truthy (fst found) then fst found else JStr "your-project-id", snd found)
      end
  end.

(** The exported object, seen as the JavaScript object it is. *)
Definition as_object (c : settings) : json :=
  JObj [ ("projectId", projectId c);
         ("bigquery",
          JObj [ ("dataset", JStr (bigquery_dataset c));
                 ("table", JStr (bigquery_table c));
                 ("location", JStr (bigquery_location c)) ]);
         ("server",
          JObj [ ("port", JNum (server_port c)); ("env", JStr (server_env c)) ]);
         ("features", JObj [ ("enableMockMode", JBool (enableMockMode c)) ]) ].

(** [!config[key] || config[key] === 'your-project-id'] *)
Definition is_missing (c : settings) (key : string) : bool :=
  match get_prop (as_object c) key with
  | Some (JStr s) => String.eqb s EmptyString || String.eqb s "your-project-id"
  | Some v => negb (truthy v)
  | None => true
  end.

(** [validateConfig()]: the line it writes. *)
Definition validateConfig (c : settings) : list console_line :=
  let required := ["projectId"] in
  let missing := filter (is_missing c) required in
  if negb (Nat.eqb (List.length missing) 0) && negb (enableMockMode c) then
    [ ConsoleWarn ("Warning: Missing configuration: " ++ Warehouse.join ", " missing
                     ++ ". Set ENABLE_MOCK_MODE=true for local testing.") ]
  else [ ConsoleLog ("Using project: " ++ to_string (projectId c)) ].

(** The module body: the object is built, then [validateConfig()] runs. *)
Definition load (e : process_env) : settings * list console_line :=
  let project := load_projectId e in
  let c :=
    {| projectId := fst project;
       bigquery_dataset := or_default (BIGQUERY_DATASET e) "test_dataset";
       bigquery_table := or_default (BIGQUERY_TABLE e) "items";
       bigquery_location := or_default (BIGQUERY_LOCATION e) "US";
       server_port := number_or (parseInt_of (option_map JStr (PORT e))) 8080;
       server_env := or_default (NODE_ENV e) "development";
       enableMockMode :=
         match ENABLE_MOCK_MODE e with
         | Some s => String.eqb s "true"
         | None => false
         end |} in
  (c, (snd project ++ validateConfig c)%list).

End Config.


(** An environment with nothing set and no files. *)
Definition empty_env : Config.process_env :=
  {| Config.GOOGLE_PROJECT_ID := None; Config.GCP_PROJECT := None;
     Config.GOOGLE_APPLICATION_CREDENTIALS := None;
     Config.BIGQUERY_DATASET := None; Config.BIGQUERY_TABLE := None;
     Config.BIGQUERY_LOCATION := None; Config.PORT := None;
     Config.NODE_ENV := None; Config.ENABLE_MOCK_MODE := None;
     Config.files := fun _ => Config.Missing |}.

(* ================================================================== *)
(** * The Express application ([src/app.js], [src/routes/index.js]) *)
(* ================================================================== *)

(** [console.error]: in Node [console.warn] is an alias of it, both write
    the line to stderr. *)
Definition console_error (text : string) : M unit := console_warn text.

Module App.

(** The handler express selects for a request.  Matching the method and
    the path against the registrations is the work of express; the
    application code starts from its outcome.  A list request carries the
    page read from its query ([Controller.page]). *)
Inductive route : Type :=
| Health                                 (* app.get('/health', ...) *)
| Root                                   (* app.get('/', ...) *)
| ItemsCreate (b : Controller.body)      (* router.post('/items', crudController.create) *)
| ItemsList (limit offset : Z) (orderBy : option string)
                                         (* router.get('/items', crudController.findAll) *)
| ItemById (id : string)                 (* router.get('/items/:id', crudController.findById) *)
| ItemUpdate (id : string) (b : Controller.body)
                                         (* router.put('/items/:id', crudController.update) *)
| ItemDelete (id : string)               (* router.delete('/items/:id', crudController.delete) *)
| Unmatched.                             (* no registration matches *)

Record request : Type := {
  method : string;                       (* req.method *)
  path : string;                         (* req.path *)
  target : route
}.

(** [res.status(code).json(payload)] *)
Record reply : Type := {
  code : Z;
  payload : json
}.

(** What the global error handler reads from a thrown object besides its
    message. *)
Record error_details : Type := {
  err_status : option Z;                 (* err.status *)
  err_statusCode : option Z;             (* err.statusCode *)
  err_stack : string;                    (* err.stack *)
  err_inspect : string                   (* the object as console.error prints it *)
}.

(** The object [sendResponse] hands to [res.json], property by property. *)
Definition json_response (r : Controller.response) : reply :=
  {| code := Controller.status r;
     payload :=
       JObj ([ ("success", JBool (Controller.success r));
               ("timestamp", JStr (Controller.timestamp r)) ]
             ++ match Controller.message r with
                | Some m => [ ("message", JStr m) ]
                | None => []
                end
             ++ match Controller.data r with
                | Some d => [ ("data", d) ]
                | None => []
                end)%list |}.

(** [routes/index.js]: the five registrations of the items router. *)
Definition routes (repo : repository) (t : route) : option (M Controller.response) :=
  match t with
  | ItemsCreate b => Some (Controller.create repo b)
  | ItemsList limit offset orderBy => Some (Controller.findAll repo limit offset orderBy)
  | ItemById id => Some (Controller.findById repo (JStr id))
  | ItemUpdate id b => Some (Controller.update repo (JStr id) b)
  | ItemDelete id => Some (Controller.delete repo (JStr id))
  | Health | Root | Unmatched => None
  end.

Section Application.

(** [config.server.env]; the copy of the repository module the controller
    requires; and what the objects thrown in this process carry. *)
Variable env : string.
Variable loaded : copy.
Variable details : error -> error_details.

(** The request logger, installed when [env === 'development']. *)
Definition log_request (req : request) : M unit :=
  if String.eqb env "development" then
    now <- date_now_iso ;;
    console_log (now ++ " " ++ method req ++ " " ++ path req)
  else ret tt.

Definition health : M reply :=
  now <- date_now_iso ;;
  ret {| code := 200;
         payload := JObj [ ("status", JStr "healthy"); ("timestamp", JStr now);
                           ("environment", JStr env) ] |}.

Definition root : M reply :=
  ret {| code := 200;
         payload := JObj [ ("name", JStr "BigQuery CRUD API"); ("version", JStr "1.0.0");
                           ("endpoints",
                            JObj [ ("health", JStr "/health");
                                   ("items", JStr "/api/items") ]) ] |}.

(** The 404 handler. *)
Definition not_found (req : request) : M reply :=
  ret {| code := 404;
         payload := JObj [ ("success", JBool false);
                           ("message", JStr "Endpoint not found");
                           ("path", JStr (path req)) ] |}.

(** [err.status || err.statusCode || 500] *)
Definition status_of (err : error) : Z :=
  number_or (err_status (details err)) (number_or (err_statusCode (details err)) 500).

(** The global error handler. *)
Definition error_handler (err : error) : M reply :=
  console_error ("Error: " ++ err_inspect (details err)) ;;
  let status := status_of err in
  let message :=
    if String.eqb env "production" then "Internal server error"
    else Server.error_message err in
  ret {| code := status;
         payload :=
           JObj ([ ("success", JBool false); ("message", JStr message) ]
                 ++ (if negb (String.eqb env "production")
                     then [ ("stack", JStr (err_stack (details err))) ]
                     else []))%list |}.

(** [asyncHandler(fn)]: [Promise.resolve(fn(req, res, next)).catch(next)];
    [next(err)] takes the request to the error handler. *)
Definition asyncHandler (fn : M Controller.response) (next : error -> M reply) : M reply :=
  try_catch (r <- fn ;; ret (json_response r)) next.

(** One request through the middleware, in the order of registration. *)
Definition handle (req : request) : M reply :=
  fun w =>
    let repository := repository_of loaded w in
    (log_request req ;;
     match target req with
     | Health => health
     | Root => root
     | t =>
         match routes repository t with
         | Some fn => asyncHandler fn error_handler
         | None => not_found req
         end
     end) w.

End Application.

End App.

(** Whether a status code is one of success (2xx). *)
Definition is_success (c : Z) : bool := ((200 <=? c) && (c <? 300))%Z.

(** A process whose dataset exists but whose table was never created. *)
Definition tableless (w : world) : Prop := table_present w = false.

(** Details of thrown objects that carry no status of their own. *)
Definition plain_details (e : error) : App.error_details :=
  {| App.err_status := None; App.err_statusCode := None;
     App.err_stack := Server.error_message e; App.err_inspect := Server.error_message e |}.

(** A service-account file that names its project, with no project
    variable set (an empty one counts as unset) and a port given. *)
Definition credentials_env : Config.process_env :=
  {| Config.GOOGLE_PROJECT_ID := None; Config.GCP_PROJECT := Some EmptyString;
     Config.GOOGLE_APPLICATION_CREDENTIALS := Some "./key.json";
     Config.BIGQUERY_DATASET := None; Config.BIGQUERY_TABLE := None;
     Config.BIGQUERY_LOCATION := None; Config.PORT := Some "3000";
     Config.NODE_ENV := None; Config.ENABLE_MOCK_MODE := None;
     Config.files := fun _ =>
       Config.Content
         (JSON.stringify (JObj [("type", JStr "service_account");
                                ("project_id", JStr "demo-project")])) |}.

(** The line [validateConfig] writes when the project id is missing. *)
Definition missing_project_warning : console_line :=
  ConsoleWarn
    "Warning: Missing configuration: projectId. Set ENABLE_MOCK_MODE=true for local testing.".

(** The world a request is handled in once the logger has run. *)
Definition logged (env : string) (req : App.request) (w : world) : world :=
  snd (App.log_request env req w).

(** A handler whose replies say [success] exactly for a 2xx status. *)
Definition answers_well (m : M Controller.response) : Prop :=
  forall w r w', m w = (Ok r, w') ->
                 Controller.success r = is_success (Controller.status r).

(** The routes that [routes/index.js] registers. *)
Definition is_data_route (t : App.route) : bool :=
  match t with
  | App.Health | App.Root | App.Unmatched => false
  | _ => true
  end.

(** A request for an item while the table is missing. *)
Definition sample_request : App.request :=
  {| App.method := "GET"; App.path := "/api/items/item-1";
     App.target := App.ItemById "item-1" |}.

Definition tableless_world : world := with_store true false [] sample_world.

(** A computation that leaves the warehouse as it found it, whether it
    resolves or rejects. *)
Definition keeps_store {A : Type} (m : M A) : Prop :=
  forall w,
    rows (snd (m w)) = rows w /\
    dataset_present (snd (m w)) = dataset_present w /\
    table_present (snd (m w)) = table_present w.

(** A computation that rejects, and writes nothing, whenever the table is
    missing. *)
Definition fails_without_table {A : Type} (m : M A) : Prop :=
  forall w,
    table_present w = false ->
    (exists e, fst (m w) = Throw e) /\
    rows (snd (m w)) = rows w /\ table_present (snd (m w)) = false.

(** The statements that read. *)
Definition is_read (q : statement) : bool :=
  match q with
  | SelectPage _ _ | SelectById _ | CountAll _ => true
  | Insert _ _ _ | Update _ _ | Delete _ => false
  end.

(** The orderings a list request can ask for by naming a column of the
    items table, with or without a direction (the data column, of type
    JSON, cannot be ordered by). *)
Definition orderings : list string :=
  flat_map (fun column => [column; column ++ " ASC"; column ++ " DESC"])
    ["id"; "name"; "value"; "created_at"; "updated_at"].

Definition is_ordering (text : string) : bool := existsb (String.eqb text) orderings.

(** An [orderBy] that is left out, or names such an ordering. *)
Definition plain_order (orderBy : option string) : bool :=
  match orderBy with
  | Some text => is_ordering text
  | None => true
  end.

(** The requests that ask for no change: the probes, the GET of one item,
    the list with a plain ordering (the [orderBy] of the query string is
    spliced into the statement, so any other text is not known to be an
    ordering), and what no route matches. *)
Definition is_safe (t : App.route) : bool :=
  match t with
  | App.Health | App.Root | App.ItemById _ | App.Unmatched => true
  | App.ItemsList _ _ orderBy => plain_order orderBy
  | App.ItemsCreate _ | App.ItemUpdate _ _ | App.ItemDelete _ => false
  end.

(** The rows each copy of the repository writes and can read back: the
    data column is NULL, or holds what [create] and [update] put there
    (the JSON value in [part_000], its text in [baseRepository.js]). *)
Definition written_by (c : copy) (as_text : bool) (r : row) : Prop :=
  c_data r = CNull \/
  match c with
  | Part000 => exists j, c_data r = CJson j /\ (as_text = true \/ is_string j = false)
  | BaseCopy => exists j, c_data r = CString (JSON.stringify j)
  end.

(** The rows a copy of the repository can read back: those it wrote, and
    those whose data column is of type JSON when the client hands JSON
    columns over as text (what it does unless asked otherwise). *)
Definition readable (c : copy) (as_text : bool) (r : row) : Prop :=
  written_by c as_text r \/ (as_text = true /\ exists j, c_data r = CJson j).

(** The payload a row stores. *)
Definition stored_data (r : row) : json :=
  match c_data r with
  | CJson j => j
  | CString text =>
      match JSON.parse text with
      | Some j => j
      | None => JNull
      end
  | _ => JNull
  end.

(** A row as an item of the API: its columns, with the payload decoded. *)
Definition listed (as_text : bool) (r : row) : json :=
  set_prop "data" (stored_data r) (Warehouse.row_to_js as_text r).

(** [decode] of either copy. *)
Definition decode_of (c : copy) : json -> M json :=
  match c with
  | Part000 => Repository.decode
  | BaseCopy => BaseRepository.decode
  end.

(** The window of the rows a page asks for. *)
Definition window (limit offset : Z) (rs : list row) : list row :=
  firstn (Z.to_nat limit) (skipn (Z.to_nat offset) rs).

(** The text of the list statement for an [orderBy]. *)
Definition list_statement_text (table orderBy : string) : string :=
  "SELECT id, name, value, data, created_at, updated_at FROM " ++ table
    ++ " ORDER BY " ++ orderBy ++ " LIMIT @limit OFFSET @offset".

(** A query that asks for the second page of ten. *)
Definition second_page : Controller.list_query :=
  {| Controller.q_limit := Some "10"; Controller.q_offset := Some "10";
     Controller.q_orderBy := Some "name ASC" |}.

(** The world in which [create] sends its statement: an id and a time
    have been drawn. *)
Definition stamped (w : world) : world :=
  with_tick (S (S (tick w))) (with_tick (S (tick w)) w).

(** A connection that carries one call and drops the next. *)
Definition flaky_world : world := with_remote [false; true] [] stocked_world.

(** A patch whose name, if any, is a string and whose value, if any, is
    an integer.  The data may be any JSON value. *)
Definition valid_patch (data : patch) : bool :=
  match p_name data with
  | None | Some (JStr _) => true
  | Some _ => false
  end
  && match p_value data with
     | None | Some (JNum _) => true
     | Some _ => false
     end.

(** A row after the UPDATE of a valid patch: the fields the patch names
    are replaced (the data as each copy stores it), [updated_at] is the
    time of the call, the rest stays. *)
Definition patch_row (c : copy) (now : string) (data : patch) (r : row) : row :=
  {| c_id := c_id r;
     c_name := match p_name data with
               | Some (JStr n) => CString n
               | _ => c_name r
               end;
     c_value := match p_value data with
                | Some (JNum v) => CInt v
                | _ => c_value r
                end;
     c_data := match p_data data with
               | Some d =>
                   match c with
                   | Part000 => CJson d
                   | BaseCopy => CString (JSON.stringify d)
                   end
               | None => c_data r
               end;
     c_created_at := c_created_at r;
     c_updated_at := CString now |}.

Definition patch_rows (c : copy) (s now : string) (data : patch) (rs : list row)
  : list row :=
  map (fun x => if Warehouse.matches (CString s) x then patch_row c now data x else x) rs.

(** The body of the PUT request of the API tests. *)
Definition renaming_patch : patch :=
  {| p_name := Some (JStr "Updated Item"); p_value := Some (JNum 100); p_data := None |}.

(** The id of the item a reply carries ([data.data.id] in the tests). *)
Definition id_of (r : Controller.response) : json :=
  match Controller.data r with
  | Some item => default_to JNull (get_prop item "id")
  | None => JNull
  end.

(** The calls of the CRUD scenario of [tests/api.test.js], without its
    update step: create an item, fetch it by the id of the reply, delete
    it, fetch it again. *)
Definition crud_session (repo : repository) (b : Controller.body)
  : M (Controller.response * Controller.response * Controller.response
       * Controller.response) :=
  created <- Controller.create repo b ;;
  found <- Controller.findById repo (id_of created) ;;
  deleted <- Controller.delete repo (id_of created) ;;
  gone <- Controller.findById repo (id_of created) ;;
  ret (created, found, deleted, gone).

(** The argument the controller hands to [repository.create]. *)
Definition input_of (name : json) (b : Controller.body) : create_input :=
  {| in_name := name; in_value := Controller.b_value b; in_data := Controller.b_data b |}.

(** A later world of the same process, with a connection that stays up. *)
Definition ready (w0 w : world) : Prop := same_setting w0 w /\ healthy w.

(** The body of the POST request of the API tests. *)
Definition sample_body : Controller.body :=
  {| Controller.b_name := Some (JStr "Test Item");
     Controller.b_value := Some (JNum 42);
     Controller.b_data := Some (JObj [("foo", JStr "bar")]) |}.

(** The body of a PUT request that carries a patch. *)
Definition body_of (data : patch) : Controller.body :=
  {| Controller.b_name := p_name data;
     Controller.b_value := p_value data;
     Controller.b_data := p_data data |}.

(** ** Values that JavaScript and the warehouse hold alike *)

(** The names of a list are distinct. *)
Fixpoint distinct (keys : list string) : bool :=
  match keys with
  | [] => true
  | k :: rest => negb (existsb (String.eqb k) rest) && distinct rest
  end.

(** A JSON value that a JavaScript program holds exactly as it is written
    here: its numbers are integers within Number.MAX_SAFE_INTEGER and the
    members of each object have distinct names. *)
Fixpoint exact_json (v : json) : bool :=
  match v with
  | JNull | JBool _ | JStr _ => true
  | JNum n => (Z.abs n <=? 9007199254740991)%Z
  | JArr xs => forallb exact_json xs
  | JObj kvs => distinct (map fst kvs) && forallb (fun kv => exact_json (snd kv)) kvs
  end.

(** A [value] that, if it is a number, is such an integer (and so fits
    the INT64 column), and a [data] that, if present, is such a value. *)
Definition safe_value (v : jsval) : Prop := forall n, v = Some (JNum n) -> safe_integer n.

Definition exact_payload (v : jsval) : Prop := forall d, v = Some d -> exact_json d = true.

Definition exact_input (i : create_input) : Prop :=
  safe_value (in_value i) /\ exact_payload (in_data i).

(** A valid patch within these bounds. *)
Definition storable_patch (data : patch) : Prop :=
  valid_patch data = true /\ safe_value (p_value data) /\ exact_payload (p_data data).

(** A row of the table [ensureTableExists] declares, within these bounds:
    the name is a string, the value NULL or such an integer, the data
    NULL or such a JSON value. *)
Definition exact_row (r : row) : Prop :=
  (exists n, c_name r = CString n) /\
  (c_value r = CNull \/ exists v, c_value r = CInt v /\ safe_integer v) /\
  (c_data r = CNull \/ exists j, c_data r = CJson j /\ exact_json j = true).

(** A row whose data column is of type JSON. *)
Definition json_column (r : row) : Prop :=
  c_data r = CNull \/ exists j, c_data r = CJson j.

(** A port [app.listen] takes as it is given (0 would stand for a port of
    the system's choosing). *)
Definition valid_port (p : Z) : Prop := (1 <= p <= 65535)%Z.




(** The row of the stocked table after the PUT of the API tests. *)
Definition renamed_row (now : string) : row :=
  {| c_id := CString "item-1";
     c_name := CString "Updated Item";
     c_value := CInt 100;
     c_data := CJson (JObj [("foo", JStr "bar")]);
     c_created_at := CString "2023-12-31T23:59:59Z";
     c_updated_at := CString now |}.

(* ================================================================== *)
(** * Facts about JSON texts *)
(* ================================================================== *)

(** Induction over [json] that reaches inside arrays and objects. *)
Lemma json_nested_ind (P : json -> Prop) :
  P JNull ->
  (forall b, P (JBool b)) ->
  (forall n, P (JNum n)) ->
  (forall s, P (JStr s)) ->
  (forall xs, Forall P xs -> P (JArr xs)) ->
  (forall kvs, Forall (fun kv => P (snd kv)) kvs -> P (JObj kvs)) ->
  forall v, P v.
Proof.
  intros Hnull Hbool Hnum Hstr Harr Hobj.
  fix IH 1.
  intros [ | b | n | s | xs | kvs ].
  - exact Hnull.
  - apply Hbool.
  - apply Hnum.
  - apply Hstr.
  - apply Harr. induction xs as [ | x xs IHxs ]; constructor; [ apply IH | exact IHxs ].
  - apply Hobj. induction kvs as [ | [k x] kvs IHkvs ]; constructor; [ apply IH | exact IHkvs ].
Qed.

Module JSONFacts.
Import JSON.

(** ** Round trip: [JSON.parse (JSON.stringify v) = v] *)

Lemma append_assoc (a b c : string) : (a ++ b) ++ c = a ++ (b ++ c).
Proof. induction a as [ | x a IH ]; simpl; [ reflexivity | now rewrite IH ]. Qed.

Lemma length_append (a b : string) :
  String.length (a ++ b) = String.length a + String.length b.
Proof. induction a as [ | x a IH ]; simpl; [ reflexivity | now rewrite IH ]. Qed.

Lemma parse_chars_escape_char (c : ascii) (t : string) :
  parse_chars (escape_char c ++ t) = prepend (str1 c) (parse_chars t).
Proof.
  destruct c as [[|] [|] [|] [|] [|] [|] [|] [|]]; reflexivity.
Qed.

Lemma parse_chars_escape (s rest : string) :
  parse_chars (escape s ++ String dquote rest) = Some (s, rest).
Proof.
  induction s as [ | c s IH ]; simpl.
  - reflexivity.
  - rewrite append_assoc, parse_chars_escape_char, IH. reflexivity.
Qed.

Lemma parse_chars_quote (s rest : string) :
  exists body, quote s ++ rest = String dquote body /\ parse_chars body = Some (s, rest).
Proof.
  exists (escape s ++ String dquote rest). split.
  - unfold quote. simpl. now rewrite append_assoc.
  - apply parse_chars_escape.
Qed.

Lemma ends_value_no_digit (rest : string) :
  ends_value rest = true -> parse_digits rest = (Decimal.Nil, rest).
Proof.
  destruct rest as [ | c r ]; [ reflexivity | ].
  simpl. intros H.
  destruct (c =? ",")%char eqn:E1; [ apply Ascii.eqb_eq in E1; subst; reflexivity | ].
  destruct (c =? "]")%char eqn:E2; [ apply Ascii.eqb_eq in E2; subst; reflexivity | ].
  destruct (c =? "}")%char eqn:E3; [ apply Ascii.eqb_eq in E3; subst; reflexivity | ].
  discriminate.
Qed.

Lemma ends_value_no_fraction (rest : string) :
  ends_value rest = true -> continues_number rest = false.
Proof.
  destruct rest as [ | c r ]; [ reflexivity | ].
  simpl. intros H.
  destruct (c =? ",")%char eqn:E1; [ apply Ascii.eqb_eq in E1; subst; reflexivity | ].
  destruct (c =? "]")%char eqn:E2; [ apply Ascii.eqb_eq in E2; subst; reflexivity | ].
  destruct (c =? "}")%char eqn:E3; [ apply Ascii.eqb_eq in E3; subst; reflexivity | ].
  discriminate.
Qed.

Lemma parse_digits_text (d : Decimal.uint) (rest : string) :
  ends_value rest = true -> parse_digits (digits_text d ++ rest) = (d, rest).
Proof.
  intros H. induction d; simpl; try (rewrite IHd; reflexivity).
  now apply ends_value_no_digit.
Qed.

(** The decimal digits of a positive number do not start with a zero. *)
Lemma to_uint_no_leading_zero (p : positive) :
  match Pos.to_uint p with
  | Decimal.Nil | Decimal.D0 _ => False
  | _ => True
  end.
Proof.
  assert (Hn : Decimal.unorm (Pos.to_uint p) = Pos.to_uint p).
  { rewrite <- DecimalPos.Unsigned.to_of, DecimalPos.Unsigned.of_to. reflexivity. }
  pose proof (DecimalPos.Unsigned.to_uint_nonnil p) as Hnil.
  pose proof (DecimalPos.Unsigned.to_uint_nonzero p) as Hz.
  destruct (Pos.to_uint p) as [ | u | | | | | | | | | ]; try exact I.
  - congruence.
  - rewrite DecimalFacts.unorm_D0 in Hn.
    destruct u as [ | | | | | | | | | | ] eqn:Eu; try congruence;
      rewrite <- Eu in *;
      (assert (Hu : u <> Decimal.Nil) by (rewrite Eu; discriminate));
      pose proof (DecimalFacts.nb_digits_unorm u Hu) as Hle;
      rewrite Hn in Hle; simpl in Hle; lia.
Qed.

Lemma parse_magnitude_to_uint (p : positive) (rest : string) :
  ends_value rest = true ->
  parse_magnitude (digits_text (Pos.to_uint p) ++ rest) = Some (Pos.to_uint p, rest).
Proof.
  intros H. unfold parse_magnitude.
  rewrite (parse_digits_text _ _ H).
  pose proof (to_uint_no_leading_zero p) as Hz.
  rewrite (ends_value_no_fraction _ H).
  destruct (Pos.to_uint p); try contradiction; reflexivity.
Qed.

Lemma parse_number_text (n : Z) (rest : string) :
  ends_value rest = true ->
  parse_number (number_text n ++ rest) = Some (JNum n, rest).
Proof.
  intros H.
  assert (Hback : Z.of_int (Z.to_int n) = n) by apply DecimalZ.of_to.
  unfold number_text. destruct n as [ | p | p ].
  - simpl. unfold parse_number, parse_magnitude. simpl.
    rewrite (ends_value_no_digit _ H), (ends_value_no_fraction _ H). reflexivity.
  - simpl Z.to_int in *.
    pose proof (parse_magnitude_to_uint p rest H) as Hm.
    pose proof (to_uint_no_leading_zero p) as Hz.
    destruct (Pos.to_uint p) eqn:E; try contradiction;
      simpl digits_text in *; simpl append in *; unfold parse_number;
      cbn [Ascii.eqb Bool.eqb]; rewrite Hm, Hback; reflexivity.
  - simpl Z.to_int in *.
    pose proof (parse_magnitude_to_uint p rest H) as Hm.
    simpl append. unfold parse_number. cbn [Ascii.eqb Bool.eqb].
    rewrite Hm, Hback. reflexivity.
Qed.

Lemma starts_value_skip_ws (s : string) : starts_value s = true -> skip_ws s = s.
Proof.
  destruct s as [ | c r ]; simpl; [ reflexivity | ].
  destruct (is_ws c); simpl; [ discriminate | reflexivity ].
Qed.

Lemma starts_value_not_closed (s : string) :
  starts_value s = true -> expect "]" s = None /\ expect "}" s = None.
Proof.
  destruct s as [ | c r ]; [ discriminate | ].
  cbn [starts_value expect].
  rewrite (Ascii.eqb_sym "]"%char c), (Ascii.eqb_sym "}"%char c).
  destruct (is_ws c), (c =? "]")%char, (c =? "}")%char; simpl;
    intros H; try discriminate; split; reflexivity.
Qed.

Lemma stringify_arr (xs : list json) :
  stringify (JArr xs) = String "[" (elements_text xs ++ "]").
Proof. reflexivity. Qed.

Lemma stringify_obj (kvs : list (string * json)) :
  stringify (JObj kvs) = String "{" (members_text kvs ++ "}").
Proof. reflexivity. Qed.

Lemma starts_value_stringify (v : json) (rest : string) :
  starts_value (stringify v ++ rest) = true.
Proof.
  destruct v as [ | [|] | n | s | xs | kvs ]; try reflexivity.
  unfold stringify, number_text. destruct n as [ | p | p ]; try reflexivity.
  simpl Z.to_int. pose proof (to_uint_no_leading_zero p) as Hz.
  destruct (Pos.to_uint p); try contradiction; reflexivity.
Qed.

Lemma starts_value_elements (xs : list json) (rest : string) :
  xs <> [] -> starts_value (elements_text xs ++ rest) = true.
Proof.
  destruct xs as [ | x [ | y ys ] ]; intros H; [ congruence | | ].
  - apply starts_value_stringify.
  - simpl elements_text. rewrite append_assoc. apply starts_value_stringify.
Qed.

Lemma starts_value_members (kvs : list (string * json)) (rest : string) :
  kvs <> [] -> starts_value (members_text kvs ++ rest) = true.
Proof.
  destruct kvs as [ | [k x] [ | y ys ] ]; intros H; [ congruence | | ]; reflexivity.
Qed.

Lemma parse_value_S (f : nat) (s : string) :
  parse_value (S f) s =
  match skip_ws s with
  | EmptyString => None
  | String c r =>
      if (c =? "n")%char then keyword "ull" JNull r
      else if (c =? "t")%char then keyword "rue" (JBool true) r
      else if (c =? "f")%char then keyword "alse" (JBool false) r
      else if (c =? dquote)%char then
        match parse_chars r with
        | Some (str, rest) => Some (JStr str, rest)
        | None => None
        end
      else if (c =? "[")%char then
        match expect "]" (skip_ws r) with
        | Some rest => Some (JArr [], rest)
        | None =>
            match parse_elements f r with
            | Some (xs, rest) => Some (JArr xs, rest)
            | None => None
            end
        end
      else if (c =? "{")%char then
        match expect "}" (skip_ws r) with
        | Some rest => Some (JObj [], rest)
        | None =>
            match parse_members f r with
            | Some (kvs, rest) => Some (JObj kvs, rest)
            | None => None
            end
        end
      else parse_number (String c r)
  end.
Proof. reflexivity. Qed.

Lemma parse_elements_S (f : nat) (s : string) :
  parse_elements (S f) s =
  match parse_value f s with
  | None => None
  | Some (x, r) =>
      match skip_ws r with
      | EmptyString => None
      | String c r' =>
          if (c =? ",")%char then
            match parse_elements f r' with
            | Some (xs, rest) => Some (x :: xs, rest)
            | None => None
            end
          else if (c =? "]")%char then Some ([x], r')
          else None
      end
  end.
Proof. reflexivity. Qed.

Lemma parse_members_S (f : nat) (s : string) :
  parse_members (S f) s =
  match expect (str1 dquote) (skip_ws s) with
  | None => None
  | Some r =>
      match parse_chars r with
      | None => None
      | Some (k, r1) =>
          match expect ":" (skip_ws r1) with
          | None => None
          | Some r2 =>
              match parse_value f r2 with
              | None => None
              | Some (x, r3) =>
                  match skip_ws r3 with
                  | EmptyString => None
                  | String c r4 =>
                      if (c =? ",")%char then
                        match parse_members f r4 with
                        | Some (kvs, rest) => Some ((k, x) :: kvs, rest)
                        | None => None
                        end
                      else if (c =? "}")%char then Some ([(k, x)], r4)
                      else None
                  end
              end
          end
      end
  end.
Proof. reflexivity. Qed.

Lemma parse_value_arr (f : nat) (r : string) :
  parse_value (S f) (String "[" r) =
  match expect "]" (skip_ws r) with
  | Some rest => Some (JArr [], rest)
  | None =>
      match parse_elements f r with
      | Some (xs, rest) => Some (JArr xs, rest)
      | None => None
      end
  end.
Proof. reflexivity. Qed.

Lemma parse_value_obj (f : nat) (r : string) :
  parse_value (S f) (String "{" r) =
  match expect "}" (skip_ws r) with
  | Some rest => Some (JObj [], rest)
  | None =>
      match parse_members f r with
      | Some (kvs, rest) => Some (JObj kvs, rest)
      | None => None
      end
  end.
Proof. reflexivity. Qed.

Lemma parse_elements_text (xs : list json) :
  Forall parses_back xs -> xs <> [] ->
  forall fuel rest,
    json_size_list json_size xs <= fuel -> ends_value rest = true ->
    parse_elements fuel (elements_text xs ++ String "]" rest) = Some (xs, rest).
Proof.
  induction 1 as [ | x xs Hx Hxs IH ]; intros Hne fuel rest Hfuel Hrest; [ congruence | ].
  simpl in Hfuel. destruct fuel as [ | f ]; [ lia | ].
  rewrite parse_elements_S.
  destruct xs as [ | y ys ].
  - simpl elements_text.
    rewrite (Hx f (String "]" rest)); [ | lia | reflexivity ].
    reflexivity.
  - change (elements_text (x :: y :: ys))
      with (stringify x ++ String "," (elements_text (y :: ys))).
    rewrite append_assoc. simpl append at 2.
    rewrite (Hx f); [ | simpl in *; lia | reflexivity ].
    simpl skip_ws. cbn [Ascii.eqb Bool.eqb].
    rewrite IH; [ reflexivity | discriminate | simpl in *; lia | exact Hrest ].
Qed.

Lemma skip_ws_dquote (r : string) : skip_ws (String dquote r) = String dquote r.
Proof. reflexivity. Qed.

Lemma expect_dquote (r : string) : expect (str1 dquote) (String dquote r) = Some r.
Proof. reflexivity. Qed.

Lemma append_colon (a b : string) : String ":" a ++ b = String ":" (a ++ b).
Proof. reflexivity. Qed.

Lemma skip_ws_colon (r : string) : skip_ws (String ":" r) = String ":" r.
Proof. reflexivity. Qed.

Lemma expect_colon (r : string) : expect ":" (String ":" r) = Some r.
Proof. reflexivity. Qed.

Lemma parse_members_text (kvs : list (string * json)) :
  Forall (fun kv => parses_back (snd kv)) kvs -> kvs <> [] ->
  forall fuel rest,
    json_size_members json_size kvs <= fuel -> ends_value rest = true ->
    parse_members fuel (members_text kvs ++ String "}" rest) = Some (kvs, rest).
Proof.
  induction 1 as [ | [k x] kvs Hx Hkvs IH ]; intros Hne fuel rest Hfuel Hrest; [ congruence | ].
  simpl in Hfuel, Hx. destruct fuel as [ | f ]; [ lia | ].
  rewrite parse_members_S.
  destruct kvs as [ | y ys ].
  - change (members_text [(k, x)]) with (quote k ++ String ":" (stringify x)).
    rewrite append_assoc.
    destruct (parse_chars_quote k (String ":" (stringify x) ++ String "}" rest))
      as (body & Hq & Hbody).
    rewrite Hq, skip_ws_dquote, expect_dquote, Hbody.
    rewrite append_colon, skip_ws_colon, expect_colon.
    rewrite (Hx f (String "}" rest)); [ | lia | reflexivity ].
    reflexivity.
  - change (members_text ((k, x) :: y :: ys))
      with (quote k ++ String ":" (stringify x) ++ String "," (members_text (y :: ys))).
    rewrite append_assoc.
    destruct (parse_chars_quote k
                ((String ":" (stringify x) ++ String "," (members_text (y :: ys)))
                   ++ String "}" rest)) as (body & Hq & Hbody).
    rewrite Hq, skip_ws_dquote, expect_dquote, Hbody.
    rewrite append_assoc, append_colon, skip_ws_colon, expect_colon.
    change (String "," (members_text (y :: ys)) ++ String "}" rest)
      with (String "," (members_text (y :: ys) ++ String "}" rest)).
    rewrite (Hx f); [ | simpl in *; lia | reflexivity ].
    simpl skip_ws. cbn [Ascii.eqb Bool.eqb].
    rewrite IH; [ reflexivity | discriminate | simpl in *; lia | exact Hrest ].
Qed.

Lemma parse_value_stringify (v : json) : parses_back v.
Proof.
  induction v as [ | b | n | s | xs IH | kvs IH ] using json_nested_ind;
    intros fuel rest Hfuel Hrest;
    (destruct fuel as [ | f ]; [ simpl in Hfuel; lia | ]).
  - reflexivity.
  - destruct b; reflexivity.
  - rewrite parse_value_S.
    rewrite (starts_value_skip_ws _ (starts_value_stringify (JNum n) rest)).
    pose proof (parse_number_text n rest Hrest) as Hn.
    pose proof (starts_value_stringify (JNum n) rest) as Hs.
    simpl stringify in *.
    destruct (number_text n ++ rest) as [ | c r ] eqn:E; [ discriminate | ].
    unfold parse_number in Hn.
    destruct (c =? "-")%char eqn:Eminus.
    + apply Ascii.eqb_eq in Eminus. subst c. cbn [Ascii.eqb Bool.eqb].
      unfold parse_number. cbn [Ascii.eqb Bool.eqb]. exact Hn.
    + unfold parse_magnitude in Hn. simpl parse_digits in Hn.
      unfold digit_of in Hn.
      repeat match type of Hn with
             | context [ (c =? ?d)%char ] =>
                 let Ed := fresh "Ed" in
                 destruct (c =? d)%char eqn:Ed;
                 [ apply Ascii.eqb_eq in Ed; subst c; cbn [Ascii.eqb Bool.eqb];
                   unfold parse_number, parse_magnitude; simpl parse_digits;
                   cbn [Ascii.eqb Bool.eqb]; exact Hn | ]
             end.
      discriminate.
  - rewrite parse_value_S.
    destruct (parse_chars_quote s rest) as (body & Hq & Hbody).
    simpl stringify. rewrite Hq. simpl skip_ws. cbn [Ascii.eqb Bool.eqb].
    rewrite Hbody. reflexivity.
  - rewrite stringify_arr.
    change (String "[" (elements_text xs ++ "]") ++ rest)
      with (String "[" ((elements_text xs ++ "]") ++ rest)).
    rewrite parse_value_arr, append_assoc.
    change ("]" ++ rest) with (String "]" rest).
    destruct xs as [ | x xs ].
    + reflexivity.
    + assert (Hne : x :: xs <> []) by discriminate.
      pose proof (starts_value_elements (x :: xs) (String "]" rest) Hne) as Hs.
      rewrite (starts_value_skip_ws _ Hs).
      destruct (starts_value_not_closed _ Hs) as [Hc _]. rewrite Hc.
      rewrite (parse_elements_text (x :: xs) IH Hne f rest);
        [ reflexivity | simpl in *; lia | exact Hrest ].
  - rewrite stringify_obj.
    change (String "{" (members_text kvs ++ "}") ++ rest)
      with (String "{" ((members_text kvs ++ "}") ++ rest)).
    rewrite parse_value_obj, append_assoc.
    change ("}" ++ rest) with (String "}" rest).
    destruct kvs as [ | kv kvs ].
    + reflexivity.
    + assert (Hne : kv :: kvs <> []) by discriminate.
      pose proof (starts_value_members (kv :: kvs) (String "}" rest) Hne) as Hs.
      rewrite (starts_value_skip_ws _ Hs).
      destruct (starts_value_not_closed _ Hs) as [_ Hc]. rewrite Hc.
      rewrite (parse_members_text (kv :: kvs) IH Hne f rest);
        [ reflexivity | simpl in *; lia | exact Hrest ].
Qed.

Lemma append_empty_r (a : string) : a ++ EmptyString = a.
Proof. induction a as [ | x a IH ]; simpl; [ reflexivity | now rewrite IH ]. Qed.

Lemma length_cons (c : ascii) (a : string) :
  String.length (String c a) = S (String.length a).
Proof. reflexivity. Qed.

Lemma elements_text_size (xs : list json) :
  Forall (fun x => json_size x <= String.length (stringify x)) xs ->
  json_size_list json_size xs <= S (String.length (elements_text xs)).
Proof.
  induction 1 as [ | x xs Hx Hxs IH ]; [ simpl; lia | ].
  destruct xs as [ | y ys ].
  - simpl. lia.
  - change (elements_text (x :: y :: ys))
      with (stringify x ++ String "," (elements_text (y :: ys))).
    rewrite length_append.
    change (json_size_list json_size (x :: y :: ys))
      with (S (json_size x + json_size_list json_size (y :: ys))).
    rewrite !length_cons. lia.
Qed.

Lemma members_text_size (kvs : list (string * json)) :
  Forall (fun kv => json_size (snd kv) <= String.length (stringify (snd kv))) kvs ->
  json_size_members json_size kvs <= S (String.length (members_text kvs)).
Proof.
  induction 1 as [ | [k x] kvs Hx Hkvs IH ]; [ simpl; lia | ].
  simpl snd in Hx.
  destruct kvs as [ | y ys ].
  - change (members_text [(k, x)]) with (quote k ++ String ":" (stringify x)).
    rewrite length_append, length_cons. simpl. lia.
  - change (members_text ((k, x) :: y :: ys))
      with (quote k ++ String ":" (stringify x) ++ String "," (members_text (y :: ys))).
    rewrite length_append.
    change (String ":" (stringify x) ++ String "," (members_text (y :: ys)))
      with (String ":" (stringify x ++ String "," (members_text (y :: ys)))).
    change (json_size_members json_size ((k, x) :: y :: ys))
      with (S (json_size x + json_size_members json_size (y :: ys))).
    rewrite !length_cons, length_append, !length_cons. lia.
Qed.

Lemma stringify_size (v : json) : json_size v <= String.length (stringify v).
Proof.
  induction v as [ | b | n | s | xs IH | kvs IH ] using json_nested_ind.
  - simpl; lia.
  - destruct b; simpl; lia.
  - pose proof (starts_value_stringify (JNum n) EmptyString) as Hs.
    rewrite append_empty_r in Hs.
    destruct (stringify (JNum n)); [ discriminate | simpl; lia ].
  - simpl; lia.
  - rewrite stringify_arr. pose proof (elements_text_size xs IH) as Hl.
    simpl String.length. rewrite length_append.
    change (json_size (JArr xs)) with (S (json_size_list json_size xs)).
    simpl String.length. lia.
  - rewrite stringify_obj. pose proof (members_text_size kvs IH) as Hl.
    simpl String.length. rewrite length_append.
    change (json_size (JObj kvs)) with (S (json_size_members json_size kvs)).
    simpl String.length. lia.
Qed.

(** [JSON.parse(JSON.stringify(v))] gives [v] back, for every value. *)
Theorem parse_stringify (v : json) : parse (stringify v) = Some v.
Proof.
  unfold parse.
  pose proof (parse_value_stringify v (S (String.length (stringify v))) EmptyString) as H.
  rewrite append_empty_r in H.
  rewrite H; [ reflexivity | | reflexivity ].
  pose proof (stringify_size v). lia.
Qed.

(** The text of a truthy value is never the empty string, so it is
    itself truthy as a JavaScript string. *)
Lemma stringify_nonempty (v : json) : stringify v <> EmptyString.
Proof.
  pose proof (stringify_size v) as H.
  destruct v; simpl json_size in H; intros E; rewrite E in H; simpl in H; lia.
Qed.

End JSONFacts.

(* ================================================================== *)
(** * Reasoning about awaited calls *)
(* ================================================================== *)

Lemma string_eqb_refl (s : string) : String.eqb s s = true.
Proof. apply String.eqb_eq. reflexivity. Qed.

Lemma getClient_run (w : world) :
  BigqueryService.getClient w = (Ok (client_handle w), client_ready w).
Proof.
  unfold BigqueryService.getClient, client_handle, client_ready.
  destruct (bigqueryClient w); reflexivity.
Qed.

Lemma client_ready_frame (w : world) :
  cfg (client_ready w) = cfg w /\
  dataset_present (client_ready w) = dataset_present w /\
  table_present (client_ready w) = table_present w /\
  rows (client_ready w) = rows w /\
  json_as_text (client_ready w) = json_as_text w /\
  faults (client_ready w) = faults w /\
  calls (client_ready w) = calls w /\
  console (client_ready w) = console w /\
  tick (client_ready w) = tick w /\
  uuid_at (client_ready w) = uuid_at w /\
  iso_at (client_ready w) = iso_at w /\
  listening (client_ready w) = listening w.
Proof.
  unfold client_ready. destruct (bigqueryClient w); simpl; repeat split; reflexivity.
Qed.

(** [executeQuery], case by case. *)
Lemma executeQuery_run (q : statement) (ps : list (string * json))
    (ts : option (list (string * string))) (w : world) :
  BigqueryService.executeQuery q ps ts w =
  match Warehouse.bind_params ts ps with
  | None =>
      (Throw (QueryError "parameter types must be provided for null values"),
       refused false q ps ts w)
  | Some env =>
      if next_call_fails w then
        (Throw (QueryError "transport failure"), refused true q ps ts w)
      else if BigqueryService.table_reachable (Warehouse.statement_table q) w then
        match Warehouse.run (json_as_text w) q env (rows w) with
        | Some (result_rows, rs) => (Ok result_rows, queried q ps ts rs w)
        | None => (Throw (QueryError "statement rejected"), refused true q ps ts w)
        end
      else (Throw (QueryError "table not found"), refused true q ps ts w)
  end.
Proof.
  unfold BigqueryService.executeQuery, bind. rewrite getClient_run.
  destruct (client_ready_frame w)
    as (Hcfg & Hd & Ht & Hrows & Htext & Hfaults & Hcalls & _).
  unfold BigqueryService.client_query, bind, BigqueryService.record_call.
  cbn [types params query].
  destruct (Warehouse.bind_params ts ps) as [ env | ].
  - unfold BigqueryService.transport, next_call_fails, refused, queried, options_of,
      BigqueryService.table_reachable, BigqueryService.configured_table.
    cbn [faults calls with_remote].
    rewrite Hcfg, Hfaults, Hcalls.
    destruct (faults w) as [ | [|] fs ];
      cbn -[String.eqb Warehouse.qualified Warehouse.run Warehouse.statement_table
              client_ready];
      rewrite ?Hcfg, ?Hd, ?Ht, ?Hrows, ?Htext; try reflexivity;
      match goal with
      | |- context [ if ?b then _ else _ ] => destruct b; try reflexivity
      end;
      destruct (Warehouse.run (json_as_text w) q env (rows w)) as [ [res rs] | ];
      reflexivity.
  - unfold throw, refused, options_of. cbn [faults calls with_remote].
    rewrite Hcfg, Hfaults, Hcalls. reflexivity.
Qed.

(** The statement went through. *)
Lemma executeQuery_ok (q : statement) (ps : list (string * json))
    (ts : option (list (string * string))) (w : world)
    (env : list (string * cell)) (res : list json) (rs : list row) :
  Warehouse.bind_params ts ps = Some env ->
  next_call_fails w = false ->
  BigqueryService.table_reachable (Warehouse.statement_table q) w = true ->
  Warehouse.run (json_as_text w) q env (rows w) = Some (res, rs) ->
  BigqueryService.executeQuery q ps ts w = (Ok res, queried q ps ts rs w).
Proof.
  intros Hb Hf Ht Hr. rewrite executeQuery_run, Hb, Hf, Ht, Hr. reflexivity.
Qed.

(** What a query leaves alone, whatever its outcome. *)
Lemma queried_frame (q : statement) (ps : list (string * json))
    (ts : option (list (string * string))) (rs : list row) (w : world) :
  let w' := queried q ps ts rs w in
  cfg w' = cfg w /\ json_as_text w' = json_as_text w /\
  dataset_present w' = dataset_present w /\ table_present w' = table_present w /\
  rows w' = rs /\ faults w' = tl (faults w) /\
  calls w' = (calls w ++ [CallQuery (options_of q ps ts w)])%list /\
  tick w' = tick w /\ uuid_at w' = uuid_at w /\ iso_at w' = iso_at w /\
  console w' = console w /\ listening w' = listening w.
Proof.
  destruct (client_ready_frame w)
    as (Hcfg & Hd & Ht & Hrows & Htext & Hfaults & Hcalls & Hcon & Htick & Hu & Hi & Hl).
  unfold queried; simpl. repeat split; assumption.
Qed.

Lemma refused_frame (b : bool) (q : statement) (ps : list (string * json))
    (ts : option (list (string * string))) (w : world) :
  let w' := refused b q ps ts w in
  cfg w' = cfg w /\ json_as_text w' = json_as_text w /\
  dataset_present w' = dataset_present w /\ table_present w' = table_present w /\
  rows w' = rows w /\
  calls w' = (calls w ++ [CallQuery (options_of q ps ts w)])%list /\
  tick w' = tick w /\ uuid_at w' = uuid_at w /\ iso_at w' = iso_at w /\
  console w' = console w /\ listening w' = listening w.
Proof.
  destruct (client_ready_frame w)
    as (Hcfg & Hd & Ht & Hrows & Htext & Hfaults & Hcalls & Hcon & Htick & Hu & Hi & Hl).
  unfold refused; simpl. repeat split; assumption.
Qed.

Lemma table_reachable_queried (t : string) (q : statement) (ps : list (string * json))
    (ts : option (list (string * string))) (rs : list row) (w : world) :
  BigqueryService.table_reachable t (queried q ps ts rs w)
  = BigqueryService.table_reachable t w.
Proof.
  destruct (queried_frame q ps ts rs w) as (Hcfg & _ & Hd & Ht & _).
  unfold BigqueryService.table_reachable, BigqueryService.configured_table.
  rewrite Hcfg, Hd, Ht. reflexivity.
Qed.

(** SQL equality on the id column. *)
Lemma matches_string (s : string) (r : row) :
  Warehouse.matches (CString s) r = true <-> c_id r = CString s.
Proof.
  unfold Warehouse.matches, Warehouse.cell_eqb.
  destruct (c_id r); split; intros H; try discriminate.
  - apply String.eqb_eq in H. now subst.
  - injection H as ->. apply string_eqb_refl.
Qed.

Lemma filter_none {A : Type} (f : A -> bool) (l : list A) :
  (forall x, In x l -> f x = false) -> filter f l = [].
Proof.
  induction l as [ | x l IH ]; intros H; simpl; [ reflexivity | ].
  rewrite (H x (or_introl eq_refl)). apply IH. intros y Hy. apply H. now right.
Qed.

Lemma provisioned_reachable (w : world) :
  provisioned w ->
  BigqueryService.table_reachable (BigqueryService.configured_table w) w = true.
Proof.
  intros [Hd Ht]. unfold BigqueryService.table_reachable.
  rewrite string_eqb_refl, Hd, Ht. reflexivity.
Qed.

Lemma provisioned_queried (q : statement) (ps : list (string * json))
    (ts : option (list (string * string))) (rs : list row) (w : world) :
  provisioned w -> provisioned (queried q ps ts rs w).
Proof.
  intros [Hd Ht]. destruct (queried_frame q ps ts rs w) as (_ & _ & Hd' & Ht' & _).
  split; congruence.
Qed.

(* ================================================================== *)
(** * delete: success is reported whatever matched *)
(* ================================================================== *)

(** C4.  Once the DELETE statement has completed without error,
    [repository.delete(id)] resolves to [true]; nothing in it looks at
    whether a row matched.  Both copies of the repository agree. *)
Theorem delete_returns_true_once_statement_completes
    (t : string) (id : json) (w w' : world) (result_rows : list json) :
  BigqueryService.executeQuery (Delete t) [("id", id)] None w = (Ok result_rows, w') ->
  Repository.delete t id w = (Ok true, w') /\
  BaseRepository.delete t id w = (Ok true, w').
Proof.
  intros H. unfold Repository.delete, BaseRepository.delete, bind.
  rewrite H. split; reflexivity.
Qed.

(** The DELETE statement on a provisioned table completes when the round
    trip does, whether or not a row has the id. *)
Lemma delete_statement_completes (w : world) (s : string) :
  provisioned w -> next_call_fails w = false ->
  let q := Delete (BigqueryService.configured_table w) in
  BigqueryService.executeQuery q [("id", JStr s)] None w
  = (Ok [], queried q [("id", JStr s)] None
              (filter (fun r => negb (Warehouse.matches (CString s) r)) (rows w)) w).
Proof.
  intros Hp Hf q.
  apply executeQuery_ok with (env := [("id", CString s)]);
    [ reflexivity | exact Hf | now apply provisioned_reachable | reflexivity ].
Qed.

(** Witness for C4: the id matches no row of the stocked table, the
    statement completes, and [delete] still answers [true]. *)
Lemma delete_returns_true_witness :
  filter (Warehouse.matches (CString "no-such-id")) (rows stocked_world) = [] /\
  Repository.delete (BigqueryService.configured_table stocked_world)
    (JStr "no-such-id") stocked_world
  = (Ok true,
     queried (Delete (BigqueryService.configured_table stocked_world))
       [("id", JStr "no-such-id")] None [sample_row] stocked_world).
Proof.
  split; [ reflexivity | ].
  refine (proj1 (delete_returns_true_once_statement_completes
                   (BigqueryService.configured_table stocked_world)
                   (JStr "no-such-id") stocked_world _ [] _)).
  reflexivity.
Defined.

(* ================================================================== *)
(** * Not found *)
(* ================================================================== *)

Lemma select_absent (w : world) (s : string) :
  provisioned w -> next_call_fails w = false ->
  (forall r, In r (rows w) -> c_id r <> CString s) ->
  let q := SelectById (BigqueryService.configured_table w) in
  BigqueryService.executeQuery q [("id", JStr s)] None w
  = (Ok [], queried q [("id", JStr s)] None (rows w) w).
Proof.
  intros Hp Hf Habsent q.
  apply executeQuery_ok with (env := [("id", CString s)]);
    [ reflexivity | exact Hf | now apply provisioned_reachable | ].
  unfold q. cbn [Warehouse.run assoc]. rewrite string_eqb_refl.
  rewrite filter_none; [ reflexivity | ].
  intros r Hr. destruct (Warehouse.matches (CString s) r) eqn:E; [ | reflexivity ].
  apply matches_string in E. now apply Habsent in E.
Qed.

Lemma findById_absent (w : world) (s : string) :
  provisioned w -> next_call_fails w = false ->
  (forall r, In r (rows w) -> c_id r <> CString s) ->
  let t := BigqueryService.configured_table w in
  let w1 := queried (SelectById t) [("id", JStr s)] None (rows w) w in
  Repository.findById t (JStr s) w = (Ok JNull, w1) /\
  BaseRepository.findById t (JStr s) w = (Ok JNull, w1).
Proof.
  intros Hp Hf Habsent t w1. subst t w1.
  pose proof (select_absent w s Hp Hf Habsent) as Hs. cbv zeta in Hs.
  unfold Repository.findById, BaseRepository.findById, bind.
  rewrite Hs. split; reflexivity.
Qed.

(** What the controller does once [findById] came back with [null]. *)
Lemma controller_reports_not_found (repo : repository) (id : json)
    (b : Controller.body) (w w1 : world) :
  m_findById repo id w = (Ok JNull, w1) ->
  let answer :=
    {| Controller.status := 404; Controller.success := false;
       Controller.timestamp := iso_at w1 (tick w1);
       Controller.message := Some "Item not found";
       Controller.data := Some JNull |} in
  Controller.update repo id b w = (Ok answer, with_tick (S (tick w1)) w1) /\
  Controller.delete repo id w = (Ok answer, with_tick (S (tick w1)) w1).
Proof.
  intros H answer. unfold Controller.update, Controller.delete, bind.
  rewrite H. split; reflexivity.
Qed.

(** C5.  For an id that no row carries, [findById] resolves to [null]
    (it does not throw), and the update and delete operations the
    controller offers both answer 404 "Item not found"; the rows of the
    table are left as they were.  This holds with either copy of the
    repository behind the controller. *)
Theorem not_found_is_consistent (w : world) (s : string) (b : Controller.body) :
  provisioned w -> next_call_fails w = false ->
  (forall r, In r (rows w) -> c_id r <> CString s) ->
  forall repo,
    repo = Repository.defaults (cfg w) \/ repo = BaseRepository.defaults (cfg w) ->
    (exists w1, m_findById repo (JStr s) w = (Ok JNull, w1) /\ rows w1 = rows w) /\
    (exists answer w2,
        Controller.update repo (JStr s) b w = (Ok answer, w2) /\
        Controller.status answer = 404%Z /\ Controller.success answer = false /\
        Controller.message answer = Some "Item not found" /\
        rows w2 = rows w) /\
    (exists answer w2,
        Controller.delete repo (JStr s) w = (Ok answer, w2) /\
        Controller.status answer = 404%Z /\ Controller.success answer = false /\
        Controller.message answer = Some "Item not found" /\
        rows w2 = rows w).
Proof.
  intros Hp Hf Habsent repo Hrepo.
  destruct (findById_absent w s Hp Hf Habsent) as [Hnew Hold].
  set (w1 := queried (SelectById (BigqueryService.configured_table w))
               [("id", JStr s)] None (rows w) w) in *.
  assert (Hrows : rows w1 = rows w).
  { unfold w1. now destruct (queried_frame (SelectById (BigqueryService.configured_table w))
                               [("id", JStr s)] None (rows w) w) as (_ & _ & _ & _ & H & _). }
  assert (Hfind : m_findById repo (JStr s) w = (Ok JNull, w1)).
  { destruct Hrepo as [-> | ->]; [ exact Hnew | exact Hold ]. }
  destruct (controller_reports_not_found repo (JStr s) b w w1 Hfind) as [Hu Hd].
  split; [ exists w1; split; [ exact Hfind | exact Hrows ] | ].
  split; eexists; eexists; (split; [ eassumption | ]);
    repeat split; exact Hrows.
Qed.

(** Witness for C5: an id the stocked table does not hold. *)
Lemma not_found_is_consistent_witness :
  let repo := Repository.defaults (cfg stocked_world) in
  (exists w1,
      m_findById repo (JStr "no-such-id") stocked_world = (Ok JNull, w1)) /\
  (exists answer w2,
      Controller.update repo (JStr "no-such-id")
        {| Controller.b_name := Some (JStr "x");
           Controller.b_value := None; Controller.b_data := None |} stocked_world
      = (Ok answer, w2) /\
      Controller.status answer = 404%Z /\ rows w2 = [sample_row]) /\
  (exists answer w2,
      Controller.delete repo (JStr "no-such-id") stocked_world = (Ok answer, w2) /\
      Controller.status answer = 404%Z /\ rows w2 = [sample_row]).
Proof.
  intros repo.
  destruct (not_found_is_consistent stocked_world "no-such-id"
              {| Controller.b_name := Some (JStr "x");
                 Controller.b_value := None; Controller.b_data := None |})
    with (repo := repo)
    as ((w1 & Hfind & _) & (a2 & w2 & Hu & Hs2 & _ & _ & Hr2)
        & (a3 & w3 & Hd & Hs3 & _ & _ & Hr3)).
  - split; reflexivity.
  - reflexivity.
  - intros r [<- | []]. discriminate.
  - left. reflexivity.
  - split; [ exists w1; exact Hfind | split ].
    + exists a2, w2. repeat split; assumption.
    + exists a3, w3. repeat split; assumption.
Defined.

(* ================================================================== *)
(** * The mock-mode flag *)
(* ================================================================== *)

(** [executeQuery] hands every statement to [client.query], in every
    world: [config.features.enableMockMode] is not among the things it
    reads. *)
Lemma executeQuery_records_call (q : statement) (ps : list (string * json))
    (ts : option (list (string * string))) (w : world) :
  calls (snd (BigqueryService.executeQuery q ps ts w))
  = (calls w ++ [CallQuery (options_of q ps ts w)])%list.
Proof.
  rewrite executeQuery_run.
  destruct (Warehouse.bind_params ts ps) as [ env | ].
  - destruct (next_call_fails w);
      [ now destruct (refused_frame true q ps ts w) as (_ & _ & _ & _ & _ & H & _) | ].
    destruct (BigqueryService.table_reachable (Warehouse.statement_table q) w);
      [ | now destruct (refused_frame true q ps ts w) as (_ & _ & _ & _ & _ & H & _) ].
    destruct (Warehouse.run (json_as_text w) q env (rows w)) as [ [res rs] | ].
    + now destruct (queried_frame q ps ts rs w) as (_ & _ & _ & _ & _ & _ & H & _).
    + now destruct (refused_frame true q ps ts w) as (_ & _ & _ & _ & _ & H & _).
  - now destruct (refused_frame false q ps ts w) as (_ & _ & _ & _ & _ & H & _).
Qed.

(** C3, evaluated.  With [enableMockMode = true] each of the six
    repository operations still goes through [executeQuery] to
    [client.query] (one call each, two for [update]), and [create] and
    [delete] change the rows of the real table. *)
Theorem mock_mode_still_queries_the_warehouse :
  let repo := Repository.defaults (cfg mock_world) in
  enableMockMode (cfg mock_world) = true /\
  queries_made (m_create repo sample_input) mock_world = 1 /\
  queries_made (m_findAll repo no_options) mock_world = 1 /\
  queries_made (m_findById repo (JStr "item-1")) mock_world = 1 /\
  queries_made (m_update repo (JStr "item-1") empty_patch) mock_world = 2 /\
  queries_made (m_delete repo (JStr "item-1")) mock_world = 1 /\
  queries_made (m_count repo) mock_world = 1 /\
  List.length (rows (snd (m_create repo sample_input mock_world))) = 2 /\
  rows (snd (m_delete repo (JStr "item-1") mock_world)) = [].
Proof. vm_compute. repeat split; reflexivity. Qed.

(** The same holds for the copy in [baseRepository.js]. *)
Lemma mock_mode_still_queries_the_warehouse_base :
  let repo := BaseRepository.defaults (cfg mock_world) in
  queries_made (m_create repo sample_input) mock_world = 1 /\
  queries_made (m_findAll repo no_options) mock_world = 1 /\
  queries_made (m_findById repo (JStr "item-1")) mock_world = 1 /\
  queries_made (m_update repo (JStr "item-1") empty_patch) mock_world = 2 /\
  queries_made (m_delete repo (JStr "item-1")) mock_world = 1 /\
  queries_made (m_count repo) mock_world = 1.
Proof. vm_compute. repeat split; reflexivity. Qed.

(* ================================================================== *)
(** * Parameter types *)
(* ================================================================== *)

(** Decoding a row happens in the process: it leaves the world alone. *)
Lemma decode_world (row : json) (w : world) :
  snd (Repository.decode row w) = w /\ snd (BaseRepository.decode row w) = w.
Proof.
  unfold Repository.decode, BaseRepository.decode, JSON_parse, bind, ret, throw.
  destruct (get_prop row "data") as [ d | ]; cbn [js_truthy].
  - split.
    + destruct (is_string d); [ | reflexivity ].
      destruct (JSON.parse (to_string d)); reflexivity.
    + destruct (truthy d); [ | reflexivity ].
      destruct (JSON.parse (to_string d)); reflexivity.
  - split; reflexivity.
Qed.

(** [findById] is one SELECT, in both copies. *)
Lemma findById_world (t : string) (id : json) (w : world) :
  snd (Repository.findById t id w)
  = snd (BigqueryService.executeQuery (SelectById t) [("id", id)] None w) /\
  snd (BaseRepository.findById t id w)
  = snd (BigqueryService.executeQuery (SelectById t) [("id", id)] None w).
Proof.
  unfold Repository.findById, BaseRepository.findById, bind.
  destruct (BigqueryService.executeQuery (SelectById t) [("id", id)] None w)
    as [[[ | row rest] | e] w1]; cbn [snd ret]; try (split; reflexivity).
  apply decode_world.
Qed.

Lemma findById_calls (t : string) (id : json) (w : world) :
  let call := CallQuery (options_of (SelectById t) [("id", id)] None w) in
  calls (snd (Repository.findById t id w)) = (calls w ++ [call])%list /\
  calls (snd (BaseRepository.findById t id w)) = (calls w ++ [call])%list.
Proof.
  destruct (findById_world t id w) as [-> ->].
  split; apply executeQuery_records_call.
Qed.

(** In [part_000], [update] declares a type for every parameter it binds. *)
Lemma update_declares_every_type (id : json) (now : string) (data : patch) :
  let u := Repository.update_build id now data in
  map fst (u_types u) = map fst (u_params u).
Proof.
  unfold Repository.update_build, Repository.update_data, Repository.update_value,
    Repository.update_name, Repository.update_start, push_part.
  destruct (p_name data), (p_value data), (p_data data); reflexivity.
Qed.

Lemma assoc_in_keys {A : Type} (k : string) (l : list (string * A)) :
  In k (map fst l) -> exists v, assoc k l = Some v.
Proof.
  induction l as [ | [k' v'] l IH ]; simpl; [ contradiction | ].
  intros [<- | H].
  - rewrite string_eqb_refl. now exists v'.
  - destruct (String.eqb k k'); [ now exists v' | now apply IH ].
Qed.

(** The statement [update] of [part_000] sends: its options carry the
    types, and every parameter, null or not, has one. *)
Lemma update_call_is_typed (t : string) (id : json) (data : patch) (w : world) :
  let u := Repository.update_build id (iso_at w (tick w)) data in
  exists o later,
    calls (snd (Repository.update t id data w)) = (calls w ++ CallQuery o :: later)%list /\
    query o = Update t (u_setClauses u) /\
    params o = u_params u /\
    types o = Some (u_types u) /\
    nulls_typed o.
Proof.
  intros u.
  set (w1 := with_tick (S (tick w)) w).
  set (o := options_of (Update t (u_setClauses u)) (u_params u) (Some (u_types u)) w1).
  assert (Htyped : nulls_typed o).
  { intros name Hin. cbn [o options_of types params] in *.
    apply assoc_in_keys. unfold u. rewrite update_declares_every_type.
    apply (in_map fst) in Hin. exact Hin. }
  exists o.
  unfold Repository.update, bind, date_now_iso. fold w1. fold u.
  pose proof (executeQuery_records_call (Update t (u_setClauses u)) (u_params u)
                (Some (u_types u)) w1) as Hc.
  fold o in Hc. change (calls w1) with (calls w) in Hc.
  destruct (BigqueryService.executeQuery (Update t (u_setClauses u)) (u_params u)
              (Some (u_types u)) w1) as [[res | e] w2]; cbn [snd] in Hc.
  - exists [CallQuery (options_of (SelectById t) [("id", id)] None w2)].
    split; [ | repeat split; exact Htyped ].
    destruct (findById_calls t id w2) as [-> _]. rewrite Hc, <- app_assoc. reflexivity.
  - exists []. split; [ cbn [snd]; exact Hc | repeat split; exact Htyped ].
Qed.

(** [create] declares the six types, in both copies. *)
Lemma create_call_is_typed (t : string) (i : create_input) (w : world) :
  forall create,
    create = Repository.create \/ create = BaseRepository.create ->
    exists o,
      calls (snd (create t i w)) = (calls w ++ [CallQuery o])%list /\
      types o = Some [ ("id", "STRING"); ("name", "STRING"); ("value", "INT64");
                       ("data", "STRING"); ("created_at", "STRING");
                       ("updated_at", "STRING") ] /\
      map fst (params o) = item_columns.
Proof.
  intros create [-> | ->];
    unfold Repository.create, BaseRepository.create, bind, uuidv4, date_now_iso;
    match goal with
    | |- context [ BigqueryService.executeQuery ?q ?ps ?ts ?w1 ] =>
        pose proof (executeQuery_records_call q ps ts w1) as Hc;
        exists (options_of q ps ts w1);
        destruct (BigqueryService.executeQuery q ps ts w1) as [[res | e] w2]
    end; cbn [snd ret] in *; (split; [ exact Hc | split; reflexivity ]).
Qed.

(** In [baseRepository.js], [update] passes no types at all: the options
    of its UPDATE statement have none. *)
Lemma base_update_call_is_untyped (t : string) (id : json) (data : patch) (w : world) :
  exists o later,
    calls (snd (BaseRepository.update t id data w)) = (calls w ++ CallQuery o :: later)%list /\
    params o = u_params (BaseRepository.update_build id (iso_at w (tick w)) data) /\
    types o = None.
Proof.
  set (u := BaseRepository.update_build id (iso_at w (tick w)) data).
  set (w1 := with_tick (S (tick w)) w).
  exists (options_of (Update t (u_setClauses u)) (u_params u) None w1).
  unfold BaseRepository.update, bind, date_now_iso. fold w1. fold u.
  pose proof (executeQuery_records_call (Update t (u_setClauses u)) (u_params u) None w1)
    as Hc.
  change (calls w1) with (calls w) in Hc.
  destruct (BigqueryService.executeQuery (Update t (u_setClauses u)) (u_params u) None w1)
    as [[res | e] w2]; cbn [snd] in Hc.
  - exists [CallQuery (options_of (SelectById t) [("id", id)] None w2)].
    split; [ | split; reflexivity ].
    destruct (findById_calls t id w2) as [_ ->]. rewrite Hc, <- app_assoc. reflexivity.
  - exists []. split; [ cbn [snd]; exact Hc | split; reflexivity ].
Qed.

(** C7, evaluated on [baseRepository.js].  The body [{ "value": null }]
    makes [update] bind [value = null]; the statement is handed to
    [executeQuery] with no types, the client refuses it, and the row keeps
    its old value.  The copy in [part_000] declares [value: INT64] and the
    same request goes through. *)
Theorem base_update_binds_null_without_types :
  let old := m_update (BaseRepository.defaults (cfg stocked_world)) (JStr "item-1")
               null_value_patch stocked_world in
  let new := m_update (Repository.defaults (cfg stocked_world)) (JStr "item-1")
               null_value_patch stocked_world in
  (exists o,
      calls (snd old) = [CallQuery o] /\
      In ("value", JNull) (params o) /\ types o = None) /\
  fst old = Throw (QueryError "parameter types must be provided for null values") /\
  rows (snd old) = [sample_row] /\
  (exists o later,
      calls (snd new) = CallQuery o :: later /\
      In ("value", JNull) (params o) /\
      Warehouse.declared (types o) "value" = Some "INT64") /\
  map c_value (rows (snd new)) = [CNull].
Proof.
  vm_compute. repeat split.
  - eexists. repeat split. right. right. left. reflexivity.
  - eexists. eexists. repeat split. right. right. left. reflexivity.
Qed.

(* ================================================================== *)
(** * Decoding the JSON column *)
(* ================================================================== *)

Lemma set_assoc_same (k : string) (v : json) (l : list (string * json)) :
  assoc k l = Some v -> set_assoc k v l = l.
Proof.
  induction l as [ | [k' v'] l IH ]; simpl; [ discriminate | ].
  destruct (String.eqb k k'); intros H.
  - now injection H as ->.
  - now rewrite IH.
Qed.

Lemma set_prop_same (k : string) (v : json) (row : json) :
  get_prop row k = Some v -> set_prop k v row = row.
Proof.
  destruct row; simpl; try discriminate.
  intros H. now rewrite set_assoc_same.
Qed.

(** [part_000]: a value that is not a string is handed on as it is. *)
Lemma decode_passes_through (row d : json) (w : world) :
  get_prop row "data" = Some d -> is_string d = false ->
  Repository.decode row w = (Ok row, w).
Proof.
  intros Hd Hs. unfold Repository.decode. rewrite Hd, Hs.
  rewrite (set_prop_same _ _ _ Hd). reflexivity.
Qed.

(** [part_000]: a JSON text is parsed. *)
Lemma decode_parses_text (row v : json) (w : world) :
  get_prop row "data" = Some (JStr (JSON.stringify v)) ->
  Repository.decode row w = (Ok (set_prop "data" v row), w).
Proof.
  intros Hd. unfold Repository.decode. rewrite Hd. cbn [is_string].
  unfold JSON_parse, bind. cbn [to_string].
  rewrite JSONFacts.parse_stringify. reflexivity.
Qed.



(** [baseRepository.js]: a JSON text is parsed. *)
Lemma base_decode_parses_text (row v : json) (w : world) :
  get_prop row "data" = Some (JStr (JSON.stringify v)) ->
  BaseRepository.decode row w = (Ok (set_prop "data" v row), w).
Proof.
  intros Hd. unfold BaseRepository.decode. rewrite Hd. cbn [js_truthy truthy].
  destruct (String.eqb (JSON.stringify v) EmptyString) eqn:E.
  - apply String.eqb_eq in E. now apply JSONFacts.stringify_nonempty in E.
  - cbn [negb]. unfold JSON_parse, bind. cbn [to_string].
    rewrite JSONFacts.parse_stringify. reflexivity.
Qed.





(* ================================================================== *)
(** * The client handle *)
(* ================================================================== *)

Lemma client_step_refl (w : world) : client_step w w.
Proof. split; [ reflexivity | left; split; reflexivity ]. Qed.

Lemma client_step_trans (w1 w2 w3 : world) :
  client_step w1 w2 -> client_step w2 w3 -> client_step w1 w3.
Proof.
  intros [Hcfg [[Hc Hn] | (Hnone & Hc & Hn)]] [Hcfg' [[Hc' Hn'] | (Hnone' & Hc' & Hn')]];
    (split; [ congruence | ]).
  - left. split; congruence.
  - right. repeat split; congruence.
  - right. repeat split; congruence.
  - congruence.
Qed.

Lemma keeps_ret {A : Type} (a : A) : keeps_client (ret a).
Proof. intros w. apply client_step_refl. Qed.

Lemma keeps_throw {A : Type} (e : error) : keeps_client (@throw A e).
Proof. intros w. apply client_step_refl. Qed.

Lemma keeps_bind {A B : Type} (m : M A) (k : A -> M B) :
  keeps_client m -> (forall a, keeps_client (k a)) -> keeps_client (bind m k).
Proof.
  intros Hm Hk w. unfold bind. specialize (Hm w).
  destruct (m w) as [[a | e] w1]; cbn [snd] in *.
  - eapply client_step_trans; [ exact Hm | apply Hk ].
  - exact Hm.
Qed.

Lemma keeps_try_catch {A : Type} (m : M A) (h : error -> M A) :
  keeps_client m -> (forall e, keeps_client (h e)) -> keeps_client (try_catch m h).
Proof.
  intros Hm Hh w. unfold try_catch. specialize (Hm w).
  destruct (m w) as [[a | e] w1]; cbn [snd] in *.
  - exact Hm.
  - eapply client_step_trans; [ exact Hm | apply Hh ].
Qed.

Lemma keeps_mapM {A B : Type} (f : A -> M B) (l : list A) :
  (forall a, keeps_client (f a)) -> keeps_client (mapM f l).
Proof.
  intros Hf. induction l as [ | x l IH ]; cbn [mapM].
  - apply keeps_ret.
  - apply keeps_bind; [ apply Hf | intros y ].
    apply keeps_bind; [ exact IH | intros ys; apply keeps_ret ].
Qed.

Lemma keeps_getClient : keeps_client BigqueryService.getClient.
Proof.
  intros w. unfold BigqueryService.getClient.
  destruct (bigqueryClient w) eqn:E; cbn [snd].
  - apply client_step_refl.
  - split; [ reflexivity | right; split; [ exact E | split; reflexivity ] ].
Qed.

(** A step that does not assign [bigqueryClient]. *)
Ltac keeps_untouched :=
  let w := fresh "w" in
  intros w;
  repeat match goal with
         | |- context [ match ?x with _ => _ end ] => destruct x
         end;
  (split; [ reflexivity | left; split; reflexivity ]).

Lemma keeps_record_call (c : remote_call) : keeps_client (BigqueryService.record_call c).
Proof. keeps_untouched. Qed.

Lemma keeps_transport : keeps_client BigqueryService.transport.
Proof. unfold BigqueryService.transport. keeps_untouched. Qed.

Lemma keeps_console_log (s : string) : keeps_client (console_log s).
Proof. keeps_untouched. Qed.

Lemma keeps_console_warn (s : string) : keeps_client (console_warn s).
Proof. keeps_untouched. Qed.

Lemma keeps_uuidv4 : keeps_client uuidv4.
Proof. keeps_untouched. Qed.

Lemma keeps_date_now_iso : keeps_client date_now_iso.
Proof. keeps_untouched. Qed.

Lemma keeps_JSON_parse (v : json) : keeps_client (JSON_parse v).
Proof. unfold JSON_parse. destruct (JSON.parse (to_string v)); [ apply keeps_ret | apply keeps_throw ]. Qed.

Create HintDb keeps.
#[local] Hint Resolve keeps_ret keeps_throw keeps_getClient keeps_record_call
  keeps_transport keeps_console_log keeps_console_warn keeps_uuidv4
  keeps_date_now_iso keeps_JSON_parse : keeps.

(** Walk through a computation built from [bind], [ret] and branches. *)
Ltac keeps_walk :=
  repeat first
    [ progress auto with keeps
    | apply keeps_bind; [ | intros ? ]
    | apply keeps_try_catch; [ | intros ? ]
    | apply keeps_mapM; intros ?
    | match goal with
      | |- keeps_client (match ?x with _ => _ end) => destruct x
      | |- keeps_client (let _ := _ in _) => cbv zeta
      end
    | solve [ keeps_untouched ] ].

Lemma keeps_client_query (client : nat) (o : query_options) :
  keeps_client (BigqueryService.client_query client o).
Proof. unfold BigqueryService.client_query, BigqueryService.remote. keeps_walk. Qed.

Lemma keeps_executeQuery (q : statement) (ps : list (string * json))
    (ts : option (list (string * string))) :
  keeps_client (BigqueryService.executeQuery q ps ts).
Proof.
  unfold BigqueryService.executeQuery.
  apply keeps_bind; [ apply keeps_getClient | intros client w ].
  apply keeps_client_query.
Qed.

#[local] Hint Resolve keeps_client_query keeps_executeQuery : keeps.

Lemma keeps_ensureTableExists : keeps_client BigqueryService.ensureTableExists.
Proof.
  unfold BigqueryService.ensureTableExists, BigqueryService.dataset_exists,
    BigqueryService.dataset_create, BigqueryService.table_exists,
    BigqueryService.table_create, BigqueryService.remote.
  keeps_walk.
Qed.

#[local] Hint Resolve keeps_ensureTableExists : keeps.

Lemma keeps_decode (row : json) :
  keeps_client (Repository.decode row) /\ keeps_client (BaseRepository.decode row).
Proof.
  unfold Repository.decode, BaseRepository.decode. split; keeps_walk.
Qed.

Lemma keeps_repository (c : copy) (w0 : world) :
  let repo := repository_of c w0 in
  (forall i, keeps_client (m_create repo i)) /\
  (forall o, keeps_client (m_findAll repo o)) /\
  (forall id, keeps_client (m_findById repo id)) /\
  (forall id p, keeps_client (m_update repo id p)) /\
  (forall id, keeps_client (m_delete repo id)) /\
  keeps_client (m_count repo).
Proof.
  assert (Hd := keeps_decode).
  destruct c; cbn [repository_of Repository.defaults BaseRepository.defaults
                     Repository.createRepository BaseRepository.createRepository
                     m_create m_findAll m_findById m_update m_delete m_count];
    (split; [ | split; [ | split; [ | split; [ | split ] ] ] ]); intros;
    unfold Repository.create, Repository.findAll, Repository.findById,
      Repository.update, Repository.delete, Repository.count,
      BaseRepository.create, BaseRepository.findAll, BaseRepository.findById,
      BaseRepository.update, BaseRepository.delete, BaseRepository.count,
      Repository.findById, BaseRepository.findById;
    keeps_walk; apply Hd.
Qed.

Lemma keeps_sendResponse (st : Z) (d : jsval) (msg : option string) :
  keeps_client (Controller.sendResponse st d msg).
Proof. unfold Controller.sendResponse. keeps_walk. Qed.

#[local] Hint Resolve keeps_sendResponse : keeps.

Lemma keeps_controller (repo : repository) :
  (forall i, keeps_client (m_create repo i)) ->
  (forall id, keeps_client (m_findById repo id)) ->
  (forall id p, keeps_client (m_update repo id p)) ->
  (forall id, keeps_client (m_delete repo id)) ->
  (forall b, keeps_client (Controller.create repo b)) /\
  (forall id, keeps_client (Controller.findById repo id)) /\
  (forall id b, keeps_client (Controller.update repo id b)) /\
  (forall id, keeps_client (Controller.delete repo id)).
Proof.
  intros Hc Hf Hu Hd.
  split; [ | split; [ | split ] ]; intros;
    unfold Controller.create, Controller.findById, Controller.update, Controller.delete;
    keeps_walk.
Qed.

Lemma keeps_startServer : keeps_client Server.startServer.
Proof. unfold Server.startServer, Server.app_listen. keeps_walk. Qed.

(** Every operation leaves the handle alone or creates it. *)
Lemma perform_client_step (op : operation) (w : world) : client_step w (perform op w).
Proof.
  destruct op; cbn [perform];
    try (destruct (keeps_repository c w) as (Hc & Ha & Hf & Hu & Hd & Hn);
         destruct (keeps_controller (repository_of c w) Hc Hf Hu Hd)
           as (Kc & Kf & Ku & Kd)).
  - apply keeps_getClient.
  - apply keeps_executeQuery.
  - unfold BigqueryService.insertRows, BigqueryService.table_insert,
      BigqueryService.remote. revert w. keeps_walk.
  - unfold BigqueryService.getDataset. revert w. keeps_walk.
  - unfold BigqueryService.getTable, BigqueryService.getDataset. revert w. keeps_walk.
  - apply keeps_ensureTableExists.
  - apply Hc.
  - apply Ha.
  - apply Hf.
  - apply Hu.
  - apply Hd.
  - apply Hn.
  - apply Kc.
  - apply Kf.
  - apply Ku.
  - apply Kd.
  - apply keeps_startServer.
Qed.

Lemma client_invariant_step (w w' : world) :
  client_invariant w -> client_step w w' -> client_invariant w'.
Proof.
  unfold client_invariant, freshly_loaded.
  intros [[Hc Hn] | [Hc Hn]] [_ [[Hc' Hn'] | (Hnone & Hc' & Hn')]].
  - left. split; congruence.
  - right. split; congruence.
  - right. split; congruence.
  - congruence.
Qed.

Lemma client_invariant_perform_all (ops : list operation) (w : world) :
  client_invariant w -> client_invariant (perform_all ops w).
Proof.
  revert w. induction ops as [ | op ops IH ]; intros w Hw; cbn [perform_all fold_left].
  - exact Hw.
  - apply IH. eapply client_invariant_step; [ exact Hw | apply perform_client_step ].
Qed.

(** Once the client exists, no sequence of operations replaces or drops it. *)
Lemma client_persists (ops : list operation) (w : world) (c : nat) :
  bigqueryClient w = Some c ->
  bigqueryClient (perform_all ops w) = Some c /\
  constructed (perform_all ops w) = constructed w.
Proof.
  revert w. induction ops as [ | op ops IH ]; intros w Hw; cbn [perform_all fold_left].
  - split; [ exact Hw | reflexivity ].
  - destruct (perform_client_step op w) as [_ [[Hc Hn] | (Hnone & _)]]; [ | congruence ].
    destruct (IH (perform op w)) as [Hc' Hn']; [ congruence | ].
    unfold perform_all in Hc', Hn'.
    split; [ exact Hc' | congruence ].
Qed.

(** C9.  Start from the module as loaded ([bigqueryClient = null], nothing
    constructed) and let any operations run.  A call of [getClient] then
    returns a handle [c]; it constructs the client only if no earlier
    operation did.  After any further operations the variable still holds
    [c], [getClient] returns [c] again without constructing anything,
    [executeQuery] hands its statements to [c], and in all the run at
    most one client was constructed. *)
Theorem client_handle_is_shared_and_kept
    (w : world) (before after : list operation) :
  freshly_loaded w ->
  let w1 := perform_all before w in
  let w2 := perform_all after (snd (BigqueryService.getClient w1)) in
  exists c,
    fst (BigqueryService.getClient w1) = Ok c /\
    (bigqueryClient w1 = None ->
       constructed w1 = 0 /\ constructed (snd (BigqueryService.getClient w1)) = 1) /\
    (bigqueryClient w1 <> None ->
       snd (BigqueryService.getClient w1) = w1) /\
    bigqueryClient w2 = Some c /\
    BigqueryService.getClient w2 = (Ok c, w2) /\
    (forall q ps ts,
        BigqueryService.executeQuery q ps ts w2
        = BigqueryService.client_query c (options_of q ps ts w2) w2) /\
    constructed w1 <= 1 /\ constructed w2 <= 1.
Proof.
  intros Hload w1 w2.
  assert (H1 : client_invariant w1).
  { apply client_invariant_perform_all. left. exact Hload. }
  assert (Hget : fst (BigqueryService.getClient w1) = Ok 0 /\
                 bigqueryClient (snd (BigqueryService.getClient w1)) = Some 0 /\
                 constructed (snd (BigqueryService.getClient w1)) = 1).
  { unfold BigqueryService.getClient.
    destruct H1 as [[Hc Hn] | [Hc Hn]]; rewrite Hc; cbn [fst snd];
      [ rewrite Hn; repeat split | repeat split; assumption ]. }
  destruct Hget as (Hfst & Hsome & Hone).
  destruct (client_persists after _ 0 Hsome) as [Hc2 Hn2].
  fold w2 in Hc2, Hn2.
  assert (Hget2 : BigqueryService.getClient w2 = (Ok 0, w2)).
  { unfold BigqueryService.getClient. rewrite Hc2. reflexivity. }
  exists 0. repeat split.
  - exact Hfst.
  - destruct H1 as [[Hc Hn] | [Hc Hn]]; [ exact Hn | congruence ].
  - exact Hone.
  - intros Hnot. unfold BigqueryService.getClient.
    destruct (bigqueryClient w1); [ reflexivity | contradiction ].
  - exact Hc2.
  - exact Hget2.
  - intros q ps ts. unfold BigqueryService.executeQuery, bind. rewrite Hget2.
    reflexivity.
  - destruct H1 as [[Hc Hn] | [Hc Hn]]; lia.
  - lia.
Qed.

(** Witness for C9: a first request, then a second one, on a new process. *)
Lemma client_handle_is_shared_and_kept_witness :
  exists c,
    fst (BigqueryService.getClient
           (perform_all [OpCreate Part000 sample_input] sample_world)) = Ok c /\
    bigqueryClient
      (perform_all [OpFindById Part000 (JStr "uuid-0"); OpCount BaseCopy]
         (snd (BigqueryService.getClient
                 (perform_all [OpCreate Part000 sample_input] sample_world))))
    = Some c.
Proof.
  destruct (client_handle_is_shared_and_kept sample_world
              [OpCreate Part000 sample_input]
              [OpFindById Part000 (JStr "uuid-0"); OpCount BaseCopy]
              (conj eq_refl eq_refl)) as (c & H1 & _ & _ & H2 & _).
  exists c. split; [ exact H1 | exact H2 ].
Defined.

(* ================================================================== *)
(** * Provisioning at startup *)
(* ================================================================== *)

Lemma healthy_next (w : world) : healthy w -> next_call_fails w = false.
Proof.
  unfold healthy, next_call_fails. intros H.
  destruct (faults w) as [ | [|] fs ]; try reflexivity.
  discriminate (H true (or_introl eq_refl)).
Qed.

Lemma remote_ok (c : remote_call) (w : world) :
  healthy w ->
  BigqueryService.remote c w = (Ok tt, sent c w) /\ healthy (sent c w).
Proof.
  intros H. split.
  - unfold BigqueryService.remote, bind, BigqueryService.record_call,
      BigqueryService.transport, sent. cbn [faults calls with_remote].
    pose proof (healthy_next w H) as Hn. unfold next_call_fails in Hn.
    destruct (faults w) as [ | [|] fs ]; try discriminate; reflexivity.
  - unfold healthy, sent in *. cbn [faults with_remote]. intros b Hb. apply H.
    destruct (faults w); [ contradiction | right; exact Hb ].
Qed.

Lemma bind_ok {A B : Type} (m : M A) (k : A -> M B) (w w1 : world) (a : A) :
  m w = (Ok a, w1) -> bind m k w = k a w1.
Proof. intros E. unfold bind. rewrite E. reflexivity. Qed.

Lemma sent_facts (c : remote_call) (w : world) :
  healthy w ->
  BigqueryService.remote c w = (Ok tt, sent c w) /\ healthy (sent c w).
Proof. apply remote_ok. Qed.

Lemma dataset_exists_ok (d : string) (w : world) :
  healthy w ->
  BigqueryService.dataset_exists d w
  = (Ok (dataset_present w), sent (CallDatasetExists d) w).
Proof.
  intros H. unfold BigqueryService.dataset_exists.
  rewrite (bind_ok _ _ _ _ _ (proj1 (sent_facts _ w H))). reflexivity.
Qed.

Lemma table_exists_ok (t : string) (w : world) :
  healthy w ->
  BigqueryService.table_exists t w
  = (Ok (dataset_present w && table_present w), sent (CallTableExists t) w).
Proof.
  intros H. unfold BigqueryService.table_exists.
  rewrite (bind_ok _ _ _ _ _ (proj1 (sent_facts _ w H))). reflexivity.
Qed.

Lemma dataset_create_ok (d : string) (w : world) :
  healthy w -> dataset_present w = false ->
  BigqueryService.dataset_create d w
  = (Ok tt, with_store true false [] (sent (CallDatasetCreate d) w)).
Proof.
  intros H E. unfold BigqueryService.dataset_create.
  rewrite (bind_ok _ _ _ _ _ (proj1 (sent_facts _ w H))).
  change (dataset_present (sent (CallDatasetCreate d) w)) with (dataset_present w).
  rewrite E. reflexivity.
Qed.

Lemma table_create_ok (t : string) (sch : list (string * string * string)) (w : world) :
  healthy w -> dataset_present w = true -> table_present w = false ->
  BigqueryService.table_create t sch w
  = (Ok tt, with_store true true [] (sent (CallTableCreate t sch) w)).
Proof.
  intros H Ed Et. unfold BigqueryService.table_create.
  rewrite (bind_ok _ _ _ _ _ (proj1 (sent_facts _ w H))).
  change (dataset_present (sent (CallTableCreate t sch) w)) with (dataset_present w).
  change (table_present (sent (CallTableCreate t sch) w)) with (table_present w).
  rewrite Ed, Et. reflexivity.
Qed.

(** The second half of [ensureTableExists]: the table. *)
Lemma ensure_table_run (w : world) :
  healthy w -> dataset_present w = true ->
  let t := bigquery_table (cfg w) in
  exists w' added,
    bind (BigqueryService.table_exists t)
      (fun tableExists =>
         if negb tableExists then
           bind (BigqueryService.table_create t BigqueryService.schema)
             (fun _ => console_log ("Table " ++ t ++ " created."))
         else ret tt) w
    = (Ok tt, w') /\
    provisioned w' /\ healthy w' /\ cfg w' = cfg w /\
    calls w' = (calls w ++ added)%list /\
    ~ In (CallDatasetCreate (bigquery_dataset (cfg w))) added /\
    (table_present w = true ->
       rows w' = rows w /\ added = [CallTableExists t]).
Proof.
  intros H Ed t.
  rewrite (bind_ok _ _ _ _ _ (table_exists_ok t w H)). rewrite Ed. cbn [andb].
  destruct (sent_facts (CallTableExists t) w H) as [_ H1].
  destruct (table_present w) eqn:Et; cbn [negb].
  - exists (sent (CallTableExists t) w), [CallTableExists t].
    repeat split; try reflexivity; try assumption.
    intros [F | []]. discriminate.
  - rewrite (bind_ok _ _ _ _ _
               (table_create_ok t BigqueryService.schema _ H1 Ed Et)).
    eexists. exists [CallTableExists t; CallTableCreate t BigqueryService.schema].
    split; [ reflexivity | ].
    repeat split; try reflexivity; try discriminate.
    + intros b Hb. apply H. cbn in Hb.
      destruct (faults w) as [ | b1 [ | b2 fs ] ]; cbn in Hb; try contradiction.
      right. right. exact Hb.
    + cbn. rewrite <- app_assoc. reflexivity.
    + intros [F | [F | []]]; discriminate.
Qed.

(** The provisioner on a healthy connection: it ends with dataset and
    table in place, issues a creation only for what was missing, and keeps
    the rows of a table that was already there. *)
Lemma ensureTableExists_run (w : world) :
  healthy w ->
  exists w' added,
    BigqueryService.ensureTableExists w = (Ok tt, w') /\
    provisioned w' /\ healthy w' /\ cfg w' = cfg w /\
    calls w' = (calls w ++ added)%list /\
    (dataset_present w = true -> ~ In (CallDatasetCreate (bigquery_dataset (cfg w))) added) /\
    (provisioned w ->
       filter is_creation added = [] /\ rows w' = rows w /\
       added = [ CallDatasetExists (bigquery_dataset (cfg w));
                 CallTableExists (bigquery_table (cfg w)) ]).
Proof.
  intros H.
  destruct (client_ready_frame w)
    as (Hcfg & Hd & Ht & Hrows & Htext & Hfaults & Hcalls & _).
  assert (H0 : healthy (client_ready w)) by (unfold healthy; now rewrite Hfaults).
  unfold BigqueryService.ensureTableExists.
  rewrite (bind_ok _ _ _ _ _ (getClient_run w)).
  unfold bind at 1. cbv beta iota.
  set (d := bigquery_dataset (cfg (client_ready w))).
  rewrite (bind_ok _ _ _ _ _ (dataset_exists_ok d _ H0)).
  destruct (sent_facts (CallDatasetExists d) _ H0) as [_ H1].
  set (w1 := sent (CallDatasetExists d) (client_ready w)) in *.
  assert (Hcfg1 : cfg w1 = cfg w) by exact Hcfg.
  assert (Hd1 : dataset_present w1 = dataset_present w) by exact Hd.
  assert (Ht1 : table_present w1 = table_present w) by exact Ht.
  assert (Hrows1 : rows w1 = rows w) by exact Hrows.
  assert (Hcalls1 : calls w1 = (calls w ++ [CallDatasetExists d])%list).
  { unfold w1, sent. cbn [calls with_remote]. now rewrite Hcalls. }
  assert (Ed : d = bigquery_dataset (cfg w)) by (unfold d; now rewrite Hcfg).
  rewrite Hd. destruct (dataset_present w) eqn:Edata; cbn [negb].
  - unfold bind at 1, ret at 1. cbv beta iota.
    unfold bind at 1. cbv beta iota.
    destruct (ensure_table_run w1 H1) as (w' & added & E & P & Hh & C & L & N & K);
      [ congruence | ].
    rewrite E.
    exists w', (CallDatasetExists d :: added).
    split; [ reflexivity | ]. split; [ exact P | ]. split; [ exact Hh | ].
    split; [ congruence | ].
    split; [ rewrite L, Hcalls1, <- app_assoc; reflexivity | ].
    split.
    + intros _ [F | F]; [ discriminate | ]. rewrite Hcfg1 in N. now apply N.
    + intros [_ Etable]. destruct K as [Kr Ka]; [ congruence | ].
      rewrite Ka, Hcfg1, Ed. repeat split; [ congruence ].
  - rewrite (bind_ok _ _ _ _ _
               (bind_ok _ _ _ _ _ (dataset_create_ok d w1 H1 Hd1))).
    unfold bind at 1. cbv beta iota.
    match goal with
    | |- context [ bind (BigqueryService.table_exists _) _ ?x ] =>
        set (w2 := x) in *
    end.
    assert (H2 : healthy w2).
    { intros b Hb. apply H1. unfold w2 in Hb.
      cbn [faults with_console with_store sent with_remote] in Hb.
      destruct (faults w1); cbn [tl] in Hb; [ contradiction | right; exact Hb ]. }
    destruct (ensure_table_run w2 H2 eq_refl) as (w' & added & E & P & Hh & C & L & N & K).
    rewrite E.
    exists w', (CallDatasetExists d :: CallDatasetCreate d :: added).
    split; [ reflexivity | ]. split; [ exact P | ]. split; [ exact Hh | ].
    split; [ rewrite C; exact Hcfg1 | ].
    split.
    { rewrite L. unfold w2. cbn [calls with_console with_store with_remote sent].
      rewrite Hcalls1, <- !app_assoc. reflexivity. }
    split; [ intros F; discriminate F | ].
    intros [F _]. rewrite Edata in F. discriminate F.
Qed.

Lemma startServer_run (w : world) :
  let attempt := BigqueryService.ensureTableExists (initializing w) in
  Server.startServer w =
  match fst attempt with
  | Ok _ =>
      Server.app_listen
        (with_console (console (snd attempt) ++ [ConsoleLog "BigQuery ready!"])%list
           (snd attempt))
  | Throw e =>
      Server.app_listen
        (with_console
           ((console (snd attempt)
               ++ [ConsoleWarn ("BigQuery initialization warning: "
                                  ++ Server.error_message e)])
              ++ [ConsoleWarn
                    "Continuing anyway - tables may need manual creation or mock mode enabled."])%list
           (snd attempt))
  end.
Proof.
  intros attempt. subst attempt. unfold Server.startServer, try_catch, bind.
  change (console_log "Initializing BigQuery..." w) with (Ok tt, initializing w).
  cbv beta iota.
  destruct (BigqueryService.ensureTableExists (initializing w)) as [[[] | e] w1];
    reflexivity.
Qed.

(** C8.  Startup never fails on provisioning: [startServer] resolves and
    the server listens on the configured port whatever
    [ensureTableExists] did, and when it threw, the error is on the
    console as a warning.  On a healthy connection the provisioner
    succeeds, creates only what is missing (nothing, and the rows stay,
    when dataset and table are there), and a second run right after the
    first checks both, creates nothing and changes no row. *)
Theorem provisioning_is_idempotent_and_not_fatal (w : world) :
  (fst (Server.startServer w) = Ok tt /\
   listening (snd (Server.startServer w)) = Some (server_port (cfg w))) /\
  (forall e,
      fst (BigqueryService.ensureTableExists (initializing w)) = Throw e ->
      In (ConsoleWarn ("BigQuery initialization warning: " ++ Server.error_message e))
        (console (snd (Server.startServer w)))) /\
  (healthy w ->
   exists w1 w2 added,
     BigqueryService.ensureTableExists w = (Ok tt, w1) /\
     provisioned w1 /\
     calls w1 = (calls w ++ added)%list /\
     (dataset_present w = true ->
        ~ In (CallDatasetCreate (bigquery_dataset (cfg w))) added) /\
     (provisioned w -> filter is_creation added = [] /\ rows w1 = rows w) /\
     BigqueryService.ensureTableExists w1 = (Ok tt, w2) /\
     provisioned w2 /\ rows w2 = rows w1 /\
     calls w2 = (calls w1 ++ [ CallDatasetExists (bigquery_dataset (cfg w));
                               CallTableExists (bigquery_table (cfg w)) ])%list).
Proof.
  split; [ | split ].
  - rewrite startServer_run. cbv zeta.
    destruct (keeps_ensureTableExists (initializing w)) as [Hcfg _].
    change (cfg (initializing w)) with (cfg w) in Hcfg.
    destruct (BigqueryService.ensureTableExists (initializing w)) as [[[] | e] w1];
      cbn [fst snd] in *; unfold Server.app_listen, console_log;
      cbn [fst snd listening with_console with_listening cfg];
      rewrite Hcfg; split; reflexivity.
  - intros e He. rewrite startServer_run. cbv zeta. rewrite He.
    unfold Server.app_listen, console_log.
    cbn [snd console with_console with_listening].
    apply in_or_app. left. apply in_or_app. left. apply in_or_app. right.
    left. reflexivity.
  - intros H.
    destruct (ensureTableExists_run w H)
      as (w1 & added & E1 & P1 & H1 & C1 & L1 & D1 & K1).
    destruct (ensureTableExists_run w1 H1)
      as (w2 & added2 & E2 & P2 & H2 & C2 & L2 & D2 & K2).
    destruct (K2 P1) as (_ & R2 & A2).
    exists w1, w2, added. repeat split; try assumption.
    + apply P1.
    + apply P1.
    + now apply K1.
    + now apply K1.
    + apply P2.
    + apply P2.
    + rewrite L2, A2, C1. reflexivity.
Qed.

(** Witness for C8: a warehouse with neither dataset nor table; the
    first run creates both, the second creates nothing. *)
Lemma provisioning_is_idempotent_witness :
  exists w1 w2 added,
    BigqueryService.ensureTableExists bare_world = (Ok tt, w1) /\
    provisioned w1 /\
    calls w1 = (calls bare_world ++ added)%list /\
    BigqueryService.ensureTableExists w1 = (Ok tt, w2) /\
    rows w2 = rows w1.
Proof.
  destruct (proj2 (proj2 (provisioning_is_idempotent_and_not_fatal bare_world)))
    as (w1 & w2 & added & E1 & P1 & L1 & _ & _ & E2 & _ & R2 & _).
  - intros b [].
  - exists w1, w2, added. repeat split; try assumption; apply P1.
Defined.

(** The warning case, evaluated: the first round trip fails, the process
    warns twice and listens. *)
Lemma startServer_survives_unreachable_warehouse :
  let r := Server.startServer unreachable_world in
  fst r = Ok tt /\
  listening (snd r) = Some 8080%Z /\
  console (snd r)
  = [ ConsoleLog "Initializing BigQuery...";
      ConsoleWarn "BigQuery initialization warning: transport failure";
      ConsoleWarn
        "Continuing anyway - tables may need manual creation or mock mode enabled.";
      ConsoleLog "BigQuery CRUD API Server: Running" ] /\
  table_present (snd r) = false.
Proof. vm_compute. repeat split; reflexivity. Qed.

(* ================================================================== *)
(** * create *)
(* ================================================================== *)

Arguments JSON.parse : simpl never.
Arguments JSON.stringify : simpl never.

Lemma same_setting_queried (q : statement) (ps : list (string * json))
    (ts : option (list (string * string))) (rs : list row) (w0 w : world) :
  same_setting w0 w -> same_setting w0 (queried q ps ts rs w).
Proof.
  unfold same_setting.
  destruct (queried_frame q ps ts rs w)
    as (Hcfg & Htext & Hd & Ht & _ & _ & _ & _ & Hu & Hi & _).
  intros (A & B & C & D & E & F). repeat split; congruence.
Qed.

(** [create] in [part_000], on a provisioned table and a round trip that
    does not fail: the new row is appended and the record returned. *)
Lemma create_run (w : world) (i : create_input) :
  provisioned w -> next_call_fails w = false -> valid_input i = true ->
  let id := uuid_at w (tick w) in
  let now := iso_at w (S (tick w)) in
  exists w',
    Repository.create (BigqueryService.configured_table w) i w
    = (Ok (created_record id now i), w') /\
    rows w' = (rows w ++ [created_row id now i (data_cell i)])%list /\
    same_setting w w' /\ faults w' = tl (faults w) /\ tick w' = S (S (tick w)).
Proof.
  intros Hp Hf Hv id now.
  unfold Repository.create, bind, uuidv4, date_now_iso. cbn [fst snd tick with_tick
    uuid_at iso_at].
  fold id. fold now.
  set (w2 := with_tick (S (S (tick w))) (with_tick (S (tick w)) w)).
  assert (Hp2 : provisioned w2) by exact Hp.
  assert (Hf2 : next_call_fails w2 = false) by exact Hf.
  unfold valid_input in Hv. apply andb_prop in Hv. destruct Hv as [Hname Hvalue].
  destruct (in_name i) as [ | | | name | | ] eqn:Ename; try discriminate.
  match goal with
  | |- context [ BigqueryService.executeQuery ?q ?ps ?ts w2 ] =>
      assert (Hrun : BigqueryService.executeQuery q ps ts w2
                     = (Ok [], queried q ps ts
                                 (rows w ++ [created_row id now i (data_cell i)])%list w2))
  end.
  { apply executeQuery_ok with (env := create_env id now i);
      [ | exact Hf2
        | change (BigqueryService.configured_table w)
            with (BigqueryService.configured_table w2);
          now apply provisioned_reachable | ].
    - unfold create_env, name_cell, value_cell, data_text_cell, defined_or_null,
        stringify_or_null.
      rewrite Ename.
      destruct (in_value i) as [ [ | | n | | | ] | ]; try discriminate;
        destruct (in_data i) as [ d | ]; try destruct (truthy d); reflexivity.
    - unfold create_env, created_row, name_cell, value_cell, data_cell, data_text_cell,
        defined_or_null, stringify_or_null.
      rewrite Ename.
      destruct (in_value i) as [ [ | | n | | | ] | ]; try discriminate;
        destruct (in_data i) as [ d | ]; try destruct (truthy d);
        cbn; rewrite ?JSONFacts.parse_stringify; reflexivity. }
  rewrite Hrun. eexists. split; [ | split; [ | split; [ | split ] ] ].
  - unfold created_record. rewrite Ename. reflexivity.
  - now destruct (queried_frame (Insert (BigqueryService.configured_table w) item_columns
       [Param "id"; Param "name"; Param "value"; ParseJson "data"; Param "created_at";
        Param "updated_at"]) 
       [("id", JStr id); ("name", JStr name); ("value", defined_or_null (in_value i));
        ("data", stringify_or_null (in_data i)); ("created_at", JStr now);
        ("updated_at", JStr now)]
       (Some [("id", "STRING"); ("name", "STRING"); ("value", "INT64");
              ("data", "STRING"); ("created_at", "STRING"); ("updated_at", "STRING")])
       (rows w ++ [created_row id now i (data_cell i)])%list w2)
      as (_ & _ & _ & _ & H & _).
  - apply same_setting_queried. repeat split; reflexivity.
  - match goal with
    | |- faults (queried ?q ?ps ?ts ?rs ?w0) = _ =>
        now destruct (queried_frame q ps ts rs w0) as (_ & _ & _ & _ & _ & H & _)
    end.
  - match goal with
    | |- tick (queried ?q ?ps ?ts ?rs ?w0) = _ =>
        now destruct (queried_frame q ps ts rs w0) as (_ & _ & _ & _ & _ & _ & _ & H & _)
    end.
Qed.

(** [create] in [baseRepository.js]: the same, except that the text is
    bound to the column as it is. *)
Lemma base_create_run (w : world) (i : create_input) :
  provisioned w -> next_call_fails w = false -> valid_input i = true ->
  let id := uuid_at w (tick w) in
  let now := iso_at w (S (tick w)) in
  exists w',
    BaseRepository.create (BigqueryService.configured_table w) i w
    = (Ok (created_record id now i), w') /\
    rows w' = (rows w ++ [created_row id now i (data_text_cell i)])%list /\
    same_setting w w' /\ faults w' = tl (faults w) /\ tick w' = S (S (tick w)).
Proof.
  intros Hp Hf Hv id now.
  unfold BaseRepository.create, bind, uuidv4, date_now_iso. cbn [fst snd tick with_tick
    uuid_at iso_at].
  fold id. fold now.
  set (w2 := with_tick (S (S (tick w))) (with_tick (S (tick w)) w)).
  assert (Hp2 : provisioned w2) by exact Hp.
  assert (Hf2 : next_call_fails w2 = false) by exact Hf.
  unfold valid_input in Hv. apply andb_prop in Hv. destruct Hv as [Hname Hvalue].
  destruct (in_name i) as [ | | | name | | ] eqn:Ename; try discriminate.
  match goal with
  | |- context [ BigqueryService.executeQuery ?q ?ps ?ts w2 ] =>
      assert (Hrun : BigqueryService.executeQuery q ps ts w2
                     = (Ok [], queried q ps ts
                                 (rows w ++ [created_row id now i (data_text_cell i)])%list
                                 w2))
  end.
  { apply executeQuery_ok with (env := create_env id now i);
      [ | exact Hf2
        | change (BigqueryService.configured_table w)
            with (BigqueryService.configured_table w2);
          now apply provisioned_reachable | ].
    - unfold create_env, name_cell, value_cell, data_text_cell, defined_or_null,
        stringify_or_null.
      rewrite Ename.
      destruct (in_value i) as [ [ | | n | | | ] | ]; try discriminate;
        destruct (in_data i) as [ d | ]; try destruct (truthy d); reflexivity.
    - unfold create_env, created_row, name_cell, value_cell, data_text_cell,
        defined_or_null, stringify_or_null.
      rewrite Ename.
      destruct (in_value i) as [ [ | | n | | | ] | ]; try discriminate;
        destruct (in_data i) as [ d | ]; try destruct (truthy d);
        reflexivity. }
  rewrite Hrun. eexists. split; [ | split; [ | split; [ | split ] ] ].
  - unfold created_record. rewrite Ename. reflexivity.
  - match goal with
    | |- rows (queried ?q ?ps ?ts ?rs ?w0) = _ =>
        now destruct (queried_frame q ps ts rs w0) as (_ & _ & _ & _ & H & _)
    end.
  - apply same_setting_queried. repeat split; reflexivity.
  - match goal with
    | |- faults (queried ?q ?ps ?ts ?rs ?w0) = _ =>
        now destruct (queried_frame q ps ts rs w0) as (_ & _ & _ & _ & _ & H & _)
    end.
  - match goal with
    | |- tick (queried ?q ?ps ?ts ?rs ?w0) = _ =>
        now destruct (queried_frame q ps ts rs w0) as (_ & _ & _ & _ & _ & _ & _ & H & _)
    end.
Qed.

(** C10.  When the data of a valid input is present, [create] appends one
    row and returns one record, and both depend on the truthiness of the
    data only: a falsy value ([false], [0], the empty string, [null])
    leaves the data column NULL and the record's data [null]; a truthy
    value is stored (as JSON in [part_000], as its text in
    [baseRepository.js]) and echoed back in the record. *)
Theorem create_keeps_only_truthy_data (w : world) (i : create_input) (d : json) :
  provisioned w -> next_call_fails w = false -> valid_input i = true ->
  in_data i = Some d ->
  forall c : copy,
  exists record r w',
    m_create (repository_of c w) i w = (Ok record, w') /\
    rows w' = (rows w ++ [r])%list /\
    (truthy d = false -> c_data r = CNull /\ get_prop record "data" = Some JNull) /\
    (truthy d = true ->
       c_data r = match c with
                  | Part000 => CJson d
                  | BaseCopy => CString (JSON.stringify d)
                  end /\
       get_prop record "data" = Some d).
Proof.
  intros Hp Hf Hv Hd c.
  destruct c; cbn [repository_of Repository.defaults BaseRepository.defaults
                     Repository.createRepository BaseRepository.createRepository m_create].
  - destruct (create_run w i Hp Hf Hv) as (w' & Hrun & Hrows & _).
    eexists. eexists. exists w'. split; [ exact Hrun | split; [ exact Hrows | ] ].
    unfold created_row, data_cell, created_record. cbn [c_data get_prop assoc String.eqb
      Ascii.eqb Bool.eqb].
    rewrite Hd. unfold or_null.
    split; intros Ht; rewrite Ht; split; reflexivity.
  - destruct (base_create_run w i Hp Hf Hv) as (w' & Hrun & Hrows & _).
    eexists. eexists. exists w'. split; [ exact Hrun | split; [ exact Hrows | ] ].
    unfold created_row, data_text_cell, created_record. cbn [c_data get_prop assoc String.eqb
      Ascii.eqb Bool.eqb].
    rewrite Hd. unfold or_null.
    split; intros Ht; rewrite Ht; split; reflexivity.
Qed.

(** Witness for C10: the payload [false]. *)
Lemma create_keeps_only_truthy_data_witness :
  exists record r w',
    m_create (repository_of Part000 sample_world) false_data_input sample_world
    = (Ok record, w') /\
    rows w' = [r] /\ c_data r = CNull /\ get_prop record "data" = Some JNull.
Proof.
  destruct (create_keeps_only_truthy_data sample_world false_data_input (JBool false)
              (conj eq_refl eq_refl) eq_refl eq_refl eq_refl Part000)
    as (record & r & w' & Hrun & Hrows & Hfalsy & _).
  exists record, r, w'. destruct (Hfalsy eq_refl) as [Hc Hr].
  repeat split; assumption.
Defined.


(* ================================================================== *)
(** * Reading a row back *)
(* ================================================================== *)

Lemma healthy_tail (w w' : world) :
  healthy w -> faults w' = tl (faults w) -> healthy w'.
Proof.
  unfold healthy. intros H E b Hb. rewrite E in Hb. apply H.
  destruct (faults w); [ contradiction | right; exact Hb ].
Qed.

Lemma first_match (id : cell) (before after : list row) (r : row) :
  (forall r', In r' before -> Warehouse.matches id r' = false) ->
  Warehouse.matches id r = true ->
  firstn 1 (filter (Warehouse.matches id) (before ++ r :: after)%list) = [r].
Proof.
  intros Hb Hr. rewrite filter_app, (filter_none _ _ Hb). cbn [app filter].
  rewrite Hr. reflexivity.
Qed.

(** The SELECT of [findById] when the first row with this id is [r]. *)
Lemma select_present (w : world) (s : string) (before after : list row) (r : row) :
  provisioned w -> next_call_fails w = false ->
  rows w = (before ++ r :: after)%list ->
  (forall r', In r' before -> c_id r' <> CString s) ->
  c_id r = CString s ->
  BigqueryService.executeQuery (SelectById (BigqueryService.configured_table w))
    [("id", JStr s)] None w
  = (Ok [Warehouse.row_to_js (json_as_text w) r],
     queried (SelectById (BigqueryService.configured_table w)) [("id", JStr s)] None
       (rows w) w).
Proof.
  intros Hp Hf Hrows Hbefore Hr.
  apply executeQuery_ok with (env := [("id", CString s)]);
    [ reflexivity | exact Hf | now apply provisioned_reachable | ].
  cbn [Warehouse.run assoc]. rewrite string_eqb_refl, Hrows, first_match.
  - reflexivity.
  - intros r' Hin. destruct (Warehouse.matches (CString s) r') eqn:E; [ | reflexivity ].
    apply matches_string in E. now apply Hbefore in E.
  - now apply matches_string.
Qed.

(** How [part_000] decodes a row the client built from a stored row:
    the JSON value comes back, provided the client hands JSON columns
    over as text or the value is not itself a string. *)
Lemma decode_stored_row (as_text : bool) (r : row) (j : json) (w : world) :
  c_data r = CJson j ->
  as_text = true \/ is_string j = false ->
  Repository.decode (Warehouse.row_to_js as_text r) w
  = (Ok (set_prop "data" j (Warehouse.row_to_js as_text r)), w).
Proof.
  intros Hd Hmode.
  destruct as_text.
  - apply decode_parses_text. unfold Warehouse.row_to_js. cbn [get_prop assoc String.eqb
      Ascii.eqb Bool.eqb]. rewrite Hd. reflexivity.
  - destruct Hmode as [ | Hs ]; [ discriminate | ].
    assert (Hg : get_prop (Warehouse.row_to_js false r) "data" = Some j).
    { unfold Warehouse.row_to_js. cbn [get_prop assoc String.eqb Ascii.eqb Bool.eqb].
      rewrite Hd. reflexivity. }
    rewrite (decode_passes_through _ j w Hg Hs), (set_prop_same _ _ _ Hg). reflexivity.
Qed.

Lemma decode_null_row (as_text : bool) (r : row) (w : world) :
  c_data r = CNull ->
  Repository.decode (Warehouse.row_to_js as_text r) w
  = (Ok (Warehouse.row_to_js as_text r), w) /\
  BaseRepository.decode (Warehouse.row_to_js as_text r) w
  = (Ok (Warehouse.row_to_js as_text r), w) /\
  get_prop (Warehouse.row_to_js as_text r) "data" = Some JNull.
Proof.
  intros Hd.
  assert (Hg : get_prop (Warehouse.row_to_js as_text r) "data" = Some JNull).
  { unfold Warehouse.row_to_js. cbn [get_prop assoc String.eqb Ascii.eqb Bool.eqb].
    rewrite Hd. reflexivity. }
  split; [ | split; [ | exact Hg ] ].
  - now apply decode_passes_through with (d := JNull).
  - unfold BaseRepository.decode. rewrite Hg. cbn [js_truthy truthy].
    rewrite (set_prop_same _ _ _ Hg). reflexivity.
Qed.

(** How [baseRepository.js] decodes a row whose data column holds a text
    it stored itself. *)
Lemma base_decode_stored_text (as_text : bool) (r : row) (j : json) (w : world) :
  c_data r = CString (JSON.stringify j) ->
  BaseRepository.decode (Warehouse.row_to_js as_text r) w
  = (Ok (set_prop "data" j (Warehouse.row_to_js as_text r)), w).
Proof.
  intros Hd. unfold BaseRepository.decode.
  assert (Hg : get_prop (Warehouse.row_to_js as_text r) "data"
               = Some (JStr (JSON.stringify j))).
  { unfold Warehouse.row_to_js. cbn [get_prop assoc String.eqb Ascii.eqb Bool.eqb].
    rewrite Hd. reflexivity. }
  rewrite Hg. cbn [js_truthy truthy].
  destruct (String.eqb (JSON.stringify j) EmptyString) eqn:E.
  - apply String.eqb_eq in E. now apply JSONFacts.stringify_nonempty in E.
  - cbn [negb]. unfold JSON_parse, bind. cbn [to_string].
    rewrite JSONFacts.parse_stringify. reflexivity.
Qed.

Lemma configured_table_same (w w' : world) :
  same_setting w w' ->
  BigqueryService.configured_table w' = BigqueryService.configured_table w /\
  (provisioned w -> provisioned w').
Proof.
  intros (Hcfg & _ & Hd & Ht & _). unfold BigqueryService.configured_table, provisioned.
  rewrite Hcfg, Hd, Ht. split; [ reflexivity | tauto ].
Qed.

Lemma name_cell_back (as_text : bool) (i : create_input) :
  valid_input i = true ->
  Warehouse.cell_to_js as_text (name_cell i) = in_name i /\
  Warehouse.cell_to_js as_text (value_cell i) = defined_or_null (in_value i).
Proof.
  unfold valid_input, name_cell, value_cell, defined_or_null. intros H.
  apply andb_prop in H. destruct H as [Hn Hv].
  destruct (in_name i); try discriminate.
  destruct (in_value i) as [ [ | | n | | | ] | ]; try discriminate; split; reflexivity.
Qed.



(* ================================================================== *)
(** * update *)
(* ================================================================== *)

(** The columns each copy of [update] assigns: [updated_at], and one per
    field of the patch that is not [undefined]. *)
Lemma set_clauses_columns (c : copy) (id : json) (now : string) (data : patch) :
  map fst (set_clauses_of c id now data)
  = ("updated_at"
       :: (if is_defined (p_name data) then ["name"] else [])
       ++ (if is_defined (p_value data) then ["value"] else [])
       ++ (if is_defined (p_data data) then ["data"] else []))%list.
Proof.
  destruct c; unfold set_clauses_of, Repository.update_build, Repository.update_data,
    Repository.update_value, Repository.update_name, Repository.update_start, push_part,
    BaseRepository.update_build, BaseRepository.update_data,
    BaseRepository.update_value, BaseRepository.update_name,
    BaseRepository.update_start, BaseRepository.push_untyped;
    destruct (p_name data), (p_value data), (p_data data); reflexivity.
Qed.

Lemma set_column_frame (col : string) (v : cell) (r r' : row) :
  Warehouse.set_column col v r = Some r' ->
  (col <> "id" -> c_id r' = c_id r) /\
  (col <> "name" -> c_name r' = c_name r) /\
  (col <> "value" -> c_value r' = c_value r) /\
  (col <> "data" -> c_data r' = c_data r) /\
  (col <> "created_at" -> c_created_at r' = c_created_at r) /\
  (col <> "updated_at" -> c_updated_at r' = c_updated_at r) /\
  (col = "updated_at" -> c_updated_at r' = v).
Proof.
  unfold Warehouse.set_column.
  destruct (String.eqb_spec col "id") as [-> | N1];
    [ intros H; injection H as <-; cbn; repeat split; congruence || discriminate | ].
  destruct (String.eqb_spec col "name") as [-> | N2];
    [ intros H; injection H as <-; cbn; repeat split; congruence || discriminate | ].
  destruct (String.eqb_spec col "value") as [-> | N3];
    [ intros H; injection H as <-; cbn; repeat split; congruence || discriminate | ].
  destruct (String.eqb_spec col "data") as [-> | N4];
    [ intros H; injection H as <-; cbn; repeat split; congruence || discriminate | ].
  destruct (String.eqb_spec col "created_at") as [-> | N5];
    [ intros H; injection H as <-; cbn; repeat split; congruence || discriminate | ].
  destruct (String.eqb_spec col "updated_at") as [-> | N6];
    [ intros H; injection H as <-; cbn; repeat split; congruence || discriminate | ].
  discriminate.
Qed.

(** Assignments leave alone every column they do not name. *)
Lemma assign_frame (cs : list (string * cell)) (r r' : row) :
  Warehouse.assign cs r = Some r' ->
  (~ In "id" (map fst cs) -> c_id r' = c_id r) /\
  (~ In "name" (map fst cs) -> c_name r' = c_name r) /\
  (~ In "value" (map fst cs) -> c_value r' = c_value r) /\
  (~ In "data" (map fst cs) -> c_data r' = c_data r) /\
  (~ In "created_at" (map fst cs) -> c_created_at r' = c_created_at r) /\
  (~ In "updated_at" (map fst cs) -> c_updated_at r' = c_updated_at r).
Proof.
  revert r. induction cs as [ | [col v] cs IH ]; intros r H; cbn [Warehouse.assign] in H.
  - injection H as <-. repeat split; reflexivity.
  - destruct (Warehouse.set_column col v r) as [ r1 | ] eqn:E; [ | discriminate ].
    destruct (set_column_frame col v r r1 E) as (F1 & F2 & F3 & F4 & F5 & F6 & _).
    destruct (IH r1 H) as (G1 & G2 & G3 & G4 & G5 & G6).
    cbn [map fst In].
    repeat split; intros N;
      match goal with
      | |- ?f r' = ?f r =>
          transitivity (f r1);
          [ first [ apply G1 | apply G2 | apply G3 | apply G4 | apply G5 | apply G6 ];
            tauto
          | first [ apply F1 | apply F2 | apply F3 | apply F4 | apply F5 | apply F6 ];
            intros ->; tauto ]
      end.
Qed.

(** When [updated_at] is assigned first and never again, it ends up in
    the row. *)
Lemma assign_updated_at (v : cell) (cs : list (string * cell)) (r r' : row) :
  Warehouse.assign (("updated_at", v) :: cs) r = Some r' ->
  ~ In "updated_at" (map fst cs) ->
  c_updated_at r' = v.
Proof.
  cbn [Warehouse.assign]. intros H N.
  destruct (Warehouse.set_column "updated_at" v r) as [ r1 | ] eqn:E; [ | discriminate ].
  destruct (set_column_frame _ _ _ _ E) as (_ & _ & _ & _ & _ & _ & F).
  destruct (assign_frame cs r1 r' H) as (_ & _ & _ & _ & _ & G).
  rewrite (G N). now apply F.
Qed.

Lemma assignments_columns (env : list (string * cell)) (sets : list (string * expr))
    (cs : list (string * cell)) :
  Warehouse.assignments env sets = Some cs -> map fst cs = map fst sets.
Proof.
  revert cs. induction sets as [ | [col e] sets IH ]; intros cs H;
    cbn [Warehouse.assignments] in H.
  - injection H as <-. reflexivity.
  - destruct (Warehouse.eval env e); [ | discriminate ].
    destruct (Warehouse.assignments env sets) as [ cs' | ]; [ | discriminate ].
    injection H as <-. cbn [map fst]. f_equal. now apply IH.
Qed.

(** The UPDATE over the rows: a row is rewritten only if its id matches. *)
Lemma update_rows_frame (id : cell) (cs : list (string * cell)) (rs rs' : list row) :
  Warehouse.update_rows id cs rs = Some rs' ->
  Forall2 (fun r r' =>
             (Warehouse.matches id r = false /\ r' = r) \/
             (Warehouse.matches id r = true /\ Warehouse.assign cs r = Some r'))
    rs rs'.
Proof.
  revert rs'. induction rs as [ | r rs IH ]; intros rs' H; cbn [Warehouse.update_rows] in H.
  - injection H as <-. constructor.
  - destruct (Warehouse.matches id r) eqn:Em.
    + destruct (Warehouse.assign cs r) as [ r1 | ] eqn:Ea; [ | discriminate ].
      destruct (Warehouse.update_rows id cs rs) as [ rest | ]; [ | discriminate ].
      injection H as <-. constructor; [ right; split; [ exact Em | exact Ea ] | now apply IH ].
    + destruct (Warehouse.update_rows id cs rs) as [ rest | ]; [ | discriminate ].
      injection H as <-. constructor; [ left; split; [ exact Em | reflexivity ] | now apply IH ].
Qed.

(** The two outcomes of the UPDATE statement. *)
Lemma update_statement_outcome (t : string) (sets : list (string * expr))
    (ps : list (string * json)) (ts : option (list (string * string))) (w : world) :
  let r := BigqueryService.executeQuery (Update t sets) ps ts w in
  (rows (snd r) = rows w /\ forall res, fst r <> Ok res) \/
  (exists env id cs,
      Warehouse.bind_params ts ps = Some env /\
      assoc "id" env = Some id /\
      Warehouse.assignments env sets = Some cs /\
      Warehouse.update_rows id cs (rows w) = Some (rows (snd r)) /\
      fst r = Ok []).
Proof.
  cbv zeta. rewrite executeQuery_run.
  destruct (Warehouse.bind_params ts ps) as [ env | ].
  - destruct (next_call_fails w).
    { left. split; [ now destruct (refused_frame true (Update t sets) ps ts w)
                       as (_ & _ & _ & _ & H & _) | discriminate ]. }
    destruct (BigqueryService.table_reachable (Warehouse.statement_table (Update t sets)) w).
    + cbn [Warehouse.run].
      destruct (assoc "id" env) as [ id | ] eqn:Eid.
      * destruct (Warehouse.assignments env sets) as [ cs | ] eqn:Ecs.
        -- destruct (Warehouse.update_rows id cs (rows w)) as [ rs' | ] eqn:Eu.
           ++ right. exists env, id, cs. cbn [fst snd].
              destruct (queried_frame (Update t sets) ps ts rs' w)
                as (_ & _ & _ & _ & H & _).
              rewrite H. repeat split; assumption || reflexivity.
           ++ left. split; [ now destruct (refused_frame true (Update t sets) ps ts w)
                               as (_ & _ & _ & _ & H & _) | discriminate ].
        -- left. split; [ now destruct (refused_frame true (Update t sets) ps ts w)
                            as (_ & _ & _ & _ & H & _) | discriminate ].
      * left. split; [ now destruct (refused_frame true (Update t sets) ps ts w)
                         as (_ & _ & _ & _ & H & _) | discriminate ].
    + left. split; [ now destruct (refused_frame true (Update t sets) ps ts w)
                       as (_ & _ & _ & _ & H & _) | discriminate ].
  - left. split; [ now destruct (refused_frame false (Update t sets) ps ts w)
                     as (_ & _ & _ & _ & H & _) | discriminate ].
Qed.

(** [update], in either copy: the time, the UPDATE statement, the re-read. *)
Lemma update_shape (c : copy) (w : world) (id : json) (data : patch) :
  let now := iso_at w (tick w) in
  let t := BigqueryService.configured_table w in
  m_update (repository_of c w) id data w
  = bind (BigqueryService.executeQuery (Update t (set_clauses_of c id now data))
            (update_params_of c id now data) (update_types_of c id now data))
      (fun _ => m_findById (repository_of c w) id)
      (with_tick (S (tick w)) w).
Proof. destruct c; reflexivity. Qed.

Lemma select_keeps_rows (t : string) (ps : list (string * json))
    (ts : option (list (string * string))) (w : world) :
  rows (snd (BigqueryService.executeQuery (SelectById t) ps ts w)) = rows w.
Proof.
  rewrite executeQuery_run.
  destruct (Warehouse.bind_params ts ps) as [ env | ];
    [ | now destruct (refused_frame false (SelectById t) ps ts w)
            as (_ & _ & _ & _ & H & _) ].
  destruct (next_call_fails w);
    [ now destruct (refused_frame true (SelectById t) ps ts w)
        as (_ & _ & _ & _ & H & _) | ].
  destruct (BigqueryService.table_reachable (Warehouse.statement_table (SelectById t)) w);
    [ | now destruct (refused_frame true (SelectById t) ps ts w)
            as (_ & _ & _ & _ & H & _) ].
  cbn [Warehouse.run]. destruct (assoc "id" env) as [ id | ].
  - cbn [snd]. now destruct (queried_frame (SelectById t) ps ts (rows w) w)
      as (_ & _ & _ & _ & H & _).
  - now destruct (refused_frame true (SelectById t) ps ts w) as (_ & _ & _ & _ & H & _).
Qed.

Lemma findById_keeps_rows (c : copy) (w0 : world) (id : json) (w : world) :
  rows (snd (m_findById (repository_of c w0) id w)) = rows w.
Proof.
  destruct c; cbn [repository_of Repository.defaults BaseRepository.defaults
                     Repository.createRepository BaseRepository.createRepository
                     m_findById].
  - destruct (findById_world
                (Warehouse.qualified (projectId (cfg w0)) (bigquery_dataset (cfg w0))
                   (bigquery_table (cfg w0))) id w) as [-> _].
    apply select_keeps_rows.
  - destruct (findById_world
                (Warehouse.qualified (projectId (cfg w0)) (bigquery_dataset (cfg w0))
                   (bigquery_table (cfg w0))) id w) as [_ ->].
    apply select_keeps_rows.
Qed.

(** The first two parameters of [update], in either copy. *)
Lemma update_params_head (c : copy) (id : json) (now : string) (data : patch) :
  exists rest,
    update_params_of c id now data = ("id", id) :: ("updated_at", JStr now) :: rest.
Proof.
  destruct c; unfold update_params_of, Repository.update_build, Repository.update_data,
    Repository.update_value, Repository.update_name, Repository.update_start, push_part,
    BaseRepository.update_build, BaseRepository.update_data,
    BaseRepository.update_value, BaseRepository.update_name,
    BaseRepository.update_start, BaseRepository.push_untyped;
    destruct (p_name data), (p_value data), (p_data data); cbn; eexists; reflexivity.
Qed.

Lemma set_clauses_head (c : copy) (id : json) (now : string) (data : patch) :
  exists rest,
    set_clauses_of c id now data = ("updated_at", Param "updated_at") :: rest /\
    ~ In "updated_at" (map fst rest) /\
    ~ In "id" (map fst rest) /\ ~ In "created_at" (map fst rest) /\
    (p_name data = None -> ~ In "name" (map fst rest)) /\
    (p_value data = None -> ~ In "value" (map fst rest)) /\
    (p_data data = None -> ~ In "data" (map fst rest)).
Proof.
  destruct c; unfold set_clauses_of, Repository.update_build, Repository.update_data,
    Repository.update_value, Repository.update_name, Repository.update_start, push_part,
    BaseRepository.update_build, BaseRepository.update_data,
    BaseRepository.update_value, BaseRepository.update_name,
    BaseRepository.update_start, BaseRepository.push_untyped;
    destruct (p_name data), (p_value data), (p_data data); cbn;
    eexists; (split; [ reflexivity | ]); cbn;
    repeat split; intros; intuition discriminate.
Qed.

(** A string parameter is bound as a string cell. *)
Lemma bind_string_param (ts : option (list (string * string))) (k v : string)
    (rest : list (string * json)) (env : list (string * cell)) :
  Warehouse.bind_params ts ((k, JStr v) :: rest) = Some env ->
  exists env', env = (k, CString v) :: env' /\ Warehouse.bind_params ts rest = Some env'.
Proof.
  cbn [Warehouse.bind_params]. unfold Warehouse.bind_param.
  destruct (Warehouse.declared ts k) as [ ty | ];
    [ destruct (String.eqb ty "STRING"); [ | discriminate ] | ];
    destruct (Warehouse.bind_params ts rest) as [ env' | ]; try discriminate;
    intros H; injection H as <-; exists env'; split; reflexivity.
Qed.

Lemma Forall2_refl_on {A : Type} (R : A -> A -> Prop) (l : list A) :
  (forall x, R x x) -> Forall2 R l l.
Proof. intros H. induction l; constructor; auto. Qed.

Lemma Forall2_weaken {A : Type} (R S : A -> A -> Prop) (l l' : list A) :
  (forall x y, R x y -> S x y) -> Forall2 R l l' -> Forall2 S l l'.
Proof. intros H F. induction F; constructor; auto. Qed.

Lemma Forall2_in_right {A : Type} (R : A -> A -> Prop) (l l' : list A) (y : A) :
  Forall2 R l l' -> In y l' -> exists x, In x l /\ R x y.
Proof.
  intros F. induction F as [ | x y' l l' Hxy F IH ]; intros Hin; [ contradiction | ].
  destruct Hin as [<- | Hin].
  - exists x. split; [ now left | exact Hxy ].
  - destruct (IH Hin) as (x' & Hx' & Hr). exists x'. split; [ now right | exact Hr ].
Qed.

Lemma patched_refl (s : string) (data : patch) (r : row) : patched s data r r.
Proof. repeat split; reflexivity. Qed.

(** The rows after [update], whatever its outcome: untouched, or rewritten
    by the UPDATE statement under the patch's frame. *)
Lemma update_rows_outcome (c : copy) (w : world) (s : string) (data : patch) :
  let now := iso_at w (tick w) in
  let r := m_update (repository_of c w) (JStr s) data w in
  (rows (snd r) = rows w /\ forall item, fst r <> Ok item) \/
  Forall2 (updated_row s now data) (rows w) (rows (snd r)).
Proof.
  intros now r. subst r. rewrite update_shape. fold now.
  set (t := BigqueryService.configured_table w).
  set (w0 := with_tick (S (tick w)) w).
  destruct (update_statement_outcome t (set_clauses_of c (JStr s) now data)
              (update_params_of c (JStr s) now data)
              (update_types_of c (JStr s) now data) w0)
    as [[Hrows Hfail] | (env & id & cs & Hb & Hid & Hcs & Hu & Hok)].
  - left. unfold bind.
    destruct (BigqueryService.executeQuery _ _ _ w0) as [[res | e] w1]; cbn [fst snd] in *.
    + now destruct (Hfail res).
    + split; [ exact Hrows | discriminate ].
  - right. unfold bind.
    destruct (BigqueryService.executeQuery _ _ _ w0) as [[res | e] w1]; cbn [fst snd] in *;
      [ | discriminate ].
    rewrite findById_keeps_rows.
    change (rows w0) with (rows w) in Hu.
    destruct (update_params_head c (JStr s) now data) as (ps' & Hps). rewrite Hps in Hb.
    destruct (bind_string_param _ _ _ _ _ Hb) as (env1 & -> & Hb1).
    destruct (bind_string_param _ _ _ _ _ Hb1) as (env2 & -> & _).
    cbn [assoc String.eqb Ascii.eqb Bool.eqb] in Hid. injection Hid as <-.
    destruct (set_clauses_head c (JStr s) now data)
      as (sets' & Hsets & Nu & Ni & Nc & Nn & Nv & Nd).
    rewrite Hsets in Hcs. cbn [Warehouse.assignments Warehouse.eval assoc String.eqb
      Ascii.eqb Bool.eqb] in Hcs.
    destruct (Warehouse.assignments _ sets') as [ cs' | ] eqn:Ecs'; [ | discriminate ].
    injection Hcs as <-.
    pose proof (assignments_columns _ _ _ Ecs') as Hcols.
    apply update_rows_frame in Hu.
    eapply Forall2_weaken; [ | exact Hu ].
    intros x y [[Hm ->] | [Hm Ha]].
    + split; [ apply patched_refl | ].
      intros Hx. apply matches_string in Hx. congruence.
    + pose proof (assign_updated_at _ _ _ _ Ha) as Hup.
      rewrite Hcols in Hup. specialize (Hup Nu).
      cbn [Warehouse.assign] in Ha.
      destruct (Warehouse.set_column "updated_at" (CString now) x) as [ x1 | ] eqn:E1;
        [ | discriminate ].
      destruct (set_column_frame _ _ _ _ E1) as (F1 & F2 & F3 & F4 & F5 & _).
      destruct (assign_frame cs' x1 y Ha) as (G1 & G2 & G3 & G4 & G5 & _).
      rewrite Hcols in G1, G2, G3, G4, G5.
      split; [ | intros _; exact Hup ].
      unfold patched. repeat split.
      * rewrite (G1 Ni). apply F1. discriminate.
      * rewrite (G5 Nc). apply F5. discriminate.
      * intros Hn. rewrite (G2 (Nn Hn)). apply F2. discriminate.
      * intros Hn. rewrite (G3 (Nv Hn)). apply F3. discriminate.
      * intros Hn. rewrite (G4 (Nd Hn)). apply F4. discriminate.
      * intros Hx. apply matches_string in Hm. congruence.
Qed.

Lemma refresh_rows (s now : string) (rs : list row) :
  Warehouse.update_rows (CString s) [("updated_at", CString now)] rs
  = Some (map (refreshed s now) rs).
Proof.
  induction rs as [ | r rs IH ]; cbn [Warehouse.update_rows map]; [ reflexivity | ].
  rewrite IH. unfold refreshed. destruct (Warehouse.matches (CString s) r); reflexivity.
Qed.

(** A patch without fields: the UPDATE statement is issued and completes,
    setting [updated_at] alone, and [update] goes on to re-read the row. *)
Lemma empty_patch_run (c : copy) (w : world) (s : string) :
  provisioned w -> next_call_fails w = false ->
  m_update (repository_of c w) (JStr s) empty_patch w
  = m_findById (repository_of c w) (JStr s) (after_refresh c w s).
Proof.
  intros Hp Hf. rewrite update_shape. cbv zeta.
  set (w0 := with_tick (S (tick w)) w).
  rewrite bind_ok with (a := []) (w1 := after_refresh c w s); [ reflexivity | ].
  assert (Hsets : set_clauses_of c (JStr s) (iso_at w (tick w)) empty_patch
                  = [("updated_at", Param "updated_at")]) by (destruct c; reflexivity).
  assert (Hps : update_params_of c (JStr s) (iso_at w (tick w)) empty_patch
                = refresh_parameters w s) by (destruct c; reflexivity).
  rewrite Hsets, Hps. unfold after_refresh, refresh_statement. fold w0.
  apply executeQuery_ok
    with (env := [("id", CString s); ("updated_at", CString (iso_at w (tick w)))]).
  - destruct c; reflexivity.
  - exact Hf.
  - change (BigqueryService.configured_table w) with (BigqueryService.configured_table w0).
    apply provisioned_reachable. exact Hp.
  - cbn [Warehouse.run Warehouse.assignments Warehouse.eval assoc String.eqb Ascii.eqb
           Bool.eqb].
    change (rows w0) with (rows w). rewrite refresh_rows. reflexivity.
Qed.

(** The scenario of the specification: after
    [create({name: "a", value: 1, data: {x: 1}})], [update(id, {value: 100})]
    yields a record with the name and the data as before, the value 100
    and a later [updated_at]. *)
Lemma partial_update_scenario :
  let repo := repository_of Part000 sample_world in
  let run :=
    (created <- m_create repo
                  {| in_name := JStr "a"; in_value := Some (JNum 1);
                     in_data := Some (JObj [("x", JNum 1)]) |} ;;
     m_update repo (default_to JNull (get_prop created "id"))
       {| p_name := None; p_value := Some (JNum 100); p_data := None |})%async in
  fst (run sample_world)
  = Ok (JObj [ ("id", JStr "uuid-0"); ("name", JStr "a"); ("value", JNum 100);
               ("data", JObj [("x", JNum 1)]);
               ("created_at", JStr "2024-01-01T00:00:01Z");
               ("updated_at", JStr "2024-01-01T00:00:02Z") ]).
Proof. vm_compute. reflexivity. Qed.


(* ================================================================== *)
(** * Further properties of the repository *)
(* ================================================================== *)

(** [part_000] decodes the data column by the type of what the client
    returned: a value that is not a string is passed through unchanged, a
    JSON text is parsed to the value it denotes; [findById] applies this
    to the first row and [findAll] to every row. *)
Theorem part000_decode_is_defensive (row v : json) (w : world) :
  (get_prop row "data" = Some v -> is_string v = false ->
   Repository.decode row w = (Ok row, w)) /\
  (get_prop row "data" = Some (JStr (JSON.stringify v)) ->
   Repository.decode row w = (Ok (set_prop "data" v row), w)) /\
  (forall t id,
      Repository.findById t id
      = bind (BigqueryService.executeQuery (SelectById t) [("id", id)] None)
          (fun rows => match rows with
                       | [] => ret JNull
                       | first :: _ => Repository.decode first
                       end)) /\
  (forall t limit offset orderBy,
      Repository.findAll t
        {| opt_limit := Some limit; opt_offset := Some offset;
           opt_orderBy := Some orderBy |}
      = bind (BigqueryService.executeQuery (SelectPage t orderBy)
                [("limit", limit); ("offset", offset)] None)
          (mapM Repository.decode)).
Proof.
  split; [ | split; [ | split ] ].
  - apply decode_passes_through.
  - apply decode_parses_text.
  - reflexivity.
  - reflexivity.
Qed.

(** Both representations of one stored payload, decoded. *)
Lemma part000_decode_is_defensive_witness :
  Repository.decode deserialized_row sample_world = (Ok deserialized_row, sample_world) /\
  Repository.decode (Warehouse.row_to_js true sample_row) sample_world
  = (Ok deserialized_row, sample_world).
Proof.
  split.
  - exact (proj1 (part000_decode_is_defensive deserialized_row
                    (JObj [("foo", JStr "bar")]) sample_world) eq_refl eq_refl).
  - exact (proj1 (proj2 (part000_decode_is_defensive (Warehouse.row_to_js true sample_row)
                           (JObj [("foo", JStr "bar")]) sample_world)) eq_refl).
Defined.

(** In [part_000], the UPDATE statement goes to [executeQuery] with a
    types object that names every parameter of the statement, so no
    [null] is bound without a type; [create], in both copies, declares
    the types of its six parameters. *)
Theorem part000_statements_declare_types
    (t : string) (id : json) (data : patch) (i : create_input) (w : world) :
  (exists o later,
      calls (snd (Repository.update t id data w)) = (calls w ++ CallQuery o :: later)%list /\
      query o = Update t (u_setClauses
                            (Repository.update_build id (iso_at w (tick w)) data)) /\
      (exists ts, types o = Some ts /\ map fst ts = map fst (params o)) /\
      nulls_typed o) /\
  (forall create,
      create = Repository.create \/ create = BaseRepository.create ->
      exists o,
        calls (snd (create t i w)) = (calls w ++ [CallQuery o])%list /\
        (exists ts, types o = Some ts /\ map fst ts = map fst (params o)) /\
        nulls_typed o).
Proof.
  split.
  - destruct (update_call_is_typed t id data w) as (o & later & Hc & Hq & Hp & Ht & Hn).
    exists o, later. repeat split; try assumption.
    exists (u_types (Repository.update_build id (iso_at w (tick w)) data)).
    split; [ exact Ht | ]. rewrite Hp. apply update_declares_every_type.
  - intros create Hcreate.
    destruct (create_call_is_typed t i w create Hcreate) as (o & Hc & Ht & Hp).
    exists o. split; [ exact Hc | split ].
    + eexists. split; [ exact Ht | ]. rewrite Hp. reflexivity.
    + intros name Hin. unfold Warehouse.declared. rewrite Ht.
      apply assoc_in_keys.
      apply (in_map fst) in Hin. rewrite Hp in Hin. exact Hin.
Qed.

(** Deletion removes visibility.  On a provisioned table and a connection
    that does not fail, [delete(id)] resolves to [true], removes exactly
    the rows with that id, and a [findById(id)] right after resolves to
    [null]; in both copies. *)
Theorem delete_then_find_is_absent (c : copy) (w : world) (s : string) :
  provisioned w -> healthy w ->
  exists w1 w2,
    m_delete (repository_of c w) (JStr s) w = (Ok true, w1) /\
    (forall r, In r (rows w1) <-> In r (rows w) /\ c_id r <> CString s) /\
    m_findById (repository_of c w) (JStr s) w1 = (Ok JNull, w2) /\
    rows w2 = rows w1.
Proof.
  intros Hp Hh.
  pose proof (delete_statement_completes w s Hp (healthy_next w Hh)) as Hdel.
  cbv zeta in Hdel.
  set (kept := filter (fun r => negb (Warehouse.matches (CString s) r)) (rows w)) in *.
  set (w1 := queried (Delete (BigqueryService.configured_table w)) [("id", JStr s)] None
               kept w) in *.
  destruct (queried_frame (Delete (BigqueryService.configured_table w)) [("id", JStr s)]
              None kept w) as (Hcfg & _ & Hd & Ht & Hrows & Hfaults & _).
  fold w1 in Hcfg, Hd, Ht, Hrows, Hfaults.
  assert (Hp1 : provisioned w1) by (destruct Hp; split; congruence).
  assert (Hh1 : healthy w1) by (eapply healthy_tail; eassumption).
  assert (Hkept : forall r, In r (rows w1) <-> In r (rows w) /\ c_id r <> CString s).
  { intros r. rewrite Hrows. unfold kept. rewrite filter_In.
    split; intros [Hin Hm]; (split; [ exact Hin | ]).
    - intros E. apply matches_string in E. rewrite E in Hm. discriminate.
    - destruct (Warehouse.matches (CString s) r) eqn:E; [ | reflexivity ].
      apply matches_string in E. contradiction. }
  assert (Htable : BigqueryService.configured_table w1 = BigqueryService.configured_table w).
  { unfold BigqueryService.configured_table. now rewrite Hcfg. }
  destruct (findById_absent w1 s Hp1 (healthy_next w1 Hh1)) as [Hnew Hold].
  { intros r Hin. now apply Hkept in Hin. }
  cbv zeta in Hnew, Hold. rewrite Htable in Hnew, Hold.
  exists w1. eexists.
  split; [ | split; [ exact Hkept | split ] ].
  - destruct c; cbn [repository_of Repository.defaults BaseRepository.defaults
                       Repository.createRepository BaseRepository.createRepository
                       m_delete];
      unfold Repository.delete, BaseRepository.delete, bind;
      fold (BigqueryService.configured_table w); rewrite Hdel; reflexivity.
  - destruct c; [ exact Hnew | exact Hold ].
  - now destruct (queried_frame (SelectById (BigqueryService.configured_table w))
                    [("id", JStr s)] None (rows w1) w1) as (_ & _ & _ & _ & H & _).
Qed.

(** Deleting the one item of the stocked table, then looking it up. *)
Lemma delete_then_find_is_absent_witness :
  exists w1 w2,
    m_delete (repository_of Part000 stocked_world) (JStr "item-1") stocked_world
    = (Ok true, w1) /\
    m_findById (repository_of Part000 stocked_world) (JStr "item-1") w1 = (Ok JNull, w2).
Proof.
  destruct (delete_then_find_is_absent Part000 stocked_world "item-1")
    as (w1 & w2 & Hd & _ & Hf & _).
  - split; reflexivity.
  - intros b [].
  - exists w1, w2. split; assumption.
Defined.

Lemma mapM_length {A B : Type} (f : A -> M B) (l : list A) (ys : list B) (w w' : world) :
  mapM f l w = (Ok ys, w') -> List.length ys = List.length l.
Proof.
  revert ys w w'. induction l as [ | x l IH ]; intros ys w w' H; cbn [mapM] in H.
  - injection H as <- _. reflexivity.
  - unfold bind in H. destruct (f x w) as [[y | e] w1]; [ | discriminate ].
    destruct (mapM f l w1) as [[ys' | e] w2] eqn:E; [ | discriminate ].
    injection H as <- _. cbn [List.length]. f_equal. eapply IH. exact E.
Qed.

(** Pagination.  [count()] resolves to the number of rows of the table,
    whatever page was asked for; and when [findAll] resolves, it returns
    no more items than the limit (100 when none is given).  Both copies. *)
Theorem count_and_page_size (c : copy) (w : world) (options : find_options) :
  (provisioned w -> next_call_fails w = false ->
   fst (m_count (repository_of c w) w) = Ok (JNum (Z.of_nat (List.length (rows w))))) /\
  (forall items w' limit,
      m_findAll (repository_of c w) options w = (Ok items, w') ->
      default_to (JNum 100) (opt_limit options) = JNum limit ->
      (Z.of_nat (List.length items) <= limit)%Z).
Proof.
  split.
  - intros Hp Hf.
    assert (Hrun : BigqueryService.executeQuery
                     (CountAll (BigqueryService.configured_table w)) [] None w
                   = (Ok [JObj [("total", JNum (Z.of_nat (List.length (rows w))))]],
                      queried (CountAll (BigqueryService.configured_table w)) [] None
                        (rows w) w)).
    { apply executeQuery_ok with (env := []);
        [ reflexivity | exact Hf | now apply provisioned_reachable | reflexivity ]. }
    destruct c; cbn [repository_of Repository.defaults BaseRepository.defaults
                       Repository.createRepository BaseRepository.createRepository m_count];
      unfold Repository.count, BaseRepository.count, bind;
      fold (BigqueryService.configured_table w); rewrite Hrun;
      cbn [fst ret first_total get_prop assoc String.eqb Ascii.eqb Bool.eqb truthy];
      destruct (Z.eqb_spec (Z.of_nat (List.length (rows w))) 0) as [-> | _];
      reflexivity.
  - intros items w' limit Hrun Hlimit.
    assert (Hshape :
      exists decode,
        m_findAll (repository_of c w) options w
        = bind (BigqueryService.executeQuery
                  (SelectPage (BigqueryService.configured_table w)
                     match opt_orderBy options with
                     | Some o => o
                     | None => "created_at DESC"
                     end)
                  [("limit", JNum limit);
                   ("offset", default_to (JNum 0) (opt_offset options))] None)
            (mapM decode) w).
    { destruct c; cbn [repository_of Repository.defaults BaseRepository.defaults
                         Repository.createRepository BaseRepository.createRepository
                         m_findAll];
        unfold Repository.findAll, BaseRepository.findAll; rewrite Hlimit;
        eexists; reflexivity. }
    destruct Hshape as (decode & Hshape). rewrite Hshape in Hrun. clear Hshape.
    unfold bind in Hrun. rewrite executeQuery_run in Hrun.
    cbn [Warehouse.bind_params Warehouse.bind_param Warehouse.declared] in Hrun.
    destruct (Warehouse.bind_param None "offset" (default_to (JNum 0) (opt_offset options)))
      as [ off | ]; [ | discriminate ].
    destruct (next_call_fails w); [ discriminate | ].
    destruct (BigqueryService.table_reachable _ w); [ | discriminate ].
    cbn [Warehouse.run assoc String.eqb Ascii.eqb Bool.eqb] in Hrun.
    destruct off as [ | | offset | | ]; try discriminate.
    destruct ((0 <=? limit)%Z && (0 <=? offset)%Z) eqn:Eb; [ | discriminate ].
    apply andb_prop in Eb. destruct Eb as [Hl _]. apply Z.leb_le in Hl.
    apply mapM_length in Hrun. rewrite Hrun, length_map.
    pose proof (firstn_le_length (Z.to_nat limit) (skipn (Z.to_nat offset) (rows w))) as Hle.
    lia.
Qed.

(** Counting the stocked table. *)
Lemma count_and_page_size_witness :
  fst (m_count (repository_of Part000 stocked_world) stocked_world) = Ok (JNum 1).
Proof.
  refine (proj1 (count_and_page_size Part000 stocked_world no_options) _ _).
  - split; reflexivity.
  - reflexivity.
Defined.

(* ================================================================== *)
(** * parseInt *)
(* ================================================================== *)

Lemma parse_digits_run (d : Decimal.uint) (rest : string) :
  JSON.parse_digits rest = (Decimal.Nil, rest) ->
  JSON.parse_digits (JSON.digits_text d ++ rest) = (d, rest).
Proof.
  intros H. induction d; cbn [JSON.digits_text append]; [ exact H | .. ];
    simpl; rewrite IHd; reflexivity.
Qed.

(** A text that starts with a digit or a sign has no white space to skip. *)
Lemma trimStart_digits (d : Decimal.uint) (rest : string) :
  d <> Decimal.Nil ->
  trimStart (JSON.digits_text d ++ rest) = JSON.digits_text d ++ rest.
Proof.
  intros Hd. destruct d; [ congruence | .. ]; cbn [JSON.digits_text append];
    match goal with
    | |- trimStart (String _ ?r) = _ => destruct r as [ | a [ | b t ] ]; reflexivity
    end.
Qed.

Lemma trimStart_minus (r : string) : trimStart (String "-" r) = String "-" r.
Proof. destruct r as [ | a [ | b t ] ]; reflexivity. Qed.

Lemma to_uint_nonnil (p : positive) : Pos.to_uint p <> Decimal.Nil.
Proof. apply DecimalPos.Unsigned.to_uint_nonnil. Qed.

(** Reading back a number written in decimal, whatever follows it, as
    long as that is not another digit. *)
Lemma parseInt_number_text (n : Z) (rest : string) :
  JSON.parse_digits rest = (Decimal.Nil, rest) ->
  parseInt (JSON.number_text n ++ rest) = Some n.
Proof.
  intros H.
  assert (Hback : Z.of_int (Z.to_int n) = n) by apply DecimalZ.of_to.
  unfold JSON.number_text in *.
  destruct (Z.to_int n) as [ d | d ] eqn:E.
  - assert (Hd : d <> Decimal.Nil).
    { destruct n as [ | p | p ]; simpl in E; inversion E; subst;
        [ discriminate | apply to_uint_nonnil ]. }
    unfold parseInt. rewrite (trimStart_digits d rest Hd).
    assert (Hs : (match JSON.digits_text d ++ rest with
                  | String c r =>
                      if (c =? "-")%char then (true, r)
                      else if (c =? "+")%char then (false, r)
                      else (false, JSON.digits_text d ++ rest)
                  | EmptyString => (false, JSON.digits_text d ++ rest)
                  end) = (false, JSON.digits_text d ++ rest)).
    { destruct d; [ congruence | .. ]; reflexivity. }
    cbv zeta. rewrite Hs. cbn [fst snd]. rewrite (parse_digits_run d rest H).
    destruct d; [ congruence | .. ]; rewrite <- Hback; reflexivity.
  - assert (Hd : d <> Decimal.Nil).
    { destruct n as [ | p | p ]; simpl in E; inversion E; subst. apply to_uint_nonnil. }
    unfold parseInt. cbn [append]. rewrite trimStart_minus.
    cbv zeta. cbn [Ascii.eqb Bool.eqb fst snd]. rewrite (parse_digits_run d rest H).
    destruct d; [ congruence | .. ]; rewrite <- Hback; reflexivity.
Qed.

Lemma parse_digits_empty : JSON.parse_digits EmptyString = (Decimal.Nil, EmptyString).
Proof. reflexivity. Qed.

Lemma append_empty (s : string) : s ++ EmptyString = s.
Proof. induction s as [ | c s IH ]; [ reflexivity | cbn; now rewrite IH ]. Qed.

Lemma parseInt_decimal (n : Z) : parseInt (JSON.number_text n) = Some n.
Proof.
  rewrite <- (append_empty (JSON.number_text n)).
  apply parseInt_number_text. reflexivity.
Qed.
(* ================================================================== *)
(** * Loading the configuration *)
(* ================================================================== *)

Lemma load_projectId_truthy (e : Config.process_env) :
  truthy (fst (Config.load_projectId e)) = true.
Proof.
  unfold Config.load_projectId, Config.given.
  destruct (Config.GOOGLE_PROJECT_ID e) as [ s | ].
  - destruct (String.eqb s EmptyString) eqn:E.
    + destruct (Config.GCP_PROJECT e) as [ s' | ].
      * destruct (String.eqb s' EmptyString) eqn:E'.
        -- cbn [fst]. destruct (truthy (fst (Config.getProjectIdFromCredentials e))) eqn:T;
             [ exact T | reflexivity ].
        -- cbn [fst truthy]. now rewrite E'.
      * cbn [fst]. destruct (truthy (fst (Config.getProjectIdFromCredentials e))) eqn:T;
          [ exact T | reflexivity ].
    + cbn [fst truthy]. now rewrite E.
  - destruct (Config.GCP_PROJECT e) as [ s' | ].
    + destruct (String.eqb s' EmptyString) eqn:E'.
      * cbn [fst]. destruct (truthy (fst (Config.getProjectIdFromCredentials e))) eqn:T;
          [ exact T | reflexivity ].
      * cbn [fst truthy]. now rewrite E'.
    + cbn [fst]. destruct (truthy (fst (Config.getProjectIdFromCredentials e))) eqn:T;
        [ exact T | reflexivity ].
Qed.


Lemma given_nonempty (v : option string) (s : string) :
  Config.given v = Some s -> v = Some s /\ s <> EmptyString.
Proof.
  unfold Config.given. destruct v as [ t | ]; [ | discriminate ].
  destruct (String.eqb t EmptyString) eqn:E; [ discriminate | ].
  intros H; injection H as ->. split; [ reflexivity | ].
  intros ->. discriminate.
Qed.







(** The port.  [parseInt(PORT, 10) || 8080]: the port is the number PORT
    starts with (an integer a JavaScript number holds exactly), whatever
    follows its digits, and 8080 when PORT is not set, starts with no
    number, or says 0; so the port is never 0. *)
Theorem port_is_read_or_defaults (e : Config.process_env) :
  let port := Config.server_port (fst (Config.load e)) in
  port <> 0%Z /\
  (forall n rest,
      n <> 0%Z -> safe_integer n -> JSON.parse_digits rest = (Decimal.Nil, rest) ->
      Config.PORT e = Some (JSON.number_text n ++ rest) -> port = n) /\
  (forall text,
      Config.PORT e = Some text ->
      parseInt text = None \/ parseInt text = Some 0%Z -> port = 8080%Z) /\
  (Config.PORT e = None -> port = 8080%Z).
Proof.
  cbv zeta.
  change (Config.server_port (fst (Config.load e)))
    with (number_or (parseInt_of (option_map JStr (Config.PORT e))) 8080).
  split; [ | split; [ | split ] ].
  - unfold number_or. destruct (parseInt_of (option_map JStr (Config.PORT e))) as [ z | ].
    + destruct (Z.eqb z 0) eqn:E; [ discriminate | ]. now apply Z.eqb_neq.
    + discriminate.
  - intros n rest Hn _ Hrest Hport. rewrite Hport. cbn [option_map parseInt_of to_string].
    rewrite (parseInt_number_text n rest Hrest). unfold number_or.
    destruct (Z.eqb n 0) eqn:E; [ | reflexivity ].
    apply Z.eqb_eq in E. contradiction.
  - intros text Hport H. rewrite Hport. cbn [option_map parseInt_of to_string].
    destruct H as [ -> | -> ]; reflexivity.
  - intros Hport. rewrite Hport. reflexivity.
Qed.

Lemma port_is_read_or_defaults_witness :
  Config.server_port (fst (Config.load credentials_env)) = 3000%Z /\
  Config.server_port (fst (Config.load empty_env)) = 8080%Z.
Proof.
  split.
  - apply (proj1 (proj2 (port_is_read_or_defaults credentials_env)) 3000%Z EmptyString);
      [ discriminate | unfold safe_integer; lia | reflexivity | reflexivity ].
  - apply (proj2 (proj2 (proj2 (port_is_read_or_defaults empty_env)))). reflexivity.
Defined.

Lemma is_missing_projectId (c : Config.settings) :
  truthy (Config.projectId c) = true ->
  Config.is_missing c "projectId" = true <-> Config.projectId c = JStr "your-project-id".
Proof.
  intros Ht. unfold Config.is_missing, Config.as_object.
  cbn [get_prop assoc String.eqb Ascii.eqb Bool.eqb].
  destruct (Config.projectId c) as [ | b | n | s | xs | kvs ] eqn:E;
    try (rewrite Ht; cbn [negb]; split; intros H; discriminate H).
  cbn [truthy] in Ht. destruct (String.eqb s EmptyString) eqn:E1; [ discriminate | ].
  cbn [orb]. split.
  - intros H. apply String.eqb_eq in H. now subst.
  - intros H. injection H as ->. reflexivity.
Qed.

(** What [validateConfig] writes once the configuration is loaded.  It
    writes one line, the last of the loading, and throws nothing: the
    warning about a missing project id exactly when no source gave one
    (the project id is the placeholder) and ENABLE_MOCK_MODE is not the
    text [true]; the line naming the project otherwise.  The flag is on
    for that one text only. *)
Theorem config_warning_iff_placeholder (e : Config.process_env) :
  let c := fst (Config.load e) in
  (Config.enableMockMode c = true <-> Config.ENABLE_MOCK_MODE e = Some "true") /\
  (Config.validateConfig c = [missing_project_warning] <->
   Config.projectId c = JStr "your-project-id" /\
   Config.ENABLE_MOCK_MODE e <> Some "true") /\
  (Config.validateConfig c <> [missing_project_warning] ->
   Config.validateConfig c
   = [ConsoleLog ("Using project: " ++ to_string (Config.projectId c))]) /\
  (exists before, snd (Config.load e) = (before ++ Config.validateConfig c)%list /\
                  forall line, In line before -> exists m, line = Config.could_not_read m).
Proof.
  cbv zeta.
  assert (Hflag : Config.enableMockMode (fst (Config.load e)) = true
                  <-> Config.ENABLE_MOCK_MODE e = Some "true").
  { change (Config.enableMockMode (fst (Config.load e)))
      with (match Config.ENABLE_MOCK_MODE e with
            | Some s => String.eqb s "true"
            | None => false
            end).
    destruct (Config.ENABLE_MOCK_MODE e) as [ s | ].
    - split.
      + intros H. apply String.eqb_eq in H. now subst.
      + intros H. injection H as ->. reflexivity.
    - split; discriminate. }
  assert (Ht : truthy (Config.projectId (fst (Config.load e))) = true)
    by apply load_projectId_truthy.
  pose proof (is_missing_projectId _ Ht) as Hm.
  split; [ exact Hflag | ].
  assert (Hcases :
            (Config.projectId (fst (Config.load e)) = JStr "your-project-id" /\
             Config.ENABLE_MOCK_MODE e <> Some "true" /\
             Config.validateConfig (fst (Config.load e)) = [missing_project_warning]) \/
            ((Config.projectId (fst (Config.load e)) <> JStr "your-project-id" \/
              Config.ENABLE_MOCK_MODE e = Some "true") /\
             Config.validateConfig (fst (Config.load e))
             = [ConsoleLog ("Using project: "
                              ++ to_string (Config.projectId (fst (Config.load e))))])).
  { unfold Config.validateConfig. cbn [filter].
    destruct (Config.is_missing (fst (Config.load e)) "projectId") eqn:M.
    - destruct (Config.enableMockMode (fst (Config.load e))) eqn:F.
      + right. split; [ right; now apply Hflag | reflexivity ].
      + left. split; [ now apply Hm | ]. split; [ | reflexivity ].
        intros H. apply Hflag in H. congruence.
    - right. split; [ | reflexivity ].
      left. intros H. apply Hm in H. congruence. }
  split; [ | split ].
  - split.
    + intros H. destruct Hcases as [ (A & B & _) | (_ & C) ]; [ now split | ].
      rewrite C in H. discriminate H.
    + intros [A B]. destruct Hcases as [ (_ & _ & C) | ([ D | D ] & _) ];
        [ exact C | contradiction | contradiction ].
  - intros H. destruct Hcases as [ (_ & _ & C) | (_ & C) ]; [ contradiction | exact C ].
  - exists (snd (Config.load_projectId e)). split; [ reflexivity | ].
    intros line. unfold Config.load_projectId.
    destruct (Config.given (Config.GOOGLE_PROJECT_ID e)); [ intros [] | ].
    destruct (Config.given (Config.GCP_PROJECT e)); [ intros [] | ].
    cbn [snd]. unfold Config.getProjectIdFromCredentials.
    destruct (Config.given (Config.GOOGLE_APPLICATION_CREDENTIALS e)); [ | intros [] ].
    destruct (Config.files e s) as [ | m | text ]; [ intros [] | | ].
    + intros [ <- | [] ]. eexists. reflexivity.
    + destruct (JSON.parse text) as [ [ | | | | | ] | ]; cbn [snd];
        first [ solve [ intros [] ] | intros [ <- | [] ]; eexists; reflexivity ].
Qed.

Lemma config_warning_iff_placeholder_witness :
  snd (Config.load empty_env) = [missing_project_warning].
Proof.
  destruct (config_warning_iff_placeholder empty_env) as (_ & [_ H] & _ & _).
  change (snd (Config.load empty_env)) with (Config.validateConfig (fst (Config.load empty_env))).
  apply H. split; [ reflexivity | discriminate ].
Defined.

(* ================================================================== *)
(** * The application: every request gets its reply *)
(* ================================================================== *)

Lemma sendResponse_run (st : Z) (d : jsval) (msg : option string) (w : world) :
  Controller.sendResponse st d msg w
  = (Ok {| Controller.status := st;
           Controller.success := is_success st;
           Controller.timestamp := iso_at w (tick w);
           Controller.message :=
             match msg with
             | Some m => if String.eqb m EmptyString then None else Some m
             | None => None
             end;
           Controller.data := d |},
     with_tick (S (tick w)) w).
Proof. reflexivity. Qed.

Lemma answers_well_sendResponse (st : Z) (d : jsval) (msg : option string) :
  answers_well (Controller.sendResponse st d msg).
Proof.
  intros w r w' H. rewrite sendResponse_run in H. injection H as <- _. reflexivity.
Qed.

Lemma answers_well_bind {A : Type} (m : M A) (k : A -> M Controller.response) :
  (forall a, answers_well (k a)) -> answers_well (bind m k).
Proof.
  intros Hk w r w' H. unfold bind in H.
  destruct (m w) as [ [ a | e ] w1 ]; [ | discriminate ].
  exact (Hk a w1 r w' H).
Qed.

Ltac answers_walk :=
  repeat first
    [ apply answers_well_sendResponse
    | apply answers_well_bind; intros ?
    | match goal with
      | |- answers_well (match ?x with _ => _ end) => destruct x
      | |- answers_well (if ?x then _ else _) => destruct x
      end ].

Lemma answers_well_routes (repo : repository) (t : App.route) (fn : M Controller.response) :
  App.routes repo t = Some fn -> answers_well fn.
Proof.
  destruct t; cbn [App.routes]; intros H; try discriminate H; injection H as <-.
  - unfold Controller.create. answers_walk.
  - unfold Controller.findAll. answers_walk.
  - unfold Controller.findById. answers_walk.
  - unfold Controller.update. answers_walk.
  - unfold Controller.delete. answers_walk.
Qed.

Lemma log_request_run (env : string) (req : App.request) (w : world) :
  App.log_request env req w = (Ok tt, logged env req w).
Proof.
  unfold logged, App.log_request. destruct (String.eqb env "development"); reflexivity.
Qed.

Lemma logged_frame (env : string) (req : App.request) (w : world) :
  let w1 := logged env req w in
  cfg w1 = cfg w /\ rows w1 = rows w /\ calls w1 = calls w /\
  bigqueryClient w1 = bigqueryClient w /\ constructed w1 = constructed w /\
  dataset_present w1 = dataset_present w /\ table_present w1 = table_present w /\
  faults w1 = faults w /\ json_as_text w1 = json_as_text w.
Proof.
  unfold logged, App.log_request. destruct (String.eqb env "development");
    repeat split; reflexivity.
Qed.

Lemma handle_run (env : string) (loaded : copy) (details : error -> App.error_details)
    (req : App.request) (w : world) :
  App.handle env loaded details req w =
  match App.target req with
  | App.Health => App.health env (logged env req w)
  | App.Root => App.root (logged env req w)
  | t =>
      match App.routes (repository_of loaded w) t with
      | Some fn => App.asyncHandler fn (App.error_handler env details) (logged env req w)
      | None => App.not_found req (logged env req w)
      end
  end.
Proof.
  unfold App.handle. cbv zeta. unfold bind at 1. rewrite log_request_run.
  destruct (App.target req); reflexivity.
Qed.

Lemma asyncHandler_run (fn : M Controller.response) (next : error -> M App.reply)
    (w : world) :
  App.asyncHandler fn next w =
  match fn w with
  | (Ok r, w') => (Ok (App.json_response r), w')
  | (Throw e, w') => next e w'
  end.
Proof.
  unfold App.asyncHandler, try_catch, bind, ret.
  destruct (fn w) as [ [ r | e ] w' ]; reflexivity.
Qed.

Lemma error_handler_run (env : string) (details : error -> App.error_details)
    (e : error) (w : world) :
  App.error_handler env details e w
  = (Ok {| App.code := App.status_of details e;
           App.payload :=
             JObj ([ ("success", JBool false);
                     ("message",
                      JStr (if String.eqb env "production" then "Internal server error"
                            else Server.error_message e)) ]
                   ++ (if negb (String.eqb env "production")
                       then [ ("stack", JStr (App.err_stack (details e))) ]
                       else []))%list |},
     with_console
       (console w ++ [ConsoleWarn ("Error: " ++ App.err_inspect (details e))])%list w).
Proof. reflexivity. Qed.

(** Every request is answered.  Whatever the route and the state of the
    warehouse (for a list request: whatever page its query parses to),
    the application resolves with a reply: a handler that
    rejects is caught by [asyncHandler] and answered by the error
    handler.  A reply that says [success: true] carries a 2xx status, and
    a reply with another status says [success: false]. *)
Theorem every_request_is_answered (env : string) (loaded : copy)
    (details : error -> App.error_details) (req : App.request) (w : world) :
  exists reply w',
    App.handle env loaded details req w = (Ok reply, w') /\
    (get_prop (App.payload reply) "success" = Some (JBool true) ->
     is_success (App.code reply) = true) /\
    (is_success (App.code reply) = false ->
     get_prop (App.payload reply) "success" = Some (JBool false)).
Proof.
  rewrite handle_run.
  destruct (App.target req) eqn:T;
    try (cbn [App.routes]; rewrite asyncHandler_run;
         match goal with
         | |- context [ ?fn (logged env req w) ] =>
             pose proof (answers_well_routes (repository_of loaded w) (App.target req) fn) as Hw;
             rewrite T in Hw; specialize (Hw eq_refl);
             destruct (fn (logged env req w)) as [ [ r | e ] w1 ] eqn:R
         end;
         [ specialize (Hw _ _ _ R);
           exists (App.json_response r), w1; split; [ reflexivity | ];
           cbn [App.json_response App.payload App.code get_prop assoc app
                  String.eqb Ascii.eqb Bool.eqb];
           rewrite Hw; split; [ intros H; now injection H | intros ->; reflexivity ]
         | rewrite error_handler_run; eexists; eexists; split; [ reflexivity | ];
           cbn [App.payload App.code get_prop assoc app String.eqb Ascii.eqb Bool.eqb];
           split; [ discriminate | reflexivity ] ]).
  - eexists. eexists. split; [ reflexivity | ]. split; [ discriminate | discriminate ].
  - eexists. eexists. split; [ reflexivity | ]. split; [ discriminate | discriminate ].
  - eexists. eexists. split; [ reflexivity | ]. split; [ discriminate | reflexivity ].
Qed.
(* ================================================================== *)
(** * What leaves the warehouse untouched *)
(* ================================================================== *)

Lemma keeps_store_ret {A : Type} (a : A) : keeps_store (ret a).
Proof. intros w. repeat split. Qed.

Lemma keeps_store_throw {A : Type} (e : error) : keeps_store (@throw A e).
Proof. intros w. repeat split. Qed.

Lemma keeps_store_bind {A B : Type} (m : M A) (k : A -> M B) :
  keeps_store m -> (forall a, keeps_store (k a)) -> keeps_store (bind m k).
Proof.
  intros Hm Hk w. unfold bind. specialize (Hm w).
  destruct (m w) as [ [ a | e ] w1 ]; cbn [snd] in *.
  - destruct (Hk a w1) as (R & D & T). destruct Hm as (R1 & D1 & T1).
    repeat split; congruence.
  - exact Hm.
Qed.

Lemma keeps_store_try_catch {A : Type} (m : M A) (h : error -> M A) :
  keeps_store m -> (forall e, keeps_store (h e)) -> keeps_store (try_catch m h).
Proof.
  intros Hm Hh w. unfold try_catch. specialize (Hm w).
  destruct (m w) as [ [ a | e ] w1 ]; cbn [snd] in *.
  - exact Hm.
  - destruct (Hh e w1) as (R & D & T). destruct Hm as (R1 & D1 & T1).
    repeat split; congruence.
Qed.

Lemma keeps_store_mapM {A B : Type} (f : A -> M B) (l : list A) :
  (forall a, keeps_store (f a)) -> keeps_store (mapM f l).
Proof.
  intros Hf. induction l as [ | x l IH ]; cbn [mapM].
  - apply keeps_store_ret.
  - apply keeps_store_bind; [ apply Hf | intros y ].
    apply keeps_store_bind; [ exact IH | intros ys; apply keeps_store_ret ].
Qed.

Lemma keeps_store_uuidv4 : keeps_store uuidv4.
Proof. intros w. repeat split. Qed.

Lemma keeps_store_date_now_iso : keeps_store date_now_iso.
Proof. intros w. repeat split. Qed.

Lemma keeps_store_console_log (s : string) : keeps_store (console_log s).
Proof. intros w. repeat split. Qed.

Lemma keeps_store_console_error (s : string) : keeps_store (console_error s).
Proof. intros w. repeat split. Qed.

Lemma keeps_store_JSON_parse (v : json) : keeps_store (JSON_parse v).
Proof. intros w. unfold JSON_parse. destruct (JSON.parse (to_string v)); repeat split. Qed.

Lemma keeps_store_sendResponse (st : Z) (d : jsval) (msg : option string) :
  keeps_store (Controller.sendResponse st d msg).
Proof. intros w. repeat split. Qed.

Lemma keeps_store_decode (row : json) :
  keeps_store (Repository.decode row) /\ keeps_store (BaseRepository.decode row).
Proof.
  split; intros w; destruct (decode_world row w) as [A B]; [ rewrite A | rewrite B ];
    repeat split.
Qed.

(** A statement that reads leaves the rows alone, whatever its outcome. *)
Lemma keeps_store_read (q : statement) (ps : list (string * json))
    (ts : option (list (string * string))) :
  is_read q = true -> keeps_store (BigqueryService.executeQuery q ps ts).
Proof.
  intros Hq w. rewrite executeQuery_run.
  assert (Href : forall b,
             rows (refused b q ps ts w) = rows w /\
             dataset_present (refused b q ps ts w) = dataset_present w /\
             table_present (refused b q ps ts w) = table_present w).
  { intros b. destruct (refused_frame b q ps ts w) as (_ & _ & D & T & R & _).
    repeat split; assumption. }
  destruct (Warehouse.bind_params ts ps) as [ env | ]; [ | apply Href ].
  destruct (next_call_fails w); [ apply Href | ].
  destruct (BigqueryService.table_reachable (Warehouse.statement_table q) w); [ | apply Href ].
  destruct (Warehouse.run (json_as_text w) q env (rows w)) as [ [ res rs ] | ] eqn:Hrun;
    [ | apply Href ].
  cbn [snd]. destruct (queried_frame q ps ts rs w) as (_ & _ & D & T & R & _).
  repeat split; try assumption. rewrite R.
  destruct q; try discriminate Hq; cbn [Warehouse.run] in Hrun.
  - destruct (assoc "limit" env) as [ [ | | l | | ] | ]; try discriminate Hrun.
    destruct (assoc "offset" env) as [ [ | | o | | ] | ]; try discriminate Hrun.
    destruct ((0 <=? l) && (0 <=? o))%Z; [ | discriminate Hrun ].
    now injection Hrun.
  - destruct (assoc "id" env); [ | discriminate Hrun ]. now injection Hrun.
  - now injection Hrun.
Qed.

Lemma keeps_store_reads (c : copy) (w0 : world) :
  (forall o, keeps_store (m_findAll (repository_of c w0) o)) /\
  (forall id, keeps_store (m_findById (repository_of c w0) id)) /\
  keeps_store (m_count (repository_of c w0)).
Proof.
  destruct c; cbn [repository_of Repository.defaults BaseRepository.defaults
                     Repository.createRepository BaseRepository.createRepository
                     m_findAll m_findById m_count];
    (split; [ | split ]).
  - intros o. unfold Repository.findAll.
    apply keeps_store_bind; [ now apply keeps_store_read | intros rs ].
    apply keeps_store_mapM. intros r. apply keeps_store_decode.
  - intros id. unfold Repository.findById.
    apply keeps_store_bind; [ now apply keeps_store_read | intros rs ].
    destruct rs; [ apply keeps_store_ret | apply keeps_store_decode ].
  - unfold Repository.count.
    apply keeps_store_bind; [ now apply keeps_store_read | intros rs; apply keeps_store_ret ].
  - intros o. unfold BaseRepository.findAll.
    apply keeps_store_bind; [ now apply keeps_store_read | intros rs ].
    apply keeps_store_mapM. intros r. apply keeps_store_decode.
  - intros id. unfold BaseRepository.findById.
    apply keeps_store_bind; [ now apply keeps_store_read | intros rs ].
    destruct rs; [ apply keeps_store_ret | apply keeps_store_decode ].
  - unfold BaseRepository.count.
    apply keeps_store_bind; [ now apply keeps_store_read | intros rs; apply keeps_store_ret ].
Qed.

Lemma keeps_store_error_handler (env : string) (details : error -> App.error_details)
    (e : error) :
  keeps_store (App.error_handler env details e).
Proof. intros w. repeat split. Qed.

Lemma keeps_store_asyncHandler (fn : M Controller.response) (next : error -> M App.reply) :
  keeps_store fn -> (forall e, keeps_store (next e)) -> keeps_store (App.asyncHandler fn next).
Proof.
  intros Hf Hn. unfold App.asyncHandler. apply keeps_store_try_catch; [ | exact Hn ].
  apply keeps_store_bind; [ exact Hf | intros r; apply keeps_store_ret ].
Qed.

(** Reading never writes.  [findById] and [count], and [findAll] when it
    is given no [orderBy] or one that names a column with or without a
    direction, leave the rows, the dataset and the table as they were in
    both copies of the repository, whether they resolve or reject; and so
    does the application on every request that asks for no change (the
    probes, the list with such an ordering, an item by id, an unknown
    endpoint), whatever reply it gives. *)
Theorem reading_never_writes (c : copy) (w : world) :
  (forall o, plain_order (opt_orderBy o) = true ->
             keeps_store (m_findAll (repository_of c w) o)) /\
  (forall id, keeps_store (m_findById (repository_of c w) id)) /\
  keeps_store (m_count (repository_of c w)) /\
  (forall env details req,
      is_safe (App.target req) = true ->
      let after := snd (App.handle env c details req w) in
      rows after = rows w /\
      dataset_present after = dataset_present w /\
      table_present after = table_present w).
Proof.
  destruct (keeps_store_reads c w) as (Hall & Hid & Hcount).
  split; [ intros o _; apply Hall | ]. split; [ exact Hid | ]. split; [ exact Hcount | ].
  intros env details req Hsafe. cbv zeta. rewrite handle_run.
  destruct (logged_frame env req w) as (_ & R & _ & _ & _ & D & T & _).
  assert (Hgo : forall m : M App.reply,
             keeps_store m ->
             rows (snd (m (logged env req w))) = rows w /\
             dataset_present (snd (m (logged env req w))) = dataset_present w /\
             table_present (snd (m (logged env req w))) = table_present w).
  { intros m Hm. destruct (Hm (logged env req w)) as (R1 & D1 & T1).
    repeat split; congruence. }
  destruct (App.target req); try discriminate Hsafe; cbn [App.routes]; apply Hgo.
  - unfold App.health.
    apply keeps_store_bind; [ apply keeps_store_date_now_iso | intros; apply keeps_store_ret ].
  - apply keeps_store_ret.
  - apply keeps_store_asyncHandler; [ | apply keeps_store_error_handler ].
    unfold Controller.findAll.
    apply keeps_store_bind; [ apply Hall | intros items ].
    apply keeps_store_bind; [ exact Hcount | intros total ].
    apply keeps_store_sendResponse.
  - apply keeps_store_asyncHandler; [ | apply keeps_store_error_handler ].
    unfold Controller.findById.
    apply keeps_store_bind; [ apply Hid | intros item ].
    destruct (negb (truthy item)); apply keeps_store_sendResponse.
  - apply keeps_store_ret.
Qed.

(** The list request of the API tests and the probe leave the stocked
    table as it is. *)
Lemma reading_never_writes_witness :
  rows (snd (m_findAll (repository_of Part000 stocked_world)
               {| opt_limit := Some (JNum 10); opt_offset := Some (JNum 0);
                  opt_orderBy := Some "created_at DESC" |} stocked_world))
  = [sample_row].
Proof.
  exact (proj1 (proj1 (reading_never_writes Part000 stocked_world)
                  {| opt_limit := Some (JNum 10); opt_offset := Some (JNum 0);
                     opt_orderBy := Some "created_at DESC" |} eq_refl stocked_world)).
Defined.
(* ================================================================== *)
(** * A missing table *)
(* ================================================================== *)

Lemma fails_executeQuery (q : statement) (ps : list (string * json))
    (ts : option (list (string * string))) :
  fails_without_table (BigqueryService.executeQuery q ps ts).
Proof.
  intros w Ht. rewrite executeQuery_run.
  assert (Href : forall b e,
             (exists e', fst (@Throw (list json) e, refused b q ps ts w) = Throw e') /\
             rows (snd (@Throw (list json) e, refused b q ps ts w)) = rows w /\
             table_present (snd (@Throw (list json) e, refused b q ps ts w)) = false).
  { intros b e. destruct (refused_frame b q ps ts w) as (_ & _ & _ & T & R & _).
    split; [ eexists; reflexivity | ]. cbn [snd]. split; congruence. }
  destruct (Warehouse.bind_params ts ps) as [ env | ]; [ | apply Href ].
  destruct (next_call_fails w); [ apply Href | ].
  unfold BigqueryService.table_reachable. rewrite Ht, Bool.andb_false_r. apply Href.
Qed.

Lemma fails_bind_left {A B : Type} (m : M A) (k : A -> M B) :
  fails_without_table m -> fails_without_table (bind m k).
Proof.
  intros Hm w Ht. destruct (Hm w Ht) as ([e He] & R & T). unfold bind.
  destruct (m w) as [ [ a | e' ] w1 ]; cbn [fst snd] in *; [ discriminate | ].
  split; [ eexists; reflexivity | split; assumption ].
Qed.

Lemma fails_bind_right {A B : Type} (m : M A) (k : A -> M B) :
  keeps_store m -> (forall a, fails_without_table (k a)) -> fails_without_table (bind m k).
Proof.
  intros Hm Hk w Ht. destruct (Hm w) as (R & _ & T). unfold bind.
  destruct (m w) as [ [ a | e ] w1 ]; cbn [fst snd] in *.
  - destruct (Hk a w1) as (E1 & R1 & T1); [ congruence | ].
    split; [ exact E1 | split; congruence ].
  - split; [ eexists; reflexivity | split; congruence ].
Qed.

Lemma repository_fails_without_table (c : copy) (w0 : world) :
  let repo := repository_of c w0 in
  (forall i, fails_without_table (m_create repo i)) /\
  (forall o, fails_without_table (m_findAll repo o)) /\
  (forall id, fails_without_table (m_findById repo id)) /\
  (forall id p, fails_without_table (m_update repo id p)) /\
  (forall id, fails_without_table (m_delete repo id)) /\
  fails_without_table (m_count repo).
Proof.
  destruct c; cbn [repository_of Repository.defaults BaseRepository.defaults
                     Repository.createRepository BaseRepository.createRepository
                     m_create m_findAll m_findById m_update m_delete m_count];
    cbv zeta; (split; [ | split; [ | split; [ | split; [ | split ] ] ] ]); intros;
    first [ unfold Repository.create | unfold Repository.findAll
          | unfold Repository.findById | unfold Repository.update
          | unfold Repository.delete | unfold Repository.count
          | unfold BaseRepository.create | unfold BaseRepository.findAll
          | unfold BaseRepository.findById | unfold BaseRepository.update
          | unfold BaseRepository.delete | unfold BaseRepository.count ];
    repeat first
      [ apply fails_bind_left; apply fails_executeQuery
      | apply fails_bind_right;
        [ first [ apply keeps_store_uuidv4 | apply keeps_store_date_now_iso ] | intros ? ]
      | progress cbv zeta ].
Qed.

(** Without its table the application serves no data.  Each of the six
    operations of the repository rejects and writes nothing; each request
    to the items router is answered with [success: false], by the error
    handler or, for a POST without a name, by the 400 of the validation;
    the table is not created on the way, and the health probe still
    answers 200. *)
Theorem missing_table_fails_every_data_request (c : copy) (w : world) :
  table_present w = false ->
  (let repo := repository_of c w in
   (forall i, exists e, fst (m_create repo i w) = Throw e) /\
   (forall o, exists e, fst (m_findAll repo o w) = Throw e) /\
   (forall id, exists e, fst (m_findById repo id w) = Throw e) /\
   (forall id p, exists e, fst (m_update repo id p w) = Throw e) /\
   (forall id, exists e, fst (m_delete repo id w) = Throw e) /\
   (exists e, fst (m_count repo w) = Throw e)) /\
  (forall env details req,
      is_data_route (App.target req) = true ->
      exists reply w',
        App.handle env c details req w = (Ok reply, w') /\
        get_prop (App.payload reply) "success" = Some (JBool false) /\
        rows w' = rows w /\ table_present w' = false) /\
  (forall env details req,
      App.target req = App.Health ->
      exists reply w',
        App.handle env c details req w = (Ok reply, w') /\ App.code reply = 200%Z).
Proof.
  intros Ht.
  destruct (repository_fails_without_table c w) as (Hc & Ha & Hi & Hu & Hd & Hn).
  cbv zeta in *.
  split; [ | split ].
  - split; [ | split; [ | split; [ | split; [ | split ] ] ] ]; intros.
    + apply (Hc i w Ht).
    + apply (Ha o w Ht).
    + apply (Hi id w Ht).
    + apply (Hu id p w Ht).
    + apply (Hd id w Ht).
    + apply (Hn w Ht).
  - intros env details req Hroute. rewrite handle_run.
    destruct (logged_frame env req w) as (_ & R & _ & _ & _ & _ & T & _).
    assert (Ht1 : table_present (logged env req w) = false) by congruence.
    assert (Hfail : forall fn : M Controller.response,
               fails_without_table fn ->
               exists reply w',
                 App.asyncHandler fn (App.error_handler env details) (logged env req w)
                 = (Ok reply, w') /\
                 get_prop (App.payload reply) "success" = Some (JBool false) /\
                 rows w' = rows w /\ table_present w' = false).
    { intros fn Hfn. rewrite asyncHandler_run.
      destruct (Hfn _ Ht1) as ([e He] & R1 & T1).
      destruct (fn (logged env req w)) as [ [ r | e' ] w1 ]; cbn [fst snd] in *;
        [ discriminate | ].
      rewrite error_handler_run. eexists. eexists. split; [ reflexivity | ].
      split; [ reflexivity | ]. cbn [rows table_present with_console]. split; congruence. }
    destruct (App.target req) as [ | | b | l o ob | id | id b | id | ];
      try discriminate Hroute; cbn [App.routes].
    + unfold Controller.create.
      destruct (Controller.b_name b) as [ name | ] eqn:En;
        [ destruct (truthy name) eqn:Tn | ].
      * apply Hfail. apply fails_bind_left. apply Hc.
      * rewrite asyncHandler_run, sendResponse_run. eexists. eexists.
        split; [ reflexivity | ]. split; [ reflexivity | ].
        cbn [rows table_present with_tick]. split; congruence.
      * rewrite asyncHandler_run, sendResponse_run. eexists. eexists.
        split; [ reflexivity | ]. split; [ reflexivity | ].
        cbn [rows table_present with_tick]. split; congruence.
    + apply Hfail. unfold Controller.findAll. apply fails_bind_left. apply Ha.
    + apply Hfail. unfold Controller.findById. apply fails_bind_left. apply Hi.
    + apply Hfail. unfold Controller.update. apply fails_bind_left. apply Hi.
    + apply Hfail. unfold Controller.delete. apply fails_bind_left. apply Hi.
  - intros env details req Hroute. rewrite handle_run, Hroute.
    eexists. eexists. split; reflexivity.
Qed.

Lemma missing_table_fails_every_data_request_witness :
  exists reply w',
    App.handle "production" Part000 plain_details sample_request tableless_world
    = (Ok reply, w') /\
    get_prop (App.payload reply) "success" = Some (JBool false) /\
    rows w' = rows tableless_world /\ table_present w' = false.
Proof.
  exact (proj1 (proj2 (missing_table_fails_every_data_request Part000 tableless_world
                         eq_refl))
           "production" plain_details sample_request eq_refl).
Defined.
(** What a rejected handler is answered with.  When the handler of a
    route rejects with [err], the reply comes from the error handler: its
    status is [err.status], else [err.statusCode], else 500; in
    production the body is [{ success: false, message: 'Internal server
    error' }] and nothing of the error leaves the process; elsewhere it
    carries the error's message and stack.  The error is written to
    stderr and the rows stay as the handler left them. *)
Theorem rejections_reach_the_error_handler (env : string) (loaded : copy)
    (details : error -> App.error_details) (req : App.request) (w w1 : world)
    (fn : M Controller.response) (err : error) :
  App.routes (repository_of loaded w) (App.target req) = Some fn ->
  fn (logged env req w) = (Throw err, w1) ->
  exists reply w',
    App.handle env loaded details req w = (Ok reply, w') /\
    App.code reply
    = number_or (App.err_status (details err))
        (number_or (App.err_statusCode (details err)) 500) /\
    (App.err_status (details err) = None -> App.err_statusCode (details err) = None ->
     App.code reply = 500%Z) /\
    (env = "production" ->
     App.payload reply
     = JObj [ ("success", JBool false); ("message", JStr "Internal server error") ]) /\
    (env <> "production" ->
     App.payload reply
     = JObj [ ("success", JBool false); ("message", JStr (Server.error_message err));
              ("stack", JStr (App.err_stack (details err))) ]) /\
    console w' = (console w1 ++ [ConsoleWarn ("Error: " ++ App.err_inspect (details err))])%list /\
    rows w' = rows w1.
Proof.
  intros Hroute Hfn. rewrite handle_run.
  assert (Hrun : App.asyncHandler fn (App.error_handler env details) (logged env req w)
                 = App.error_handler env details err w1).
  { rewrite asyncHandler_run, Hfn. reflexivity. }
  assert (Hgoal : exists reply w',
             App.asyncHandler fn (App.error_handler env details) (logged env req w)
             = (Ok reply, w') /\
             App.code reply
             = number_or (App.err_status (details err))
                 (number_or (App.err_statusCode (details err)) 500) /\
             (App.err_status (details err) = None ->
              App.err_statusCode (details err) = None -> App.code reply = 500%Z) /\
             (env = "production" ->
              App.payload reply
              = JObj [ ("success", JBool false);
                       ("message", JStr "Internal server error") ]) /\
             (env <> "production" ->
              App.payload reply
              = JObj [ ("success", JBool false);
                       ("message", JStr (Server.error_message err));
                       ("stack", JStr (App.err_stack (details err))) ]) /\
             console w'
             = (console w1 ++ [ConsoleWarn ("Error: " ++ App.err_inspect (details err))])%list /\
             rows w' = rows w1).
  { rewrite Hrun, error_handler_run. eexists. eexists. split; [ reflexivity | ].
    cbn [App.code App.payload]. split; [ reflexivity | ].
    split; [ | split; [ | split; [ | split; reflexivity ] ] ].
    - intros H1 H2. unfold App.status_of. rewrite H1, H2. reflexivity.
    - intros ->. reflexivity.
    - intros Hne. destruct (String.eqb env "production") eqn:E.
      + apply String.eqb_eq in E. contradiction.
      + reflexivity. }
  destruct (App.target req); cbn [App.routes] in *; try discriminate Hroute;
    injection Hroute as <-; exact Hgoal.
Qed.

Lemma rejections_reach_the_error_handler_witness :
  exists reply w',
    App.handle "production" Part000 plain_details sample_request tableless_world
    = (Ok reply, w') /\
    App.code reply = 500%Z /\
    App.payload reply
    = JObj [ ("success", JBool false); ("message", JStr "Internal server error") ].
Proof.
  destruct (rejections_reach_the_error_handler "production" Part000 plain_details
              sample_request tableless_world
              (snd (Controller.findById (repository_of Part000 tableless_world)
                      (JStr "item-1") tableless_world))
              (Controller.findById (repository_of Part000 tableless_world) (JStr "item-1"))
              (QueryError "table not found") eq_refl)
    as (reply & w' & H & _ & Hc & Hp & _).
  { vm_compute. reflexivity. }
  exists reply, w'. split; [ exact H | ]. split; [ now apply Hc | now apply Hp ].
Defined.

(** Probes and rejected input stay in the process.  The health probe,
    the root document, an unknown endpoint and a POST whose name is
    missing or falsy are answered (200, 200, 404, 400) without a call to
    the warehouse: no client is constructed for them, nothing is sent and
    the rows are untouched. *)
Theorem probes_and_invalid_input_skip_the_warehouse (env : string) (loaded : copy)
    (details : error -> App.error_details) (req : App.request) (w : world) :
  (App.target req = App.Health \/ App.target req = App.Root \/
   App.target req = App.Unmatched \/
   exists b, App.target req = App.ItemsCreate b /\ js_truthy (Controller.b_name b) = false) ->
  exists reply w',
    App.handle env loaded details req w = (Ok reply, w') /\
    App.code reply
    = match App.target req with
      | App.Health | App.Root => 200%Z
      | App.ItemsCreate _ => 400%Z
      | _ => 404%Z
      end /\
    calls w' = calls w /\ rows w' = rows w /\
    bigqueryClient w' = bigqueryClient w /\ constructed w' = constructed w.
Proof.
  intros H. rewrite handle_run.
  destruct (logged_frame env req w) as (_ & R & C & B & N & _).
  destruct H as [ -> | [ -> | [ -> | (b & -> & Hb) ] ] ].
  - eexists. eexists. split; [ reflexivity | ]. cbn. repeat split; assumption.
  - eexists. eexists. split; [ reflexivity | ]. cbn. repeat split; assumption.
  - eexists. eexists. split; [ reflexivity | ]. cbn. repeat split; assumption.
  - cbn [App.routes]. rewrite asyncHandler_run. unfold Controller.create.
    destruct (Controller.b_name b) as [ name | ]; cbn [js_truthy] in Hb;
      [ rewrite Hb | ]; rewrite sendResponse_run;
      (eexists; eexists; split; [ reflexivity | ]; cbn; repeat split; assumption).
Qed.

Lemma probes_and_invalid_input_skip_the_warehouse_witness :
  exists reply w',
    App.handle "development" BaseCopy plain_details
      {| App.method := "POST"; App.path := "/api/items";
         App.target := App.ItemsCreate
                         {| Controller.b_name := None;
                            Controller.b_value := Some (JNum 123);
                            Controller.b_data := None |} |} unreachable_world
    = (Ok reply, w') /\
    App.code reply = 400%Z /\ calls w' = [] /\ bigqueryClient w' = None.
Proof.
  destruct (probes_and_invalid_input_skip_the_warehouse "development" BaseCopy plain_details
              {| App.method := "POST"; App.path := "/api/items";
                 App.target := App.ItemsCreate
                                 {| Controller.b_name := None;
                                    Controller.b_value := Some (JNum 123);
                                    Controller.b_data := None |} |} unreachable_world)
    as (reply & w' & H & Hc & Hcalls & _ & Hb & _).
  { right. right. right. eexists. split; reflexivity. }
  exists reply, w'. repeat split; assumption.
Defined.

(* ================================================================== *)
(** * The list endpoint *)
(* ================================================================== *)

Lemma decode_written (c : copy) (as_text : bool) (r : row) (w : world) :
  written_by c as_text r ->
  decode_of c (Warehouse.row_to_js as_text r) w = (Ok (listed as_text r), w).
Proof.
  intros [ Hnull | H ].
  - destruct (decode_null_row as_text r w Hnull) as (A & B & C).
    unfold listed, stored_data. rewrite Hnull.
    rewrite (set_prop_same "data" JNull _ C).
    destruct c; [ exact A | exact B ].
  - destruct c.
    + destruct H as (j & Hj & Hs). unfold listed, stored_data. rewrite Hj.
      exact (decode_stored_row as_text r j w Hj Hs).
    + destruct H as (j & Hj). unfold listed, stored_data.
      rewrite Hj, JSONFacts.parse_stringify.
      exact (base_decode_stored_text as_text r j w Hj).
Qed.

(** [baseRepository.js] on a column of type JSON that the client hands
    over as text. *)
Lemma base_decode_json_text (r : row) (j : json) (w : world) :
  c_data r = CJson j ->
  BaseRepository.decode (Warehouse.row_to_js true r) w
  = (Ok (set_prop "data" j (Warehouse.row_to_js true r)), w).
Proof.
  intros Hd. apply base_decode_parses_text.
  unfold Warehouse.row_to_js. cbn [get_prop assoc String.eqb Ascii.eqb Bool.eqb].
  rewrite Hd. reflexivity.
Qed.

Lemma decode_readable (c : copy) (as_text : bool) (r : row) (w : world) :
  readable c as_text r ->
  decode_of c (Warehouse.row_to_js as_text r) w = (Ok (listed as_text r), w).
Proof.
  intros [ H | (-> & j & Hj) ]; [ now apply decode_written | ].
  unfold listed, stored_data. rewrite Hj.
  destruct c; cbn [decode_of].
  - apply decode_stored_row; [ exact Hj | now left ].
  - now apply base_decode_json_text.
Qed.

Lemma mapM_decode_readable (c : copy) (as_text : bool) (rs : list row) (w : world) :
  Forall (readable c as_text) rs ->
  mapM (decode_of c) (map (Warehouse.row_to_js as_text) rs) w
  = (Ok (map (listed as_text) rs), w).
Proof.
  induction 1 as [ | r rs Hr Hrs IH ]; cbn [map mapM]; [ reflexivity | ].
  unfold bind. rewrite (decode_readable c as_text r w Hr), IH. reflexivity.
Qed.

Lemma json_column_readable (c : copy) (r : row) :
  json_column r -> readable c true r.
Proof.
  intros [ H | (j & H) ].
  - left. left. exact H.
  - right. split; [ reflexivity | now exists j ].
Qed.

Lemma Forall_firstn {A : Type} (P : A -> Prop) (n : nat) (l : list A) :
  Forall P l -> Forall P (firstn n l).
Proof.
  intros H. revert n. induction H as [ | x l Hx Hl IH ]; intros [ | n ]; cbn [firstn];
    constructor; auto.
Qed.

Lemma Forall_skipn {A : Type} (P : A -> Prop) (n : nat) (l : list A) :
  Forall P l -> Forall P (skipn n l).
Proof.
  intros H. revert n. induction H as [ | x l Hx Hl IH ]; intros [ | n ]; cbn [skipn];
    auto.
Qed.

Lemma findAll_shape (c : copy) (w : world) (o : find_options) :
  m_findAll (repository_of c w) o
  = bind (BigqueryService.executeQuery
            (SelectPage (BigqueryService.configured_table w)
               match opt_orderBy o with
               | Some by_ => by_
               | None => "created_at DESC"
               end)
            [ ("limit", default_to (JNum 100) (opt_limit o));
              ("offset", default_to (JNum 0) (opt_offset o)) ] None)
      (mapM (decode_of c)).
Proof. destruct c; reflexivity. Qed.

Lemma count_shape (c : copy) (w : world) :
  m_count (repository_of c w)
  = bind (BigqueryService.executeQuery (CountAll (BigqueryService.configured_table w)) [] None)
      (fun rows => ret (first_total rows)).
Proof. destruct c; reflexivity. Qed.

(** One page of a provisioned table on a call that does not fail. *)
Lemma select_page_run (w : world) (orderBy : string) (limit offset : Z) :
  provisioned w -> next_call_fails w = false ->
  (0 <= limit)%Z -> (0 <= offset)%Z ->
  let q := SelectPage (BigqueryService.configured_table w) orderBy in
  let ps := [ ("limit", JNum limit); ("offset", JNum offset) ] in
  BigqueryService.executeQuery q ps None w
  = (Ok (map (Warehouse.row_to_js (json_as_text w)) (window limit offset (rows w))),
     queried q ps None (rows w) w).
Proof.
  intros Hp Hf Hl Ho q ps. subst q ps.
  apply executeQuery_ok with (env := [ ("limit", CInt limit); ("offset", CInt offset) ]);
    [ reflexivity | exact Hf | now apply provisioned_reachable | ].
  cbn [Warehouse.run assoc String.eqb Ascii.eqb Bool.eqb].
  apply Z.leb_le in Hl. apply Z.leb_le in Ho. rewrite Hl, Ho. reflexivity.
Qed.

Lemma count_run (w : world) :
  provisioned w -> next_call_fails w = false ->
  let q := CountAll (BigqueryService.configured_table w) in
  BigqueryService.executeQuery q [] None w
  = (Ok [JObj [("total", JNum (Z.of_nat (List.length (rows w))))]],
     queried q [] None (rows w) w).
Proof.
  intros Hp Hf q. subst q.
  apply executeQuery_ok with (env := []);
    [ reflexivity | exact Hf | now apply provisioned_reachable | reflexivity ].
Qed.

Lemma first_total_counted (n : nat) :
  first_total [JObj [("total", JNum (Z.of_nat n))]] = JNum (Z.of_nat n).
Proof.
  cbn [first_total get_prop assoc String.eqb Ascii.eqb Bool.eqb truthy].
  destruct (Z.eqb_spec (Z.of_nat n) 0) as [ -> | _ ]; reflexivity.
Qed.

Lemma page_of_texts (q : Controller.list_query) (ol oo : option Z) :
  Controller.q_limit q = option_map JSON.number_text ol ->
  Controller.q_offset q = option_map JSON.number_text oo ->
  Controller.page q
  = Some (match ol with Some l => l | None => 100%Z end,
          match oo with Some o => o | None => 0%Z end).
Proof.
  intros Hl Ho. unfold Controller.page. rewrite Hl, Ho.
  destruct ol as [ l | ], oo as [ o | ];
    cbn [option_map default_to parseInt_of to_string];
    rewrite ?parseInt_decimal; reflexivity.
Qed.

Lemma window_length (limit offset : Z) (rs : list row) :
  List.length (window limit offset rs)
  = Nat.min (Z.to_nat limit) (List.length rs - Z.to_nat offset).
Proof. unfold window. now rewrite length_firstn, length_skipn. Qed.

(** The list endpoint.  The page is read from the query with [parseInt]
    (decimal texts of integers a JavaScript number holds exactly give
    those integers), 100 and 0 standing in for a missing [limit] and
    [offset].  On a provisioned table whose data column is of type JSON,
    with a client that hands JSON columns over as text, a connection that
    does not fail and an [orderBy] that is left out or names a column
    with or without a direction, the handler of either copy answers 200
    with as many items as the table holds from [offset] on, but no more
    than [limit], and with [pagination: { total, limit, offset }], where
    [total] counts all the rows of the table, not those of the page; it
    changes no row. *)
Theorem list_reports_page_and_total (c : copy) (w : world)
    (q : Controller.list_query) (ol oo : option Z) :
  Controller.q_limit q = option_map JSON.number_text ol ->
  Controller.q_offset q = option_map JSON.number_text oo ->
  let limit := match ol with Some l => l | None => 100%Z end in
  let offset := match oo with Some o => o | None => 0%Z end in
  safe_integer limit -> safe_integer offset ->
  Controller.page q = Some (limit, offset) /\
  (provisioned w -> healthy w -> json_as_text w = true ->
   (0 <= limit)%Z -> (0 <= offset)%Z ->
   plain_order (Controller.q_orderBy q) = true ->
   Forall json_column (rows w) ->
   exists stamp items w',
     Controller.findAll (repository_of c w) limit offset (Controller.q_orderBy q) w
     = (Ok {| Controller.status := 200;
              Controller.success := true;
              Controller.timestamp := stamp;
              Controller.message := None;
              Controller.data :=
                Some (JObj [ ("items", JArr items);
                             ("pagination",
                              JObj [ ("total", JNum (Z.of_nat (List.length (rows w))));
                                     ("limit", JNum limit);
                                     ("offset", JNum offset) ]) ]) |},
        w') /\
     List.length items
     = Nat.min (Z.to_nat limit) (List.length (rows w) - Z.to_nat offset) /\
     rows w' = rows w).
Proof.
  intros Hl Ho limit offset _ _. split; [ exact (page_of_texts q ol oo Hl Ho) | ].
  intros Hp Hh Hjs Hlim Hoff _ Hrows.
  unfold Controller.findAll.
  rewrite findAll_shape, count_shape. cbn [opt_limit opt_offset opt_orderBy default_to].
  set (by_ := match Controller.q_orderBy q with
              | Some b => b
              | None => "created_at DESC"
              end).
  pose proof (select_page_run w by_ limit offset Hp (healthy_next w Hh) Hlim Hoff) as Hsel.
  cbv zeta in Hsel. rewrite Hjs in Hsel.
  set (w1 := queried (SelectPage (BigqueryService.configured_table w) by_)
               [("limit", JNum limit); ("offset", JNum offset)] None (rows w) w) in *.
  destruct (queried_frame (SelectPage (BigqueryService.configured_table w) by_)
              [("limit", JNum limit); ("offset", JNum offset)] None (rows w) w)
    as (Hcfg & Hjson & Hd & Ht & Hr & Hfa & _).
  fold w1 in Hcfg, Hjson, Hd, Ht, Hr, Hfa.
  assert (Hp1 : provisioned w1) by (destruct Hp; split; congruence).
  assert (Hh1 : healthy w1) by (apply (healthy_tail w w1 Hh Hfa)).
  assert (Htable : BigqueryService.configured_table w1 = BigqueryService.configured_table w).
  { unfold BigqueryService.configured_table. now rewrite Hcfg. }
  pose proof (count_run w1 Hp1 (healthy_next w1 Hh1)) as Hcount. cbv zeta in Hcount.
  rewrite Htable, Hr in Hcount.
  assert (Hitems : mapM (decode_of c)
                     (map (Warehouse.row_to_js true) (window limit offset (rows w))) w1
                   = (Ok (map (listed true) (window limit offset (rows w))), w1)).
  { apply mapM_decode_readable. unfold window. apply Forall_firstn, Forall_skipn.
    eapply Forall_impl; [ | exact Hrows ]. intros r. apply json_column_readable. }
  unfold bind at 1. unfold bind at 1. rewrite Hsel, Hitems.
  unfold bind at 1. unfold bind at 1. rewrite Hcount. cbn [ret].
  rewrite first_total_counted, sendResponse_run.
  eexists. eexists. eexists. split; [ reflexivity | ].
  split; [ now rewrite length_map, window_length | ].
  cbn [rows with_tick].
  now destruct (queried_frame (CountAll (BigqueryService.configured_table w)) [] None
                  (rows w) w1) as (_ & _ & _ & _ & H & _).
Qed.

Lemma list_reports_page_and_total_witness :
  Controller.page second_page = Some (10%Z, 10%Z) /\
  exists stamp w',
    Controller.findAll (repository_of Part000 stocked_world) 10 10 (Some "name ASC")
      stocked_world
    = (Ok {| Controller.status := 200;
             Controller.success := true;
             Controller.timestamp := stamp;
             Controller.message := None;
             Controller.data :=
               Some (JObj [ ("items", JArr []);
                            ("pagination",
                             JObj [ ("total", JNum 1); ("limit", JNum 10);
                                    ("offset", JNum 10) ]) ]) |},
       w').
Proof.
  destruct (list_reports_page_and_total Part000 stocked_world second_page
              (Some 10%Z) (Some 10%Z) eq_refl eq_refl) as [Hpage Hrun];
    [ unfold safe_integer; lia | unfold safe_integer; lia | ].
  split; [ exact Hpage | ].
  destruct Hrun as (stamp & items & w' & H & Hlen & _).
  - split; reflexivity.
  - intros b [].
  - reflexivity.
  - discriminate.
  - discriminate.
  - reflexivity.
  - constructor; [ | constructor ]. right. exists (JObj [("foo", JStr "bar")]).
    reflexivity.
  - exists stamp, w'. destruct items; [ exact H | discriminate Hlen ].
Defined.
Lemma mapM_decode_world (c : copy) (l : list json) (w : world) :
  snd (mapM (decode_of c) l w) = w.
Proof.
  induction l as [ | x l IH ]; cbn [mapM]; [ reflexivity | ].
  unfold bind.
  assert (Hx : snd (decode_of c x w) = w)
    by (destruct (decode_world x w) as [A B]; destruct c; assumption).
  destruct (decode_of c x w) as [ [ y | e ] w1 ]; cbn [snd] in Hx; subst w1;
    [ | reflexivity ].
  destruct (mapM (decode_of c) l w) as [ [ ys | e ] w2 ]; cbn [snd] in IH; subst w2;
    reflexivity.
Qed.

(** How the list request reaches the warehouse.  The first call of the
    handler is the SELECT whose text has the [orderBy] of the query
    string spliced in as it came, unquoted and unchecked
    ([created_at DESC] when the query gives none), while [limit] and
    [offset] travel as the parameters [@limit] and [@offset], with no
    types declared. *)
Theorem order_by_is_spliced_into_the_statement (c : copy) (w : world)
    (limit offset : Z) (orderBy : option string) :
  exists o later,
    calls (snd (Controller.findAll (repository_of c w) limit offset orderBy w))
    = (calls w ++ CallQuery o :: later)%list /\
    Warehouse.sql_text (query o)
    = list_statement_text (BigqueryService.configured_table w)
        match orderBy with
        | Some text => text
        | None => "created_at DESC"
        end /\
    params o = [ ("limit", JNum limit); ("offset", JNum offset) ] /\
    types o = None.
Proof.
  unfold Controller.findAll. rewrite findAll_shape, count_shape.
  cbn [opt_limit opt_offset opt_orderBy default_to].
  set (by_ := match orderBy with Some text => text | None => "created_at DESC" end).
  set (q := SelectPage (BigqueryService.configured_table w) by_).
  set (ps := [ ("limit", JNum limit); ("offset", JNum offset) ]).
  pose proof (executeQuery_records_call q ps None w) as Hcall.
  exists (options_of q ps None w).
  unfold bind at 1. unfold bind at 1.
  destruct (BigqueryService.executeQuery q ps None w) as [ [ rs | e ] w1 ]; cbn [snd] in Hcall.
  - pose proof (mapM_decode_world c rs w1) as Hm.
    destruct (mapM (decode_of c) rs w1) as [ [ items | e ] w2 ]; cbn [snd] in Hm; subst w2.
    + unfold bind at 1. unfold bind at 1.
      pose proof (executeQuery_records_call
                    (CountAll (BigqueryService.configured_table w)) [] None w1) as Hcount.
      destruct (BigqueryService.executeQuery
                  (CountAll (BigqueryService.configured_table w)) [] None w1)
        as [ [ total | e ] w3 ]; cbn [snd] in Hcount.
      * eexists. cbn [ret]. rewrite sendResponse_run. cbn [snd calls with_tick].
        rewrite Hcount, Hcall, <- app_assoc. cbn [app].
        split; [ reflexivity | repeat split ].
      * eexists. cbn [snd]. rewrite Hcount, Hcall, <- app_assoc. cbn [app].
        split; [ reflexivity | repeat split ].
    + exists []. cbn [snd]. rewrite Hcall. split; [ reflexivity | repeat split ].
  - exists []. cbn [snd]. rewrite Hcall. split; [ reflexivity | repeat split ].
Qed.

(* ================================================================== *)
(** * Writes: what a call that resolved has done *)
(* ================================================================== *)

(** The two outcomes of a statement. *)
Lemma executeQuery_outcome (q : statement) (ps : list (string * json))
    (ts : option (list (string * string))) (w : world) :
  let r := BigqueryService.executeQuery q ps ts w in
  dataset_present (snd r) = dataset_present w /\
  table_present (snd r) = table_present w /\
  ((exists e, fst r = Throw e /\ rows (snd r) = rows w) \/
   (exists env res rs,
       Warehouse.bind_params ts ps = Some env /\
       Warehouse.run (json_as_text w) q env (rows w) = Some (res, rs) /\
       fst r = Ok res /\ rows (snd r) = rs)).
Proof.
  cbv zeta. rewrite executeQuery_run.
  assert (Href : forall b e,
             dataset_present (refused b q ps ts w) = dataset_present w /\
             table_present (refused b q ps ts w) = table_present w /\
             ((exists e', @Throw (list json) e = Throw e' /\
                          rows (refused b q ps ts w) = rows w) \/
              (exists env res rs,
                  Warehouse.bind_params ts ps = Some env /\
                  Warehouse.run (json_as_text w) q env (rows w) = Some (res, rs) /\
                  @Throw (list json) e = Ok res /\ rows (refused b q ps ts w) = rs))).
  { intros b e. destruct (refused_frame b q ps ts w) as (_ & _ & D & T & R & _).
    split; [ exact D | ]. split; [ exact T | ]. left. exists e. split; [ reflexivity | exact R ]. }
  destruct (Warehouse.bind_params ts ps) as [ env | ] eqn:Eb; [ | apply Href ].
  destruct (next_call_fails w); [ apply Href | ].
  destruct (BigqueryService.table_reachable (Warehouse.statement_table q) w); [ | apply Href ].
  destruct (Warehouse.run (json_as_text w) q env (rows w)) as [ [ res rs ] | ] eqn:Hrun;
    [ | apply Href ].
  cbn [fst snd]. destruct (queried_frame q ps ts rs w) as (_ & _ & D & T & R & _).
  split; [ exact D | ]. split; [ exact T | ].
  right. exists env, res, rs. repeat split; assumption || reflexivity.
Qed.

Lemma create_shape (c : copy) (w : world) (i : create_input) :
  let id := uuid_at w (tick w) in
  let now := iso_at w (S (tick w)) in
  let data_value := match c with Part000 => ParseJson "data" | BaseCopy => Param "data" end in
  m_create (repository_of c w) i w
  = bind (BigqueryService.executeQuery
            (Insert (BigqueryService.configured_table w) item_columns
               [ Param "id"; Param "name"; Param "value"; data_value;
                 Param "created_at"; Param "updated_at" ])
            [ ("id", JStr id); ("name", in_name i);
              ("value", defined_or_null (in_value i));
              ("data", stringify_or_null (in_data i));
              ("created_at", JStr now); ("updated_at", JStr now) ]
            (Some [ ("id", "STRING"); ("name", "STRING"); ("value", "INT64");
                    ("data", "STRING"); ("created_at", "STRING");
                    ("updated_at", "STRING") ]))
      (fun _ => ret (created_record id now i)) (stamped w).
Proof. destruct c; reflexivity. Qed.

(** An INSERT of the six columns appends one row, which carries the id
    bound to [@id]. *)
Lemma insert_appends (as_text : bool) (t : string) (data_value : expr)
    (env : list (string * cell)) (rs rs' : list row) (res : list json) (id : cell) :
  assoc "id" env = Some id ->
  Warehouse.run as_text
    (Insert t item_columns
       [ Param "id"; Param "name"; Param "value"; data_value;
         Param "created_at"; Param "updated_at" ]) env rs = Some (res, rs') ->
  exists r, rs' = (rs ++ [r])%list /\ c_id r = id.
Proof.
  intros Hid. cbn [Warehouse.run Warehouse.zip_assignments item_columns List.length
                        Nat.eqb combine Warehouse.assignments Warehouse.eval].
  rewrite Hid.
  destruct (assoc "name" env) as [ cn | ]; [ | discriminate ].
  destruct (assoc "value" env) as [ cv | ]; [ | discriminate ].
  destruct (Warehouse.eval env data_value) as [ cd | ] eqn:Ed.
  - destruct (assoc "created_at" env) as [ cc | ]; [ | discriminate ].
    destruct (assoc "updated_at" env) as [ cu | ]; [ | discriminate ].
    cbn. intros H. injection H as _ <-. eexists. split; reflexivity.
  - discriminate.
Qed.

Lemma delete_shape (c : copy) (w : world) (id : json) :
  m_delete (repository_of c w) id
  = bind (BigqueryService.executeQuery (Delete (BigqueryService.configured_table w))
            [ ("id", id) ] None)
      (fun _ => ret true).
Proof. destruct c; reflexivity. Qed.

(** The outcomes of [create] and [delete] against the model of the
    warehouse, in which a call that fails has changed nothing. *)
Lemma create_delete_outcomes (c : copy) (w : world)
    (i : create_input) (id : json) :
  (let r := m_create (repository_of c w) i w in
   dataset_present (snd r) = dataset_present w /\
   table_present (snd r) = table_present w /\
   ((exists e, fst r = Throw e /\ rows (snd r) = rows w) \/
    (exists record row,
        fst r = Ok record /\
        rows (snd r) = (rows w ++ [row])%list /\
        c_id row = CString (uuid_at w (tick w)) /\
        get_prop record "id" = Some (JStr (uuid_at w (tick w)))))) /\
  (let r := m_delete (repository_of c w) id w in
   dataset_present (snd r) = dataset_present w /\
   table_present (snd r) = table_present w /\
   ((exists e, fst r = Throw e /\ rows (snd r) = rows w) \/
    (exists key,
        Warehouse.bind_param None "id" id = Some key /\
        fst r = Ok true /\
        rows (snd r) = filter (fun row => negb (Warehouse.matches key row)) (rows w)))).
Proof.
  split; cbv zeta.
  - rewrite create_shape. cbv zeta.
    match goal with
    | |- context [ bind (BigqueryService.executeQuery ?q ?ps ?ts) ?k (stamped w) ] =>
        destruct (executeQuery_outcome q ps ts (stamped w)) as (D & T & H);
        unfold bind;
        destruct (BigqueryService.executeQuery q ps ts (stamped w)) as [ [ res | e ] w1 ]
    end; cbn [fst snd ret] in *.
    + split; [ exact D | ]. split; [ exact T | ].
      destruct H as [ (e & He & _) | (env & res' & rs & Hb & Hrun & _ & Hrows) ];
        [ discriminate | ].
      right. apply bind_string_param in Hb. destruct Hb as (env' & -> & _).
      apply insert_appends with (id := CString (uuid_at w (tick w))) in Hrun;
        [ | reflexivity ].
      destruct Hrun as (row & Hrs & Hid).
      exists (created_record (uuid_at w (tick w)) (iso_at w (S (tick w))) i), row.
      split; [ reflexivity | ]. split; [ now rewrite Hrows | ].
      split; [ exact Hid | reflexivity ].
    + split; [ exact D | ]. split; [ exact T | ].
      left. exists e. split; [ reflexivity | ].
      destruct H as [ (e' & _ & Hr) | (env & res' & rs & _ & _ & He & _) ];
        [ exact Hr | discriminate ].
  - rewrite delete_shape.
    destruct (executeQuery_outcome (Delete (BigqueryService.configured_table w))
                [ ("id", id) ] None w) as (D & T & H).
    unfold bind.
    destruct (BigqueryService.executeQuery (Delete (BigqueryService.configured_table w))
                [ ("id", id) ] None w) as [ [ res | e ] w1 ]; cbn [fst snd ret] in *.
    + split; [ exact D | ]. split; [ exact T | ].
      destruct H as [ (e & He & _) | (env & res' & rs & Hb & Hrun & _ & Hrows) ];
        [ discriminate | ].
      right. cbn [Warehouse.bind_params] in Hb.
      destruct (Warehouse.bind_param None "id" id) as [ key | ]; [ | discriminate ].
      injection Hb as <-. exists key. split; [ reflexivity | ]. split; [ reflexivity | ].
      cbn [Warehouse.run assoc String.eqb Ascii.eqb Bool.eqb] in Hrun.
      injection Hrun as _ <-. exact Hrows.
    + split; [ exact D | ]. split; [ exact T | ].
      left. exists e. split; [ reflexivity | ].
      destruct H as [ (e' & _ & Hr) | (env & res' & rs & _ & _ & He & _) ];
        [ exact Hr | discriminate ].
Qed.

(** What a [create] and a [delete] that resolve have done.  In both
    copies, whatever the input: a [create] that resolved has appended
    exactly one row, under the id of the record it returns, and changed no
    other; a [delete] resolves to [true] only, and has then removed the
    rows with the id and no other.  Neither creates or drops the dataset
    or the table. *)
Theorem resolved_writes_touch_their_rows_only (c : copy) (w : world)
    (i : create_input) (id : json) :
  (forall record w',
      m_create (repository_of c w) i w = (Ok record, w') ->
      dataset_present w' = dataset_present w /\
      table_present w' = table_present w /\
      get_prop record "id" = Some (JStr (uuid_at w (tick w))) /\
      exists row,
        rows w' = (rows w ++ [row])%list /\
        c_id row = CString (uuid_at w (tick w))) /\
  (forall answer w',
      m_delete (repository_of c w) id w = (Ok answer, w') ->
      answer = true /\
      dataset_present w' = dataset_present w /\
      table_present w' = table_present w /\
      exists key,
        Warehouse.bind_param None "id" id = Some key /\
        rows w' = filter (fun row => negb (Warehouse.matches key row)) (rows w)).
Proof.
  destruct (create_delete_outcomes c w i id) as [Hc Hd]. cbv zeta in Hc, Hd. split.
  - intros record w' Hrun. rewrite Hrun in Hc. cbn [fst snd] in Hc.
    destruct Hc as (D & T & [ (e & He & _) | (record' & row & Hok & Hrows & Hid & Hrec) ]);
      [ discriminate | ].
    injection Hok as <-.
    split; [ exact D | ]. split; [ exact T | ]. split; [ exact Hrec | ].
    exists row. split; assumption.
  - intros answer w' Hrun. rewrite Hrun in Hd. cbn [fst snd] in Hd.
    destruct Hd as (D & T & [ (e & He & _) | (key & Hkey & Hok & Hrows) ]);
      [ discriminate | ].
    injection Hok as ->.
    split; [ reflexivity | ]. split; [ exact D | ]. split; [ exact T | ].
    exists key. split; assumption.
Qed.

(** The POST of the API tests on the stocked table, then the DELETE of the
    stored item. *)
Lemma resolved_writes_touch_their_rows_only_witness :
  (exists row,
      rows (snd (m_create (repository_of Part000 stocked_world) sample_input stocked_world))
      = [sample_row; row] /\ c_id row = CString "uuid-0") /\
  rows (snd (m_delete (repository_of Part000 stocked_world) (JStr "item-1") stocked_world))
  = [].
Proof.
  destruct (resolved_writes_touch_their_rows_only Part000 stocked_world sample_input
              (JStr "item-1")) as [Hc Hd].
  split.
  - destruct (Hc (created_record "uuid-0" "2024-01-01T00:00:01Z" sample_input)
                (snd (m_create (repository_of Part000 stocked_world) sample_input
                        stocked_world)) eq_refl)
      as (_ & _ & _ & row & Hrows & Hid).
    exists row. split; [ exact Hrows | exact Hid ].
  - destruct (Hd true
                (snd (m_delete (repository_of Part000 stocked_world) (JStr "item-1")
                        stocked_world)) eq_refl)
      as (_ & _ & _ & key & Hkey & Hrows).
    injection Hkey as <-. exact Hrows.
Defined.
Lemma findById_shape (c : copy) (w : world) (id : json) :
  m_findById (repository_of c w) id
  = bind (BigqueryService.executeQuery (SelectById (BigqueryService.configured_table w))
            [ ("id", id) ] None)
      (fun rows =>
         match rows with
         | [] => ret JNull
         | row :: _ => decode_of c row
         end).
Proof. destruct c; reflexivity. Qed.


(* ================================================================== *)
(** * update: the record it returns *)
(* ================================================================== *)

Lemma update_rows_map (id : cell) (cs : list (string * cell)) (f : row -> row)
    (rs : list row) :
  (forall x, Warehouse.assign cs x = Some (f x)) ->
  Warehouse.update_rows id cs rs
  = Some (map (fun x => if Warehouse.matches id x then f x else x) rs).
Proof.
  intros Hf. induction rs as [ | r rs IH ]; cbn [Warehouse.update_rows map];
    [ reflexivity | ].
  rewrite IH. destruct (Warehouse.matches id r); [ rewrite Hf | ]; reflexivity.
Qed.

(** The UPDATE of a valid patch binds, and rewrites the rows with the id. *)
Lemma update_statement_run (c : copy) (s now : string) (data : patch) (t : string) :
  valid_patch data = true ->
  exists env,
    Warehouse.bind_params (update_types_of c (JStr s) now data)
      (update_params_of c (JStr s) now data) = Some env /\
    forall as_text rs,
      Warehouse.run as_text (Update t (set_clauses_of c (JStr s) now data)) env rs
      = Some ([], patch_rows c s now data rs).
Proof.
  intros Hv. destruct data as [ n v d ]. unfold valid_patch in Hv. cbn [p_name p_value] in Hv.
  apply andb_prop in Hv. destruct Hv as [Hn Hval].
  destruct n as [ [ | | | n | | ] | ]; try discriminate Hn;
    destruct v as [ [ | | v | | | ] | ]; try discriminate Hval;
    destruct d as [ d | ]; destruct c;
    (eexists; split; [ reflexivity | ]; intros as_text rs;
     cbn [Warehouse.run set_clauses_of Repository.update_build BaseRepository.update_build
            Repository.update_start BaseRepository.update_start
            Repository.update_name Repository.update_value Repository.update_data
            BaseRepository.update_name BaseRepository.update_value
            BaseRepository.update_data push_part BaseRepository.push_untyped
            u_setClauses p_name p_value p_data app
            assoc String.eqb Ascii.eqb Bool.eqb
            Warehouse.assignments Warehouse.eval];
     rewrite ?JSONFacts.parse_stringify;
     match goal with
     | |- _ = Some ([], patch_rows ?c0 _ _ ?data0 _) =>
         rewrite update_rows_map with (f := patch_row c0 now data0);
         [ reflexivity | intros x; reflexivity ]
     end).
Qed.
Lemma patch_row_readable (c : copy) (as_text : bool) (now : string) (data : patch)
    (r : row) :
  readable c as_text r ->
  (c = Part000 -> forall d, p_data data = Some d -> as_text = true \/ is_string d = false) ->
  readable c as_text (patch_row c now data r).
Proof.
  intros Hr Hd. destruct (p_data data) as [ d | ] eqn:Ed.
  - left. unfold written_by, patch_row. cbn [c_data]. rewrite Ed.
    right. destruct c.
    + exists d. split; [ reflexivity | now apply Hd ].
    + exists d. reflexivity.
  - unfold readable, written_by, patch_row in *. cbn [c_data]. rewrite Ed. exact Hr.
Qed.

Lemma patch_rows_split (c : copy) (s now : string) (data : patch)
    (before after : list row) (r : row) :
  (forall x, In x before -> c_id x <> CString s) ->
  c_id r = CString s ->
  patch_rows c s now data (before ++ r :: after)
  = (before ++ patch_row c now data r :: patch_rows c s now data after)%list.
Proof.
  intros Hb Hr. unfold patch_rows. rewrite map_app. cbn [map].
  assert (Hm : Warehouse.matches (CString s) r = true) by now apply matches_string.
  rewrite Hm. f_equal.
  induction before as [ | x before IH ]; [ reflexivity | ].
  cbn [map]. rewrite IH by (intros y Hy; apply Hb; now right).
  destruct (Warehouse.matches (CString s) x) eqn:E; [ | reflexivity ].
  apply matches_string in E. exfalso. apply (Hb x); [ now left | exact E ].
Qed.

(** [update] of a stored row with a valid patch, step by step: the
    UPDATE, then the re-read. *)
Lemma update_run (c : copy) (w : world) (s : string)
    (data : patch) (before after : list row) (r : row) :
  provisioned w -> healthy w -> valid_patch data = true ->
  rows w = (before ++ r :: after)%list ->
  (forall x, In x before -> c_id x <> CString s) ->
  c_id r = CString s ->
  readable c (json_as_text w) r ->
  (c = Part000 ->
   forall d, p_data data = Some d -> json_as_text w = true \/ is_string d = false) ->
  let now := iso_at w (tick w) in
  let old := Warehouse.row_to_js (json_as_text w) r in
  exists item w',
    m_update (repository_of c w) (JStr s) data w = (Ok item, w') /\
    item = listed (json_as_text w) (patch_row c now data r) /\
    rows w' = patch_rows c s now data (rows w) /\
    get_prop item "id" = Some (JStr s) /\
    get_prop item "name" = match p_name data with
                           | Some n => Some n
                           | None => get_prop old "name"
                           end /\
    get_prop item "value" = match p_value data with
                            | Some v => Some v
                            | None => get_prop old "value"
                            end /\
    get_prop item "data" = match p_data data with
                           | Some d => Some d
                           | None => Some (stored_data r)
                           end /\
    get_prop item "created_at" = get_prop old "created_at" /\
    get_prop item "updated_at" = Some (JStr now).
Proof.
  intros Hp Hh Hv Hrows Hbefore Hid Hw Hd now old.
  rewrite update_shape. fold now.
  set (t := BigqueryService.configured_table w).
  set (w0 := with_tick (S (tick w)) w).
  destruct (update_statement_run c s now data t Hv) as (env & Hb & Hrun).
  set (q := Update t (set_clauses_of c (JStr s) now data)) in *.
  set (ps := update_params_of c (JStr s) now data) in *.
  set (ts := update_types_of c (JStr s) now data) in *.
  assert (Hq : BigqueryService.executeQuery q ps ts w0
               = (Ok [], queried q ps ts (patch_rows c s now data (rows w)) w0)).
  { apply executeQuery_ok with (env := env);
      [ exact Hb | exact (healthy_next w Hh)
        | exact (provisioned_reachable w0 Hp) | apply Hrun ]. }
  unfold bind at 1. rewrite Hq.
  set (w1 := queried q ps ts (patch_rows c s now data (rows w)) w0).
  destruct (queried_frame q ps ts (patch_rows c s now data (rows w)) w0)
    as (Hcfg & Hjson & Hds & Htb & Hr1 & Hfa & _).
  fold w1 in Hcfg, Hjson, Hds, Htb, Hr1, Hfa.
  assert (Hp1 : provisioned w1) by exact (provisioned_queried q ps ts _ w0 Hp).
  assert (Hh1 : healthy w1) by (apply (healthy_tail w w1 Hh Hfa)).
  assert (Htable : BigqueryService.configured_table w1 = t).
  { unfold t, BigqueryService.configured_table. now rewrite Hcfg. }
  assert (Hsplit : rows w1
                   = (before ++ patch_row c now data r
                        :: patch_rows c s now data after)%list).
  { rewrite Hr1, Hrows. now apply patch_rows_split. }
  pose proof (select_present w1 s before (patch_rows c s now data after)
                (patch_row c now data r) Hp1 (healthy_next w1 Hh1) Hsplit Hbefore Hid)
    as Hsel.
  rewrite Htable in Hsel.
  rewrite Hjson in Hsel. change (json_as_text w0) with (json_as_text w) in Hsel.
  rewrite findById_shape. fold t. unfold bind. rewrite Hsel.
  rewrite (decode_readable c (json_as_text w) (patch_row c now data r));
    [ | now apply patch_row_readable ].
  eexists. eexists. split; [ reflexivity | ]. split; [ reflexivity | ].
  split.
  { destruct (queried_frame (SelectById t) [("id", JStr s)] None (rows w1) w1)
      as (_ & _ & _ & _ & H & _).
    rewrite H. exact Hr1. }
  unfold listed, stored_data, patch_row, old, Warehouse.row_to_js.
  cbn [c_id c_name c_value c_data c_created_at c_updated_at set_prop set_assoc get_prop
         assoc String.eqb Ascii.eqb Bool.eqb Warehouse.cell_to_js].
  rewrite Hid. cbn [Warehouse.cell_to_js].
  unfold valid_patch in Hv. apply andb_prop in Hv. destruct Hv as [Hn Hval].
  repeat split.
  - destruct (p_name data) as [ [ | | | n | | ] | ]; try discriminate Hn; reflexivity.
  - destruct (p_value data) as [ [ | | v | | | ] | ]; try discriminate Hval; reflexivity.
  - destruct (p_data data) as [ d | ]; [ | reflexivity ].
    destruct c; [ reflexivity | ]. now rewrite JSONFacts.parse_stringify.
Qed.


(* ================================================================== *)
(** * The handlers, one after the other *)
(* ================================================================== *)

Lemma ready_refl (w : world) : healthy w -> ready w w.
Proof. intros H. split; [ repeat split | exact H ]. Qed.

Lemma ready_tick (w0 w : world) (n : nat) : ready w0 w -> ready w0 (with_tick n w).
Proof. intros [S H]. split; [ exact S | exact H ]. Qed.

Lemma ready_queried (w0 w : world) (q : statement) (ps : list (string * json))
    (ts : option (list (string * string))) (rs : list row) :
  ready w0 w -> ready w0 (queried q ps ts rs w).
Proof.
  intros [S H]. split; [ now apply same_setting_queried | ].
  apply (healthy_tail w); [ exact H | ].
  now destruct (queried_frame q ps ts rs w) as (_ & _ & _ & _ & _ & F & _).
Qed.

Lemma ready_table (w0 w : world) :
  ready w0 w -> provisioned w0 ->
  BigqueryService.configured_table w = BigqueryService.configured_table w0 /\
  provisioned w /\ next_call_fails w = false /\ json_as_text w = json_as_text w0.
Proof.
  intros [S H] Hp. destruct (configured_table_same w0 w S) as [T P].
  split; [ exact T | ]. split; [ exact (P Hp) | ]. split; [ exact (healthy_next w H) | ].
  apply S.
Qed.

(** [findById] of a stored row: the first row with the id, decoded. *)
Lemma findById_present (c : copy) (w0 w : world) (s : string)
    (before after : list row) (r : row) :
  provisioned w0 -> ready w0 w ->
  rows w = (before ++ r :: after)%list ->
  (forall x, In x before -> c_id x <> CString s) ->
  c_id r = CString s ->
  readable c (json_as_text w0) r ->
  m_findById (repository_of c w0) (JStr s) w
  = (Ok (listed (json_as_text w0) r),
     queried (SelectById (BigqueryService.configured_table w0)) [("id", JStr s)] None
       (rows w) w).
Proof.
  intros Hp Hr Hrows Hbefore Hid Hw.
  destruct (ready_table w0 w Hr Hp) as (Ht & Hp1 & Hf & Hj).
  pose proof (select_present w s before after r Hp1 Hf Hrows Hbefore Hid) as Hsel.
  rewrite Ht, Hj in Hsel.
  rewrite findById_shape. unfold bind. rewrite Hsel.
  now apply decode_readable.
Qed.

Lemma findById_missing (c : copy) (w0 w : world) (s : string) :
  provisioned w0 -> ready w0 w ->
  (forall x, In x (rows w) -> c_id x <> CString s) ->
  m_findById (repository_of c w0) (JStr s) w
  = (Ok JNull,
     queried (SelectById (BigqueryService.configured_table w0)) [("id", JStr s)] None
       (rows w) w).
Proof.
  intros Hp Hr Hnone.
  destruct (ready_table w0 w Hr Hp) as (Ht & Hp1 & Hf & Hj).
  pose proof (select_absent w s Hp1 Hf Hnone) as Hsel. cbv zeta in Hsel.
  rewrite Ht in Hsel.
  rewrite findById_shape. unfold bind. rewrite Hsel. reflexivity.
Qed.

Lemma listed_truthy (as_text : bool) (r : row) : truthy (listed as_text r) = true.
Proof. reflexivity. Qed.

Lemma listed_id (as_text : bool) (r : row) (s : string) :
  c_id r = CString s -> get_prop (listed as_text r) "id" = Some (JStr s).
Proof.
  intros H. unfold listed, Warehouse.row_to_js.
  cbn [set_prop set_assoc get_prop assoc String.eqb Ascii.eqb Bool.eqb].
  now rewrite H.
Qed.
Lemma created_row_written (c : copy) (as_text : bool) (id now : string) (i : create_input) :
  (c = Part000 -> forall d, in_data i = Some d -> as_text = true \/ is_string d = false) ->
  written_by c as_text
    (created_row id now i
       match c with Part000 => data_cell i | BaseCopy => data_text_cell i end).
Proof.
  intros Hmode. unfold written_by, created_row. cbn [c_data].
  destruct c; unfold data_cell, data_text_cell;
    (destruct (in_data i) as [ d | ] eqn:Ed; [ | now left ]);
    (destruct (truthy d); [ right | now left ]).
  - exists d. split; [ reflexivity | now apply Hmode ].
  - exists d. reflexivity.
Qed.

(** POST of a valid body. *)
Lemma create_handler_run (c : copy) (w : world) (b : Controller.body) (name : json) :
  provisioned w -> healthy w ->
  Controller.b_name b = Some name -> valid_input (input_of name b) = true ->
  let id := uuid_at w (tick w) in
  let now := iso_at w (S (tick w)) in
  let i := input_of name b in
  let cell := match c with Part000 => data_cell i | BaseCopy => data_text_cell i end in
  exists stamp w',
    Controller.create (repository_of c w) b w
    = (Ok {| Controller.status := 201;
             Controller.success := true;
             Controller.timestamp := stamp;
             Controller.message := Some "Item created successfully";
             Controller.data := Some (created_record id now i) |}, w') /\
    rows w' = (rows w ++ [created_row id now i cell])%list /\
    ready w w'.
Proof.
  intros Hp Hh Hname Hv id now i cell.
  assert (Hcreated :
    exists w1,
      m_create (repository_of c w) i w = (Ok (created_record id now i), w1) /\
      rows w1 = (rows w ++ [created_row id now i cell])%list /\
      same_setting w w1 /\ faults w1 = tl (faults w)).
  { subst cell. destruct c.
    - destruct (create_run w i Hp (healthy_next w Hh) Hv) as (w1 & A & B & C & D & _).
      exists w1. repeat split; assumption || apply C.
    - destruct (base_create_run w i Hp (healthy_next w Hh) Hv) as (w1 & A & B & C & D & _).
      exists w1. repeat split; assumption || apply C. }
  destruct Hcreated as (w1 & Hrun & Hrows & Hset & Hfaults).
  assert (Htruthy : truthy name = true).
  { unfold valid_input, input_of in Hv. cbn [in_name] in Hv.
    apply andb_prop in Hv. destruct Hv as [Hn _].
    destruct name; try discriminate Hn. exact Hn. }
  unfold Controller.create. rewrite Hname, Htruthy.
  fold (input_of name b). fold i. unfold bind. rewrite Hrun, sendResponse_run.
  eexists. eexists. split; [ reflexivity | ]. split; [ exact Hrows | ].
  apply ready_tick. split; [ exact Hset | exact (healthy_tail w w1 Hh Hfaults) ].
Qed.

(** GET of a stored item. *)
Lemma get_handler_present (c : copy) (w0 w : world) (s : string)
    (before after : list row) (r : row) :
  provisioned w0 -> ready w0 w ->
  rows w = (before ++ r :: after)%list ->
  (forall x, In x before -> c_id x <> CString s) ->
  c_id r = CString s ->
  readable c (json_as_text w0) r ->
  exists stamp w',
    Controller.findById (repository_of c w0) (JStr s) w
    = (Ok {| Controller.status := 200;
             Controller.success := true;
             Controller.timestamp := stamp;
             Controller.message := None;
             Controller.data := Some (listed (json_as_text w0) r) |}, w') /\
    rows w' = rows w /\ ready w0 w'.
Proof.
  intros Hp Hr Hrows Hbefore Hid Hw.
  unfold Controller.findById, bind.
  rewrite (findById_present c w0 w s before after r Hp Hr Hrows Hbefore Hid Hw).
  rewrite listed_truthy. cbn [negb]. rewrite sendResponse_run.
  eexists. eexists. split; [ reflexivity | ]. split.
  - cbn [rows with_tick].
    now destruct (queried_frame (SelectById (BigqueryService.configured_table w0))
                    [("id", JStr s)] None (rows w) w) as (_ & _ & _ & _ & H & _).
  - apply ready_tick. now apply ready_queried.
Qed.

(** GET of an id no row has. *)
Lemma get_handler_missing (c : copy) (w0 w : world) (s : string) :
  provisioned w0 -> ready w0 w ->
  (forall x, In x (rows w) -> c_id x <> CString s) ->
  exists stamp w',
    Controller.findById (repository_of c w0) (JStr s) w
    = (Ok {| Controller.status := 404;
             Controller.success := false;
             Controller.timestamp := stamp;
             Controller.message := Some "Item not found";
             Controller.data := Some JNull |}, w') /\
    rows w' = rows w /\ ready w0 w'.
Proof.
  intros Hp Hr Hnone.
  unfold Controller.findById, bind.
  rewrite (findById_missing c w0 w s Hp Hr Hnone).
  cbn [truthy negb]. rewrite sendResponse_run.
  eexists. eexists. split; [ reflexivity | ]. split.
  - cbn [rows with_tick].
    now destruct (queried_frame (SelectById (BigqueryService.configured_table w0))
                    [("id", JStr s)] None (rows w) w) as (_ & _ & _ & _ & H & _).
  - apply ready_tick. now apply ready_queried.
Qed.

(** DELETE of a stored item. *)
Lemma delete_handler_present (c : copy) (w0 w : world) (s : string)
    (before after : list row) (r : row) :
  provisioned w0 -> ready w0 w ->
  rows w = (before ++ r :: after)%list ->
  (forall x, In x before -> c_id x <> CString s) ->
  c_id r = CString s ->
  readable c (json_as_text w0) r ->
  exists stamp w',
    Controller.delete (repository_of c w0) (JStr s) w
    = (Ok {| Controller.status := 200;
             Controller.success := true;
             Controller.timestamp := stamp;
             Controller.message := Some "Item deleted successfully";
             Controller.data := Some JNull |}, w') /\
    rows w' = filter (fun x => negb (Warehouse.matches (CString s) x)) (rows w) /\
    ready w0 w'.
Proof.
  intros Hp Hr Hrows Hbefore Hid Hw.
  unfold Controller.delete. unfold bind at 1.
  rewrite (findById_present c w0 w s before after r Hp Hr Hrows Hbefore Hid Hw).
  rewrite listed_truthy. cbn [negb].
  set (w1 := queried (SelectById (BigqueryService.configured_table w0))
               [("id", JStr s)] None (rows w) w).
  assert (Hr1 : ready w0 w1) by now apply ready_queried.
  assert (Hrows1 : rows w1 = rows w).
  { now destruct (queried_frame (SelectById (BigqueryService.configured_table w0))
                    [("id", JStr s)] None (rows w) w) as (_ & _ & _ & _ & H & _). }
  destruct (ready_table w0 w1 Hr1 Hp) as (Ht & Hp1 & Hf & _).
  pose proof (delete_statement_completes w1 s Hp1 Hf) as Hdel. cbv zeta in Hdel.
  rewrite Ht, Hrows1 in Hdel.
  rewrite delete_shape. unfold bind. rewrite Hdel. cbn [ret]. rewrite sendResponse_run.
  eexists. eexists. split; [ reflexivity | ]. split.
  - cbn [rows with_tick].
    now destruct (queried_frame (Delete (BigqueryService.configured_table w0))
                    [("id", JStr s)] None
                    (filter (fun x => negb (Warehouse.matches (CString s) x)) (rows w)) w1)
      as (_ & _ & _ & _ & H & _).
  - apply ready_tick. now apply ready_queried.
Qed.

Lemma filter_fresh (s : string) (l : list row) (r : row) :
  (forall x, In x l -> c_id x <> CString s) ->
  c_id r = CString s ->
  filter (fun x => negb (Warehouse.matches (CString s) x)) (l ++ [r]) = l.
Proof.
  intros Hl Hr. rewrite filter_app. cbn [filter].
  assert (Hm : Warehouse.matches (CString s) r = true) by now apply matches_string.
  rewrite Hm. cbn [negb]. rewrite List.app_nil_r.
  induction l as [ | x l IH ]; [ reflexivity | ].
  cbn [filter].
  destruct (Warehouse.matches (CString s) x) eqn:E.
  - apply matches_string in E. exfalso. apply (Hl x); [ now left | exact E ].
  - cbn [negb]. f_equal. apply IH. intros y Hy. apply Hl. now right.
Qed.
Lemma listed_created (c : copy) (as_text : bool) (id now : string) (i : create_input) :
  valid_input i = true ->
  let row := created_row id now i
               match c with Part000 => data_cell i | BaseCopy => data_text_cell i end in
  get_prop (listed as_text row) "id" = Some (JStr id) /\
  get_prop (listed as_text row) "name" = Some (in_name i) /\
  get_prop (listed as_text row) "value" = Some (defined_or_null (in_value i)) /\
  get_prop (listed as_text row) "data" = Some (or_null (in_data i)) /\
  get_prop (listed as_text row) "created_at" = get_prop (listed as_text row) "updated_at".
Proof.
  intros Hv row. destruct (name_cell_back as_text i Hv) as [Hname Hvalue].
  unfold listed, stored_data, Warehouse.row_to_js, row, created_row.
  cbn [c_id c_name c_value c_data c_created_at c_updated_at set_prop set_assoc get_prop
         assoc String.eqb Ascii.eqb Bool.eqb].
  rewrite Hname, Hvalue. cbn [Warehouse.cell_to_js].
  repeat split.
  unfold or_null, data_cell, data_text_cell.
  destruct c; (destruct (in_data i) as [ d | ]; [ destruct (truthy d) | ]);
    rewrite ?JSONFacts.parse_stringify; reflexivity.
Qed.

(** The CRUD scenario of the API tests, in [part_000], for every valid
    body (a non-empty name; a value that is absent, [null] or an integer
    a JavaScript number holds exactly; data that is absent or JSON whose
    numbers are such integers and whose objects have distinct member
    names).  On a provisioned table, with a client that hands JSON
    columns over as text and a connection that does not fail, and with a
    generated id that no row has yet: the POST answers 201 with the new
    item; the GET of its id answers 200 with the name, the value and the
    data that were posted (null for a value or data that is absent or,
    for the data, falsy); the DELETE answers 200; the GET that follows
    answers 404; and the table is left exactly as it was before. *)
Theorem create_fetch_delete_fetch (w : world) (b : Controller.body) (name : json) :
  provisioned w -> healthy w -> json_as_text w = true ->
  Controller.b_name b = Some name -> valid_input (input_of name b) = true ->
  exact_input (input_of name b) ->
  (forall r, In r (rows w) -> c_id r <> CString (uuid_at w (tick w))) ->
  exists created found deleted gone w',
    crud_session (repository_of Part000 w) b w = (Ok (created, found, deleted, gone), w') /\
    Controller.status created = 201%Z /\
    id_of created = JStr (uuid_at w (tick w)) /\
    Controller.status found = 200%Z /\
    (exists item,
        Controller.data found = Some item /\
        get_prop item "id" = Some (JStr (uuid_at w (tick w))) /\
        get_prop item "name" = Some name /\
        get_prop item "value" = Some (defined_or_null (Controller.b_value b)) /\
        get_prop item "data" = Some (or_null (Controller.b_data b))) /\
    Controller.status deleted = 200%Z /\ Controller.success deleted = true /\
    Controller.status gone = 404%Z /\ Controller.success gone = false /\
    rows w' = rows w.
Proof.
  intros Hp Hh Hjs Hname Hv _ Hfresh.
  set (id := uuid_at w (tick w)) in *.
  set (now := iso_at w (S (tick w))).
  set (i := input_of name b) in *.
  set (row := created_row id now i (data_cell i)).
  assert (Hw : readable Part000 (json_as_text w) row).
  { left. apply (created_row_written Part000). intros _ d _. now left. }
  destruct (create_handler_run Part000 w b name Hp Hh Hname Hv)
    as (t1 & w1 & Hcreate & Hrows1 & Hr1).
  fold id now i row in Hcreate, Hrows1.
  destruct (get_handler_present Part000 w w1 id (rows w) [] row Hp Hr1 Hrows1 Hfresh
              eq_refl Hw)
    as (t2 & w2 & Hget & Hrows2 & Hr2).
  rewrite Hrows1 in Hrows2.
  destruct (delete_handler_present Part000 w w2 id (rows w) [] row Hp Hr2 Hrows2 Hfresh
              eq_refl Hw)
    as (t3 & w3 & Hdel & Hrows3 & Hr3).
  rewrite Hrows2, (filter_fresh id (rows w) row Hfresh eq_refl) in Hrows3.
  assert (Hfresh3 : forall x, In x (rows w3) -> c_id x <> CString id)
    by (rewrite Hrows3; exact Hfresh).
  destruct (get_handler_missing Part000 w w3 id Hp Hr3 Hfresh3)
    as (t4 & w4 & Hgone & Hrows4 & _).
  unfold crud_session.
  unfold bind at 1. rewrite Hcreate.
  assert (Hid : id_of {| Controller.status := 201; Controller.success := true;
                         Controller.timestamp := t1;
                         Controller.message := Some "Item created successfully";
                         Controller.data := Some (created_record id now i) |} = JStr id)
    by reflexivity.
  rewrite Hid.
  unfold bind at 1. rewrite Hget.
  unfold bind at 1. rewrite Hdel.
  unfold bind at 1. rewrite Hgone. cbn [ret].
  do 5 eexists. split; [ reflexivity | ].
  cbn [Controller.status Controller.success Controller.data].
  split; [ reflexivity | ]. split; [ exact Hid | ]. split; [ reflexivity | ].
  split.
  { eexists. split; [ reflexivity | ].
    destruct (listed_created Part000 (json_as_text w) id now i Hv) as (A & B & C & D & _).
    fold row in A, B, C, D. repeat split; assumption. }
  repeat split. now rewrite Hrows4.
Qed.

Lemma create_fetch_delete_fetch_witness :
  exists created found deleted gone w',
    crud_session (repository_of Part000 stocked_world) sample_body stocked_world
    = (Ok (created, found, deleted, gone), w') /\
    Controller.status created = 201%Z /\
    Controller.status found = 200%Z /\
    Controller.status deleted = 200%Z /\
    Controller.status gone = 404%Z /\
    rows w' = [sample_row].
Proof.
  destruct (create_fetch_delete_fetch stocked_world sample_body (JStr "Test Item"))
    as (created & found & deleted & gone & w' & H & A & _ & B & _ & C & _ & D & _ & E).
  - split; reflexivity.
  - intros x [].
  - reflexivity.
  - reflexivity.
  - reflexivity.
  - split.
    + intros n Hn. injection Hn as <-. unfold safe_integer. cbn. lia.
    + intros d Hd. injection Hd as <-. reflexivity.
  - intros r [ <- | [] ]. discriminate.
  - exists created, found, deleted, gone, w'. repeat split; assumption.
Defined.

(* ================================================================== *)
(** * findById: the row it returns *)
(* ================================================================== *)

Lemma exact_row_readable (c : copy) (r : row) : exact_row r -> readable c true r.
Proof.
  intros (_ & _ & [ H | (j & H & _) ]).
  - left. left. exact H.
  - right. split; [ reflexivity | now exists j ].
Qed.

(** The fields of an item read from a row within the bounds. *)
Lemma listed_fields (r : row) (s : string) :
  c_id r = CString s ->
  get_prop (listed true r) "id" = Some (JStr s) /\
  get_prop (listed true r) "name" = Some (Warehouse.cell_to_js true (c_name r)) /\
  get_prop (listed true r) "value" = Some (Warehouse.cell_to_js true (c_value r)) /\
  get_prop (listed true r) "data" = Some (stored_data r).
Proof.
  intros Hid. unfold listed, Warehouse.row_to_js.
  cbn [set_prop set_assoc get_prop assoc String.eqb Ascii.eqb Bool.eqb].
  rewrite Hid. repeat split.
Qed.

(** What [findById] resolves to.  On a provisioned table, with a client
    that hands JSON columns over as text and a call that does not fail,
    in either copy: when one row carries the id (its name a string, its
    value NULL or an integer a JavaScript number holds exactly, its data
    NULL or JSON of such integers and distinct member names), the item
    with the id, the name, the value and the decoded data of that row;
    [null] when no row carries the id.  The rows are not changed. *)
Theorem findById_returns_the_row_with_the_id (c : copy) (w : world) (s : string) :
  provisioned w -> healthy w -> json_as_text w = true ->
  (forall before r after,
      rows w = (before ++ r :: after)%list ->
      (forall x, In x (before ++ after)%list -> c_id x <> CString s) ->
      c_id r = CString s ->
      exact_row r ->
      exists item w',
        m_findById (repository_of c w) (JStr s) w = (Ok item, w') /\
        rows w' = rows w /\
        get_prop item "id" = Some (JStr s) /\
        get_prop item "name" = Some (Warehouse.cell_to_js true (c_name r)) /\
        get_prop item "value" = Some (Warehouse.cell_to_js true (c_value r)) /\
        get_prop item "data" = Some (stored_data r)) /\
  ((forall x, In x (rows w) -> c_id x <> CString s) ->
   exists w',
     m_findById (repository_of c w) (JStr s) w = (Ok JNull, w') /\ rows w' = rows w).
Proof.
  intros Hp Hh Hjs.
  assert (Hrows : forall q ps ts, rows (queried q ps ts (rows w) w) = rows w).
  { intros q ps ts.
    now destruct (queried_frame q ps ts (rows w) w) as (_ & _ & _ & _ & H & _). }
  split.
  - intros before r after Hsplit Hothers Hid Hx.
    assert (Hbefore : forall x, In x before -> c_id x <> CString s)
      by (intros x Hin; apply Hothers, in_or_app; now left).
    assert (Hw : readable c (json_as_text w) r)
      by (rewrite Hjs; now apply exact_row_readable).
    eexists. eexists. split.
    + exact (findById_present c w w s before after r Hp (ready_refl w Hh)
               Hsplit Hbefore Hid Hw).
    + split; [ apply Hrows | ]. rewrite Hjs. now apply listed_fields.
  - intros Hnone. eexists. split; [ | apply Hrows ].
    exact (findById_missing c w w s Hp (ready_refl w Hh) Hnone).
Qed.

(** The stored item of the stocked table, read by its id. *)
Lemma findById_returns_the_row_with_the_id_witness :
  exists item w',
    m_findById (repository_of Part000 stocked_world) (JStr "item-1") stocked_world
    = (Ok item, w') /\
    get_prop item "name" = Some (JStr "Test Item") /\
    get_prop item "value" = Some (JNum 42) /\
    get_prop item "data" = Some (JObj [("foo", JStr "bar")]).
Proof.
  destruct (findById_returns_the_row_with_the_id Part000 stocked_world "item-1")
    as [Hone _].
  - split; reflexivity.
  - intros b [].
  - reflexivity.
  - destruct (Hone [] sample_row []) as (item & w' & Hrun & _ & _ & Hn & Hv & Hd).
    + reflexivity.
    + intros x [].
    + reflexivity.
    + split; [ now exists "Test Item" | ]. split.
      * right. exists 42%Z. split; [ reflexivity | unfold safe_integer; cbn; lia ].
      * right. exists (JObj [("foo", JStr "bar")]). split; reflexivity.
    + exists item, w'. repeat split; assumption.
Defined.

(* ================================================================== *)
(** * From startup to the first request *)
(* ================================================================== *)

(** After startup the API accepts items.  On a connection that does not
    fail and with a port between 1 and 65535, whatever the warehouse held
    before (no dataset, no table, or both already there), [startServer]
    resolves with the server listening and the table provisioned, and a
    POST of a valid body to [part_000] that follows (the value, if a
    number, an integer a JavaScript number holds exactly; the data, if
    any, JSON of such integers and distinct member names) is answered 201
    and appends one row. *)
Theorem startup_then_create (w : world) (b : Controller.body) (name : json) :
  healthy w -> valid_port (server_port (cfg w)) ->
  Controller.b_name b = Some name -> valid_input (input_of name b) = true ->
  exact_input (input_of name b) ->
  exists w1 reply w2 row,
    Server.startServer w = (Ok tt, w1) /\
    listening w1 = Some (server_port (cfg w)) /\
    provisioned w1 /\
    (provisioned w -> rows w1 = rows w) /\
    Controller.create (repository_of Part000 w1) b w1 = (Ok reply, w2) /\
    Controller.status reply = 201%Z /\
    id_of reply = JStr (uuid_at w1 (tick w1)) /\
    rows w2 = (rows w1 ++ [row])%list /\
    c_id row = CString (uuid_at w1 (tick w1)).
Proof.
  intros Hh _ Hname Hv _.
  destruct (ensureTableExists_run (initializing w) Hh)
    as (w' & added & Hens & Hp' & Hh' & Hcfg & _ & _ & Hkeep).
  rewrite startServer_run, Hens. cbn [fst snd].
  set (w1 := snd (Server.app_listen
                    (with_console (console w' ++ [ConsoleLog "BigQuery ready!"])%list w'))).
  assert (Hp1 : provisioned w1) by exact Hp'.
  assert (Hh1 : healthy w1) by exact Hh'.
  destruct (create_handler_run Part000 w1 b name Hp1 Hh1 Hname Hv)
    as (stamp & w2 & Hcreate & Hrows & _).
  exists w1. eexists. exists w2. eexists.
  split; [ reflexivity | ].
  split; [ cbn; now rewrite Hcfg | ].
  split; [ exact Hp1 | ].
  split; [ intros Hp; exact (proj1 (proj2 (Hkeep Hp))) | ].
  split; [ exact Hcreate | ].
  split; [ reflexivity | ]. split; [ reflexivity | ].
  split; [ exact Hrows | reflexivity ].
Qed.

Lemma startup_then_create_witness :
  exists w1 reply w2,
    Server.startServer bare_world = (Ok tt, w1) /\
    Controller.create (repository_of Part000 w1) sample_body w1 = (Ok reply, w2) /\
    Controller.status reply = 201%Z /\
    List.length (rows w2) = S (List.length (rows w1)).
Proof.
  destruct (startup_then_create bare_world sample_body (JStr "Test Item"))
    as (w1 & reply & w2 & row & Hstart & _ & _ & _ & Hcreate & Hstatus & _ & Hrows & _).
  - intros x [].
  - unfold valid_port. cbn. lia.
  - reflexivity.
  - reflexivity.
  - split.
    + intros n Hn. injection Hn as <-. unfold safe_integer. cbn. lia.
    + intros d Hd. injection Hd as <-. reflexivity.
  - exists w1, reply, w2. split; [ exact Hstart | ]. split; [ exact Hcreate | ].
    split; [ exact Hstatus | ].
    rewrite Hrows, length_app. cbn [List.length]. apply Nat.add_1_r.
Defined.

(* ================================================================== *)
(** * Edges: an unknown id *)
(* ================================================================== *)

Lemma patch_rows_unmatched (c : copy) (s now : string) (data : patch) (rs : list row) :
  (forall x, In x rs -> c_id x <> CString s) -> patch_rows c s now data rs = rs.
Proof.
  intros H. unfold patch_rows. induction rs as [ | x rs IH ]; [ reflexivity | ].
  cbn [map]. rewrite IH by (intros y Hy; apply H; now right).
  destruct (Warehouse.matches (CString s) x) eqn:E; [ | reflexivity ].
  apply matches_string in E. exfalso. apply (H x); [ now left | exact E ].
Qed.



(* ================================================================== *)
(** * update through the PUT handler *)
(* ================================================================== *)

Lemma repository_of_cfg (c : copy) (w w' : world) :
  cfg w' = cfg w -> repository_of c w' = repository_of c w.
Proof. intros H. unfold repository_of. now rewrite H. Qed.

(** PUT of a stored item with a valid patch. *)
Lemma update_handler_present (c : copy) (w : world) (s : string)
    (data : patch) (before after : list row) (r : row) :
  provisioned w -> healthy w -> valid_patch data = true ->
  rows w = (before ++ r :: after)%list ->
  (forall x, In x before -> c_id x <> CString s) ->
  c_id r = CString s ->
  readable c (json_as_text w) r ->
  (c = Part000 ->
   forall d, p_data data = Some d -> json_as_text w = true \/ is_string d = false) ->
  let now := iso_at w (tick w) in
  exists stamp w',
    Controller.update (repository_of c w) (JStr s) (body_of data) w
    = (Ok {| Controller.status := 200;
             Controller.success := true;
             Controller.timestamp := stamp;
             Controller.message := Some "Item updated successfully";
             Controller.data := Some (listed (json_as_text w) (patch_row c now data r)) |},
       w') /\
    rows w' = patch_rows c s now data (rows w).
Proof.
  intros Hp Hh Hv Hrows Hbefore Hid Hw Hmode now.
  unfold Controller.update. unfold bind at 1.
  rewrite (findById_present c w w s before after r Hp (ready_refl w Hh)
             Hrows Hbefore Hid Hw).
  rewrite listed_truthy. cbn [negb].
  set (w1 := queried (SelectById (BigqueryService.configured_table w))
               [("id", JStr s)] None (rows w) w).
  assert (Hr1 : ready w w1) by (apply ready_queried; now apply ready_refl).
  destruct (queried_frame (SelectById (BigqueryService.configured_table w))
              [("id", JStr s)] None (rows w) w)
    as (Hcfg & Hjson & _ & _ & Hrows1 & _ & _ & Htick & _ & Hiso & _).
  fold w1 in Hcfg, Hjson, Hrows1, Htick, Hiso.
  destruct (ready_table w w1 Hr1 Hp) as (_ & Hp1 & _ & _).
  assert (Hnow : iso_at w1 (tick w1) = now) by (unfold now; now rewrite Hiso, Htick).
  destruct (update_run c w1 s data before after r Hp1 (proj2 Hr1) Hv)
    as (item & w2 & Hrun & Hitem & Hrows2 & _).
  - now rewrite Hrows1.
  - exact Hbefore.
  - exact Hid.
  - now rewrite Hjson.
  - intros Hc d Hd. rewrite Hjson. now apply Hmode.
  - rewrite (repository_of_cfg c w w1 Hcfg) in Hrun.
    rewrite Hnow, Hjson in Hitem. rewrite Hnow, Hrows1 in Hrows2.
    change {| p_name := Controller.b_name (body_of data);
              p_value := Controller.b_value (body_of data);
              p_data := Controller.b_data (body_of data) |}
      with {| p_name := p_name data; p_value := p_value data; p_data := p_data data |}.
    assert (Hdata : {| p_name := p_name data; p_value := p_value data;
                       p_data := p_data data |} = data) by (destruct data; reflexivity).
    rewrite Hdata. unfold bind. rewrite Hrun, sendResponse_run, Hitem.
    eexists. eexists. split; [ reflexivity | exact Hrows2 ].
Qed.
(** What [update] returns.  On a provisioned table, with a client that
    hands JSON columns over as text and a connection that does not fail,
    for the one row that carries the id (its name a string, its value
    NULL or an integer a JavaScript number holds exactly, its data NULL
    or JSON of such integers and distinct member names) and a valid patch
    within the same bounds (in [baseRepository.js], one without data):
    [update] resolves to a record with that id in which the fields the
    patch names hold the values of the patch (a falsy payload included:
    unlike [create], [update] stores whatever data is defined) and the
    others what the row held.  In the table that row is rewritten in this
    way, with the time of the call as [updated_at], and no other row
    changes.  The PUT handler, which looks the item up first, answers 200
    with the same record. *)
Theorem update_returns_the_patched_record (c : copy) (w : world) (s : string)
    (data : patch) (before after : list row) (r : row) :
  provisioned w -> healthy w -> json_as_text w = true ->
  storable_patch data -> (c = BaseCopy -> p_data data = None) ->
  rows w = (before ++ r :: after)%list ->
  (forall x, In x (before ++ after)%list -> c_id x <> CString s) ->
  c_id r = CString s ->
  exact_row r ->
  let now := iso_at w (tick w) in
  let old := Warehouse.row_to_js true r in
  exists item,
    (exists w',
        m_update (repository_of c w) (JStr s) data w = (Ok item, w') /\
        rows w' = (before ++ patch_row c now data r :: after)%list) /\
    (exists stamp w',
        Controller.update (repository_of c w) (JStr s) (body_of data) w
        = (Ok {| Controller.status := 200;
                 Controller.success := true;
                 Controller.timestamp := stamp;
                 Controller.message := Some "Item updated successfully";
                 Controller.data := Some item |},
           w') /\
        rows w' = (before ++ patch_row c now data r :: after)%list) /\
    get_prop item "id" = Some (JStr s) /\
    get_prop item "name" = match p_name data with
                           | Some n => Some n
                           | None => get_prop old "name"
                           end /\
    get_prop item "value" = match p_value data with
                            | Some v => Some v
                            | None => get_prop old "value"
                            end /\
    get_prop item "data" = match p_data data with
                           | Some d => Some d
                           | None => Some (stored_data r)
                           end.
Proof.
  intros Hp Hh Hjs (Hv & _ & _) _ Hrows Hothers Hid Hx now old.
  assert (Hbefore : forall x, In x before -> c_id x <> CString s)
    by (intros x Hin; apply Hothers, in_or_app; now left).
  assert (Hafter : forall x, In x after -> c_id x <> CString s)
    by (intros x Hin; apply Hothers, in_or_app; now right).
  assert (Hw : readable c (json_as_text w) r)
    by (rewrite Hjs; now apply exact_row_readable).
  assert (Hmode : c = Part000 ->
                  forall d, p_data data = Some d ->
                            json_as_text w = true \/ is_string d = false)
    by (intros _ d _; now left).
  assert (Hnew : patch_rows c s now data (rows w)
                 = (before ++ patch_row c now data r :: after)%list).
  { rewrite Hrows, (patch_rows_split c s now data before after r Hbefore Hid).
    now rewrite (patch_rows_unmatched c s now data after Hafter). }
  destruct (update_run c w s data before after r Hp Hh Hv Hrows Hbefore Hid Hw Hmode)
    as (item & w1 & Hrun & Hitem & Hrows1 & Fid & Fname & Fvalue & Fdata & _).
  destruct (update_handler_present c w s data before after r
              Hp Hh Hv Hrows Hbefore Hid Hw Hmode)
    as (stamp & w2 & Hput & Hrows2).
  fold now in Hitem, Hrows1, Hput, Hrows2. rewrite Hjs in Fname, Fvalue.
  exists item. split; [ | split ].
  - exists w1. split; [ exact Hrun | now rewrite Hrows1 ].
  - exists stamp, w2. split; [ now rewrite Hitem | now rewrite Hrows2 ].
  - repeat split; assumption.
Qed.

(** The PUT of the API tests on the stocked table. *)
Lemma update_returns_the_patched_record_witness :
  exists item w',
    m_update (repository_of Part000 stocked_world) (JStr "item-1") renaming_patch
      stocked_world
    = (Ok item, w') /\
    rows w' = [renamed_row "2024-01-01T00:00:00Z"] /\
    get_prop item "name" = Some (JStr "Updated Item") /\
    get_prop item "value" = Some (JNum 100) /\
    get_prop item "data" = Some (JObj [("foo", JStr "bar")]).
Proof.
  destruct (update_returns_the_patched_record Part000 stocked_world "item-1"
              renaming_patch [] [] sample_row)
    as (item & (w' & Hrun & Hrows) & _ & _ & Hn & Hv & Hd).
  - split; reflexivity.
  - intros b [].
  - reflexivity.
  - split; [ reflexivity | split ].
    + intros n H. injection H as <-. unfold safe_integer. cbn. lia.
    + intros d H. discriminate H.
  - discriminate.
  - reflexivity.
  - intros x [].
  - reflexivity.
  - split; [ now exists "Test Item" | ]. split.
    + right. exists 42%Z. split; [ reflexivity | unfold safe_integer; cbn; lia ].
    + right. exists (JObj [("foo", JStr "bar")]). split; reflexivity.
  - exists item, w'. repeat split; assumption.
Defined.

(* ================================================================== *)
(** * update: the statement it sends and what it writes *)
(* ================================================================== *)

(** The clauses and the parameters [update] assembles, spelled out:
    [updated_at] first, then each field of the patch that is present. *)
Lemma update_build_parts (c : copy) (id : json) (now : string) (data : patch) :
  set_clauses_of c id now data
  = (("updated_at", Param "updated_at")
     :: match p_name data with
        | Some _ => [("name", Param "name")]
        | None => []
        end
     ++ match p_value data with
        | Some _ => [("value", Param "value")]
        | None => []
        end
     ++ match p_data data with
        | Some _ => [("data", match c with
                              | Part000 => ParseJson "data"
                              | BaseCopy => Param "data"
                              end)]
        | None => []
        end)%list /\
  update_params_of c id now data
  = (("id", id) :: ("updated_at", JStr now)
     :: match p_name data with
        | Some n => [("name", n)]
        | None => []
        end
     ++ match p_value data with
        | Some v => [("value", v)]
        | None => []
        end
     ++ match p_data data with
        | Some d => [("data", JStr (JSON.stringify d))]
        | None => []
        end)%list.
Proof. destruct c, data as [ [ n | ] [ v | ] [ d | ] ]; split; reflexivity. Qed.

(** The first call of [update] is its UPDATE statement. *)
Lemma update_first_call (c : copy) (w : world) (id : json) (data : patch) :
  let now := iso_at w (tick w) in
  exists o later,
    calls (snd (m_update (repository_of c w) id data w))
    = (calls w ++ CallQuery o :: later)%list /\
    query o = Update (BigqueryService.configured_table w) (set_clauses_of c id now data) /\
    params o = update_params_of c id now data /\
    types o = update_types_of c id now data.
Proof.
  intros now. rewrite update_shape. fold now.
  set (t := BigqueryService.configured_table w).
  set (w0 := with_tick (S (tick w)) w).
  set (q := Update t (set_clauses_of c id now data)).
  set (ps := update_params_of c id now data).
  set (ts := update_types_of c id now data).
  exists (options_of q ps ts w0).
  pose proof (executeQuery_records_call q ps ts w0) as Hc.
  change (calls w0) with (calls w) in Hc.
  unfold bind.
  destruct (BigqueryService.executeQuery q ps ts w0) as [ [ res | e ] w1 ]; cbn [snd] in Hc.
  - exists [CallQuery (options_of (SelectById t) [("id", id)] None w1)].
    split; [ | repeat split ].
    rewrite findById_shape. fold t. unfold bind.
    pose proof (executeQuery_records_call (SelectById t) [("id", id)] None w1) as Hs.
    destruct (BigqueryService.executeQuery (SelectById t) [("id", id)] None w1)
      as [ [ found | e ] w2 ]; cbn [snd] in Hs.
    + assert (Hw : snd (match found with
                        | [] => ret JNull
                        | row :: _ => decode_of c row
                        end w2) = w2).
      { destruct found as [ | row found ]; [ reflexivity | ].
        destruct (decode_world row w2) as [A B]. destruct c; assumption. }
      rewrite Hw, Hs, Hc, <- app_assoc. reflexivity.
    + cbn [snd]. rewrite Hs, Hc, <- app_assoc. reflexivity.
  - exists []. split; [ cbn [snd]; exact Hc | repeat split ].
Qed.

(** The rows after [update] of a patch the warehouse takes. *)
Lemma update_writes (c : copy) (w : world) (s : string) (data : patch) :
  provisioned w -> next_call_fails w = false -> valid_patch data = true ->
  let now := iso_at w (tick w) in
  rows (snd (m_update (repository_of c w) (JStr s) data w))
  = patch_rows c s now data (rows w).
Proof.
  intros Hp Hf Hv now. rewrite update_shape. fold now.
  set (t := BigqueryService.configured_table w).
  set (w0 := with_tick (S (tick w)) w).
  destruct (update_statement_run c s now data t Hv) as (env & Hb & Hrun).
  set (q := Update t (set_clauses_of c (JStr s) now data)) in *.
  set (ps := update_params_of c (JStr s) now data) in *.
  set (ts := update_types_of c (JStr s) now data) in *.
  assert (Hq : BigqueryService.executeQuery q ps ts w0
               = (Ok [], queried q ps ts (patch_rows c s now data (rows w)) w0)).
  { apply executeQuery_ok with (env := env);
      [ exact Hb | exact Hf | exact (provisioned_reachable w0 Hp) | apply Hrun ]. }
  unfold bind. rewrite Hq. rewrite findById_keeps_rows.
  now destruct (queried_frame q ps ts (patch_rows c s now data (rows w)) w0)
    as (_ & _ & _ & _ & H & _).
Qed.

(** C2.  For every id and patch, in either copy of the repository.  The
    first statement [update] sends is an UPDATE of the items table whose
    SET clause assigns [updated_at] and exactly the fields of the patch
    that are not [undefined], each from a parameter that carries the
    value of the patch (the data as its JSON text), and which binds no
    parameter for an omitted field.  After [update], whatever its
    outcome, every row has its id, its creation time and each omitted
    field as before, and rows with another id are untouched; when
    [update] resolved, every row with the id carries the new
    [updated_at].  On a provisioned table and a connection that does not
    fail, a patch within the bounds of the columns is written: the rows
    with the id hold the name, the value and the data of the patch where
    it gives them (in [baseRepository.js], for a patch without data, as
    it binds the text of the data to the column).  And a patch without
    fields is not an error: the UPDATE statement is issued, completes
    with [updated_at] as its only assignment, and the row is re-read. *)
Theorem update_sets_present_fields_only
    (c : copy) (w : world) (s : string) (data : patch) :
  let repo := repository_of c w in
  let now := iso_at w (tick w) in
  let r := m_update repo (JStr s) data w in
  (exists o later,
      calls (snd r) = (calls w ++ CallQuery o :: later)%list /\
      query o
      = Update (BigqueryService.configured_table w)
          (("updated_at", Param "updated_at")
           :: match p_name data with
              | Some _ => [("name", Param "name")]
              | None => []
              end
           ++ match p_value data with
              | Some _ => [("value", Param "value")]
              | None => []
              end
           ++ match p_data data with
              | Some _ => [("data", match c with
                                    | Part000 => ParseJson "data"
                                    | BaseCopy => Param "data"
                                    end)]
              | None => []
              end)%list /\
      params o
      = (("id", JStr s) :: ("updated_at", JStr now)
         :: match p_name data with
            | Some n => [("name", n)]
            | None => []
            end
         ++ match p_value data with
            | Some v => [("value", v)]
            | None => []
            end
         ++ match p_data data with
            | Some d => [("data", JStr (JSON.stringify d))]
            | None => []
            end)%list) /\
  Forall2 (patched s data) (rows w) (rows (snd r)) /\
  (forall item,
      fst r = Ok item ->
      forall r', In r' (rows (snd r)) -> c_id r' = CString s ->
                 c_updated_at r' = CString now) /\
  (provisioned w -> healthy w -> storable_patch data ->
   (c = BaseCopy -> p_data data = None) ->
   rows (snd r) = patch_rows c s now data (rows w)) /\
  (provisioned w -> healthy w -> data = empty_patch ->
   r = m_findById repo (JStr s) (after_refresh c w s) /\
   rows (snd r) = map (refreshed s now) (rows w) /\
   exists o,
     calls (after_refresh c w s) = (calls w ++ [CallQuery o])%list /\
     query o = Update (BigqueryService.configured_table w)
                 [("updated_at", Param "updated_at")]).
Proof.
  intros repo now r.
  split; [ | split; [ | split; [ | split ] ] ].
  - destruct (update_first_call c w (JStr s) data) as (o & later & Hcalls & Hq & Hps & _).
    destruct (update_build_parts c (JStr s) now data) as [Hsets Hparams].
    cbv zeta in Hq, Hps. fold now in Hq, Hps.
    exists o, later. split; [ exact Hcalls | ].
    split; [ now rewrite Hq, Hsets | now rewrite Hps, Hparams ].
  - destruct (update_rows_outcome c w s data) as [[Hrows _] | Hall].
    + fold repo r in Hrows. rewrite Hrows.
      apply Forall2_refl_on. apply patched_refl.
    + eapply Forall2_weaken; [ | exact Hall ]. intros x y H. apply H.
  - intros item Hok r' Hin Hid.
    destruct (update_rows_outcome c w s data) as [[_ Hfail] | Hall].
    + now destruct (Hfail item).
    + destruct (Forall2_in_right _ _ _ r' Hall Hin) as (x & _ & [Hp Hup]).
      apply Hup. destruct Hp as (Hsame & _). congruence.
  - intros Hp Hh (Hv & _ & _) _.
    exact (update_writes c w s data Hp (healthy_next w Hh) Hv).
  - intros Hp Hh ->.
    pose proof (empty_patch_run c w s Hp (healthy_next w Hh)) as Hrun.
    fold repo in Hrun. split; [ exact Hrun | split ].
    + unfold r. rewrite Hrun. unfold repo. rewrite findById_keeps_rows.
      unfold after_refresh.
      match goal with
      | |- rows (queried ?q ?ps ?ts ?rs ?w0) = _ =>
          now destruct (queried_frame q ps ts rs w0) as (_ & _ & _ & _ & H & _)
      end.
    + eexists. split.
      * unfold after_refresh.
        match goal with
        | |- calls (queried ?q ?ps ?ts ?rs ?w0) = _ =>
            destruct (queried_frame q ps ts rs w0) as (_ & _ & _ & _ & _ & _ & H & _);
            exact H
        end.
      * reflexivity.
Qed.

(** Witness for C2: the PUT of the API tests, [update(id, { name, value })]
    on the stocked table, writes the name and the value and keeps the
    data and the creation time. *)
Lemma update_sets_present_fields_only_witness :
  rows (snd (m_update (repository_of Part000 stocked_world) (JStr "item-1")
               renaming_patch stocked_world))
  = [renamed_row "2024-01-01T00:00:00Z"].
Proof.
  refine (proj1 (proj2 (proj2 (proj2
            (update_sets_present_fields_only Part000 stocked_world "item-1"
               renaming_patch)))) _ _ _ _).
  - split; reflexivity.
  - intros b [].
  - split; [ reflexivity | split ].
    + intros n H. injection H as <-. unfold safe_integer. cbn. lia.
    + intros d H. discriminate H.
  - discriminate.
Defined.

(** [update] is not all or nothing.  It sends the UPDATE and then reads
    the record back with a second statement; when the UPDATE goes through
    and the connection drops the re-read, [update] rejects although the
    rows have been changed: on a provisioned table, for a patch within
    the bounds of the columns (in [baseRepository.js], one without data),
    every row with the id holds the fields of the patch and the new
    [updated_at]. *)
Theorem update_can_reject_after_writing (c : copy) (w : world) (s : string)
    (data : patch) (rest : list bool) :
  provisioned w -> storable_patch data -> (c = BaseCopy -> p_data data = None) ->
  faults w = false :: true :: rest ->
  let now := iso_at w (tick w) in
  exists e w2,
    m_update (repository_of c w) (JStr s) data w = (Throw e, w2) /\
    rows w2 = patch_rows c s now data (rows w).
Proof.
  intros Hp (Hv & _ & _) _ Hfaults now.
  rewrite update_shape. fold now.
  set (t := BigqueryService.configured_table w).
  set (w0 := with_tick (S (tick w)) w).
  destruct (update_statement_run c s now data t Hv) as (env & Hb & Hrun).
  set (q := Update t (set_clauses_of c (JStr s) now data)) in *.
  set (ps := update_params_of c (JStr s) now data) in *.
  set (ts := update_types_of c (JStr s) now data) in *.
  assert (Hf0 : next_call_fails w0 = false).
  { unfold next_call_fails. change (faults w0) with (faults w). now rewrite Hfaults. }
  assert (Hq : BigqueryService.executeQuery q ps ts w0
               = (Ok [], queried q ps ts (patch_rows c s now data (rows w)) w0)).
  { apply executeQuery_ok with (env := env);
      [ exact Hb | exact Hf0 | exact (provisioned_reachable w0 Hp) | apply Hrun ]. }
  unfold bind at 1. rewrite Hq.
  set (w1 := queried q ps ts (patch_rows c s now data (rows w)) w0).
  destruct (queried_frame q ps ts (patch_rows c s now data (rows w)) w0)
    as (_ & _ & _ & _ & Hr1 & Hfa & _).
  fold w1 in Hr1, Hfa.
  assert (Hf1 : next_call_fails w1 = true).
  { unfold next_call_fails. rewrite Hfa. change (faults w0) with (faults w).
    now rewrite Hfaults. }
  rewrite findById_shape. unfold bind. rewrite executeQuery_run.
  cbn [Warehouse.bind_params Warehouse.bind_param Warehouse.declared]. rewrite Hf1.
  eexists. eexists. split; [ reflexivity | ].
  rewrite <- Hr1.
  now destruct (refused_frame true (SelectById (BigqueryService.configured_table w))
                  [("id", JStr s)] None w1) as (_ & _ & _ & _ & H & _).
Qed.

(** The PUT of the API tests on a connection that carries one call and
    drops the next: [update] rejects, and the row is renamed. *)
Lemma update_can_reject_after_writing_witness :
  exists e w2,
    m_update (repository_of Part000 flaky_world) (JStr "item-1") renaming_patch flaky_world
    = (Throw e, w2) /\
    rows w2 = [renamed_row "2024-01-01T00:00:00Z"].
Proof.
  refine (update_can_reject_after_writing Part000 flaky_world "item-1" renaming_patch []
            _ _ _ _).
  - split; reflexivity.
  - split; [ reflexivity | split ].
    + intros n H. injection H as <-. unfold safe_integer. cbn. lia.
    + intros d H. discriminate H.
  - discriminate.
  - reflexivity.
Defined.
